(** * Diabetes prediction API (app.py): inference and recommendation pipeline

    A shallow embedding of the request handlers and rule tables of
    [app.py], and the properties its specification states about them.

    Python values that reach the code are JSON values; the handlers are
    functions into an error monad ([exc]) in which a raised exception is
    [inl].  The external collaborators (the pickled model, its scaler,
    pandas, the interpreter's own [repr] of floats and the text of the
    messages of built-in exceptions) are parameters. *)

From Stdlib Require Import ZArith List String Ascii Bool Lia Permutation.
From Stdlib Require Import SpecFloat DecimalString.
Import ListNotations.

Local Open Scope string_scope.
Local Open Scope list_scope.
Local Open Scope Z_scope.

(* ===================================================================== *)
(** ** Python values *)
(* ===================================================================== *)

(** The result of [json.loads]: [int] is unbounded, [float] is IEEE
    binary64 (a [spec_float] read with precision 53), and an object keeps
    its keys in insertion order. *)
#[warnings="-register-all"]
Inductive pyval : Type :=
| VNone
| VBool (b : bool)
| VInt (z : Z)
| VFloat (f : spec_float)
| VStr (s : string)
| VList (l : list pyval)
| VDict (d : list (string * pyval)).

(** A [dict] with [str] keys, in insertion order.  Lookup takes the first
    binding of a key; a Python dict has one binding per key ([dict_wf]). *)
Definition dict := list (string * pyval).

Definition keys (d : dict) : list string := map fst d.

Definition dict_wf (d : dict) : Prop := NoDup (keys d).

Fixpoint dict_lookup (d : dict) (k : string) : option pyval :=
  match d with
  | [] => None
  | (k', v) :: rest => if String.eqb k' k then Some v else dict_lookup rest k
  end.

(** [k in d] *)
Definition dict_mem (d : dict) (k : string) : bool :=
  match dict_lookup d k with Some _ => true | None => false end.

(** [d.get(k, default)] *)
Definition dict_get (d : dict) (k : string) (default : pyval) : pyval :=
  match dict_lookup d k with Some v => v | None => default end.

(* ===================================================================== *)
(** ** Exceptions *)
(* ===================================================================== *)

(** Exceptions raised by the interpreter and by pandas on the paths the
    handlers take; all of them are subclasses of [Exception]. *)
Inductive builtin_error : Type :=
| TypeError_order (v : pyval)            (* v >= <int> on an unordered type *)
| TypeError_not_iterable (v : pyval)     (* 'k' in v, enumerate(v) *)
| TypeError_not_subscriptable (v : pyval)(* v['k'] *)
| AttributeError_get (v : pyval)         (* v.get(...) on a non-mapping *)
| KeyError_key (k : string)              (* d['k'] *)
| KeyError_columns (missing : list string) (* frame[FEATURES] *)
| IndexError_index (i : Z).              (* seq[i] *)

Inductive exn : Type :=
| Builtin (b : builtin_error)
| Raised (msg : string).                 (* raised inside the model or scaler *)

Definition exc (A : Type) : Type := (exn + A)%type.

Definition ret {A : Type} (a : A) : exc A := inr a.
Definition raise {A : Type} (b : builtin_error) : exc A := inl (Builtin b).
Definition bind {A B : Type} (c : exc A) (k : A -> exc B) : exc B :=
  match c with
  | inl e => inl e
  | inr a => k a
  end.

Declare Scope exc_scope.
Delimit Scope exc_scope with exc.
Notation "x <- c ;; k" := (bind c (fun x => k))
  (at level 61, c at next level, right associativity) : exc_scope.
Notation "' p <- c ;; k" := (bind c (fun x => let p := x in k))
  (at level 61, p pattern, c at next level, right associativity) : exc_scope.
Local Open Scope exc_scope.

(** What the interpreter and pandas provide and the repository does not
    define. *)
Record Runtime : Type := {
  py_repr : pyval -> string;              (* repr of a float or container *)
  builtin_msg : builtin_error -> string;  (* str(e) of a built-in exception *)
  frame_of_other : pyval -> list string -> exc (list pyval)
    (* pd.DataFrame([v])[columns] for a [v] that is not a mapping *)
}.

(** [str(e)] *)
Definition exn_str (rt : Runtime) (e : exn) : string :=
  match e with
  | Builtin b => builtin_msg rt b
  | Raised msg => msg
  end.

(* ===================================================================== *)
(** ** Operators on values *)
(* ===================================================================== *)

(** Python compares a float with an int exactly; [None] is "unordered"
    (NaN). *)
Definition float_cmp_int (f : spec_float) (k : Z) : option comparison :=
  match f with
  | S754_zero _ => Some (0 ?= k)
  | S754_infinity false => Some Gt
  | S754_infinity true => Some Lt
  | S754_nan => None
  | S754_finite s m e =>
      let sm := if s then Z.neg m else Z.pos m in
      if 0 <=? e then Some (sm * 2 ^ e ?= k) else Some (sm ?= k * 2 ^ (- e))
  end.

(** [v == k] for an int literal [k]; never raises. *)
Definition py_eq_int (v : pyval) (k : Z) : bool :=
  match v with
  | VInt z => z =? k
  | VBool b => (if b then 1 else 0) =? k
  | VFloat f => match float_cmp_int f k with Some Eq => true | _ => false end
  | _ => false
  end.

(** [v >= k] for an int literal [k]; raises [TypeError] unless [v] is a
    number. *)
Definition py_ge_int (v : pyval) (k : Z) : exc bool :=
  match v with
  | VInt z => ret (k <=? z)
  | VBool b => ret (k <=? (if b then 1 else 0))
  | VFloat f =>
      ret (match float_cmp_int f k with Some (Eq | Gt) => true | _ => false end)
  | _ => raise (TypeError_order v)
  end.

Definition is_number (v : pyval) : bool :=
  match v with
  | VInt _ | VBool _ | VFloat _ => true
  | _ => false
  end.

Definition int_str (z : Z) : string := NilZero.string_of_int (Z.to_int z).

(** [str(v)], as an f-string field renders it. *)
Definition py_str (rt : Runtime) (v : pyval) : string :=
  match v with
  | VInt z => int_str z
  | VBool b => if b then "True" else "False"
  | VStr s => s
  | VNone => "None"
  | VFloat _ | VList _ | VDict _ => py_repr rt v
  end.

(** [bool(v)] *)
Definition truthy (v : pyval) : bool :=
  match v with
  | VNone => false
  | VBool b => b
  | VInt z => negb (z =? 0)
  | VFloat (S754_zero _) => false
  | VFloat _ => true
  | VStr s => negb (String.eqb s "")
  | VList l => match l with [] => false | _ => true end
  | VDict d => match d with [] => false | _ => true end
  end.

Definition is_str (k : string) (v : pyval) : bool :=
  match v with VStr s => String.eqb s k | _ => false end.

Fixpoint is_substring (k s : string) : bool :=
  if String.prefix k s then true
  else match s with
       | EmptyString => false
       | String _ s' => is_substring k s'
       end.

(** ['k' in v] *)
Definition py_in (k : string) (v : pyval) : exc bool :=
  match v with
  | VDict d => ret (dict_mem d k)
  | VList l => ret (existsb (is_str k) l)
  | VStr s => ret (is_substring k s)
  | _ => raise (TypeError_not_iterable v)
  end.

(** [v['k']] *)
Definition py_getitem (v : pyval) (k : string) : exc pyval :=
  match v with
  | VDict d =>
      match dict_lookup d k with
      | Some x => ret x
      | None => raise (KeyError_key k)
      end
  | _ => raise (TypeError_not_subscriptable v)
  end.

(** [seq[i]] on a list, for a non-negative literal index. *)
Definition py_index {A : Type} (l : list A) (i : nat) : exc A :=
  match nth_error l i with
  | Some a => ret a
  | None => raise (IndexError_index (Z.of_nat i))
  end.

(* ===================================================================== *)
(** ** Floats and arrays *)
(* ===================================================================== *)

(** A 2-D numeric array, one row per sample. *)
Definition matrix := list (list spec_float).

(** numpy [float32] arithmetic: binary32. *)
Definition f32_sub : spec_float -> spec_float -> spec_float := SFsub 24 128.
Definition f32_one : spec_float := S754_finite false 8388608 (-23).
Definition f32_half : spec_float := S754_finite false 8388608 (-24).

(** Python [float] arithmetic: binary64. *)
Definition f64_mul : spec_float -> spec_float -> spec_float := SFmul 53 1024.
Definition f64_of_Z (z : Z) : spec_float := binary_normalize 53 1024 z 0 false.

(** [.tolist()] turns the entries of a numpy row into Python floats (the
    same number, as a binary64). *)
Definition to_float (f : spec_float) : spec_float :=
  match f with
  | S754_finite s m e =>
      binary_normalize 53 1024 (if s then Z.neg m else Z.pos m) e s
  | _ => f
  end.

Definition tolist (row : list spec_float) : list spec_float := map to_float row.

(** The number a finite binary32 denotes, in units of [2^-149] (every
    finite binary32 is a whole number of them). *)
Definition f32_units (f : spec_float) : option Z :=
  match f with
  | S754_zero _ => Some 0
  | S754_finite s m e => Some ((if s then Z.neg m else Z.pos m) * 2 ^ (e + 149))
  | S754_infinity _ | S754_nan => None
  end.

(** [q + p] is within [2^-25] of 1. *)
Definition sums_to_one (q p : spec_float) : bool :=
  match f32_units q, f32_units p with
  | Some uq, Some up => Z.abs (uq + up - 2 ^ 149) <=? 2 ^ 124
  | _, _ => false
  end.

(** A well-formed binary32 in [0, 1]. *)
Definition is_probability (p : spec_float) : bool :=
  valid_binary 24 128 p && SFleb (S754_zero false) p && SFleb p f32_one.

(** The record after [j] right shifts of [x]: the quotient, and the
    position of the remainder against half of [2^j]. *)
Definition shr_inv (x j : Z) (mrs : shr_record) : Prop :=
  shr_m mrs = x / 2 ^ j
  /\ (shr_r mrs = true <-> 2 ^ j <= 2 * (x mod 2 ^ j))
  /\ (shr_s mrs = true <-> x mod 2 ^ j <> 0 /\ 2 * (x mod 2 ^ j) <> 2 ^ j).

(** [max(xs)] on a non-empty list: the first of the greatest items. *)
Definition py_max (x : spec_float) (xs : list spec_float) : spec_float :=
  fold_left (fun best item => if SFltb best item then item else best) xs x.

(* ===================================================================== *)
(** ** Classifier adapter *)
(* ===================================================================== *)

(** The capabilities the handlers use of [MODEL]: [predict], and
    [predict_proba] when [hasattr(MODEL, 'predict_proba')]. *)
Record Classifier : Type := {
  clf_predict : matrix -> exc (list Z);
  clf_predict_proba : option (matrix -> exc (list (list spec_float)))
}.

(** An [xgboost.Booster]: [booster.predict(xgb.DMatrix(X))] gives one
    float32 score per row, or raises. *)
Record Booster : Type := {
  booster_predict : matrix -> exc (list spec_float)
}.

Module XGBoostBoosterWrapper.

(** [(proba > 0.5).astype(int)] *)
Definition predict (booster : Booster) (X : matrix) : exc (list Z) :=
  proba <- booster_predict booster X ;;
  ret (map (fun p => if SFltb f32_half p then 1 else 0) proba).

(** [np.column_stack([1 - proba, proba])] *)
Definition predict_proba (booster : Booster) (X : matrix)
    : exc (list (list spec_float)) :=
  proba <- booster_predict booster X ;;
  ret (map (fun p => [f32_sub f32_one p; p]) proba).

Definition as_classifier (booster : Booster) : Classifier :=
  {| clf_predict := predict booster;
     clf_predict_proba := Some (predict_proba booster) |}.

End XGBoostBoosterWrapper.

(** [SCALER.transform(input_df)] on a one-row frame. *)
Record Scaler : Type := {
  transform : list pyval -> exc matrix
}.

(** The globals set from [joblib.load(MODEL_PATH)] when loading succeeds;
    when it fails they are all reset ([MODEL = None]). *)
Record ModelData : Type := {
  MODEL : Classifier;
  SCALER : Scaler;
  FEATURES : list string;
  MODEL_NAME : string
}.

(* ===================================================================== *)
(** ** Risk factors *)
(* ===================================================================== *)

Record RiskFactor : Type := {
  factor : string;
  severity : string;
  description : string
}.

Section Pipeline.

Variable rt : Runtime.

(** [get_risk_factors(features)]: the list [risk_factors] is threaded
    through the seven rules, each of which appends to it or leaves it. *)
Definition get_risk_factors (features : dict) : exc (list RiskFactor) :=
  let risk_factors := [] in
  let risk_factors :=
    if py_eq_int (dict_get features "HighBP" (VInt 0)) 1 then
      risk_factors ++ [{| factor := "High Blood Pressure";
                          severity := "high";
                          description := "Elevated blood pressure increases diabetes risk" |}]
    else risk_factors in
  let risk_factors :=
    if py_eq_int (dict_get features "HighChol" (VInt 0)) 1 then
      risk_factors ++ [{| factor := "High Cholesterol";
                          severity := "high";
                          description := "High cholesterol is associated with diabetes" |}]
    else risk_factors in
  let bmi := dict_get features "BMI" (VInt 0) in
  obese <- py_ge_int bmi 30 ;;
  risk_factors <-
    (if obese then
       ret (risk_factors ++ [{| factor := ("High BMI (" ++ py_str rt bmi ++ ")")%string;
                                severity := "critical";
                                description := "Obesity significantly increases diabetes risk" |}])
     else
       overweight <- py_ge_int bmi 25 ;;
       if overweight then
         ret (risk_factors ++ [{| factor := ("Overweight BMI (" ++ py_str rt bmi ++ ")")%string;
                                  severity := "moderate";
                                  description := "Being overweight increases diabetes risk" |}])
       else ret risk_factors) ;;
  let risk_factors :=
    if py_eq_int (dict_get features "HeartDiseaseorAttack" (VInt 0)) 1 then
      risk_factors ++ [{| factor := "Heart Disease";
                          severity := "high";
                          description := "Cardiovascular disease is linked to diabetes" |}]
    else risk_factors in
  let risk_factors :=
    if py_eq_int (dict_get features "PhysActivity" (VInt 0)) 0 then
      risk_factors ++ [{| factor := "Low Physical Activity";
                          severity := "moderate";
                          description := "Lack of exercise increases diabetes risk" |}]
    else risk_factors in
  let risk_factors :=
    if py_eq_int (dict_get features "Smoker" (VInt 0)) 1 then
      risk_factors ++ [{| factor := "Smoking";
                          severity := "high";
                          description := "Smoking increases diabetes risk by 30-40%" |}]
    else risk_factors in
  let gen_health := dict_get features "GenHlth" (VInt 3) in
  poor <- py_ge_int gen_health 4 ;;
  let risk_factors :=
    if poor then
      risk_factors ++ [{| factor := "Poor General Health";
                          severity := "moderate";
                          description := "Poor health status correlates with diabetes" |}]
    else risk_factors in
  ret risk_factors.

(* ===================================================================== *)
(** ** Recommendations *)
(* ===================================================================== *)

Definition HIGH_PRIORITY : string :=
  "⚠️ HIGH PRIORITY: Multiple critical risk factors detected. Consult a healthcare provider immediately.".
Definition ELEVATED_RISK : string :=
  "⚠️ ELEVATED RISK: Schedule an appointment with your healthcare provider for comprehensive evaluation.".
Definition MAINTAIN_HEALTHY_HABITS : string :=
  "✅ MAINTAIN HEALTHY HABITS: Continue preventive measures and regular health monitoring.".

(** [get_emergency_note(prediction, risk_factors)] *)
Definition get_emergency_note (prediction : Z) (risk_factors : list RiskFactor) : string :=
  let critical_factors :=
    filter (fun rf => String.eqb (severity rf) "critical") risk_factors in
  if (prediction =? 1) && (2 <? Z.of_nat (List.length critical_factors)) then HIGH_PRIORITY
  else if prediction =? 1 then ELEVATED_RISK
  else MAINTAIN_HEALTHY_HABITS.

Record RecommendationBundle : Type := {
  ai_generated : bool;
  emergency_note : string;
  lifestyle : list string;
  medical : list string;
  nutrition : list string;
  exercise : list string
}.

(** [recommendations[category].append(x)] and [.extend(xs)] *)
Definition extend_lifestyle (xs : list string) (r : RecommendationBundle) :=
  {| ai_generated := ai_generated r; emergency_note := emergency_note r;
     lifestyle := lifestyle r ++ xs; medical := medical r;
     nutrition := nutrition r; exercise := exercise r |}.
Definition extend_medical (xs : list string) (r : RecommendationBundle) :=
  {| ai_generated := ai_generated r; emergency_note := emergency_note r;
     lifestyle := lifestyle r; medical := medical r ++ xs;
     nutrition := nutrition r; exercise := exercise r |}.
Definition extend_nutrition (xs : list string) (r : RecommendationBundle) :=
  {| ai_generated := ai_generated r; emergency_note := emergency_note r;
     lifestyle := lifestyle r; medical := medical r;
     nutrition := nutrition r ++ xs; exercise := exercise r |}.
Definition extend_exercise (xs : list string) (r : RecommendationBundle) :=
  {| ai_generated := ai_generated r; emergency_note := emergency_note r;
     lifestyle := lifestyle r; medical := medical r;
     nutrition := nutrition r; exercise := exercise r ++ xs |}.

Definition QUIT_SMOKING : string :=
  "🚭 Quit smoking - reduces diabetes risk by 30-40% within 5 years".
Definition START_EXERCISE : list string :=
  [ "🏃 Start with 30 minutes of moderate exercise 5 days per week";
    "💪 Include both cardio and strength training exercises" ].
Definition CALORIE_DEFICIT : string :=
  "🥗 Follow a balanced diet with calorie deficit for weight loss".
Definition GENERIC_NUTRITION : list string :=
  [ "🍎 Increase fiber intake: whole grains, vegetables, fruits";
    "🥤 Limit sugary drinks and processed foods";
    "🍽️ Practice portion control and regular meal timing";
    "💧 Stay hydrated: 8-10 glasses of water daily" ].
Definition MONITOR_BP : string :=
  "🩺 Monitor blood pressure regularly, target <130/80 mmHg".
Definition MONITOR_CHOL : string :=
  "💊 Monitor cholesterol levels, consider statin therapy if needed".
Definition GENERIC_MEDICAL : list string :=
  [ "🔬 Get HbA1c test every 3-6 months";
    "👨‍⚕️ Schedule regular check-ups with healthcare provider";
    "📊 Monitor fasting blood glucose weekly" ].
Definition DEFAULT_EXERCISE : list string :=
  [ "🚶 Walking: 10,000 steps daily";
    "🏋️ Resistance training: 2-3 times per week";
    "🧘 Yoga or stretching: stress management and flexibility" ].

(** [generate_base_recommendations(features, prediction, risk_factors)]:
    the dict [recommendations] is updated in place, rule after rule. *)
Definition generate_base_recommendations
    (features : dict) (prediction : Z) (risk_factors : list RiskFactor)
    : exc RecommendationBundle :=
  let recommendations :=
    {| ai_generated := false;
       emergency_note := get_emergency_note prediction risk_factors;
       lifestyle := []; medical := []; nutrition := []; exercise := [] |} in
  let recommendations :=
    if py_eq_int (dict_get features "Smoker" (VInt 0)) 1 then
      extend_lifestyle [QUIT_SMOKING] recommendations
    else recommendations in
  let recommendations :=
    if py_eq_int (dict_get features "PhysActivity" (VInt 0)) 0 then
      extend_exercise START_EXERCISE recommendations
    else recommendations in
  let bmi := dict_get features "BMI" (VInt 0) in
  heavy <- py_ge_int bmi 25 ;;
  let recommendations :=
    if heavy then
      extend_nutrition [CALORIE_DEFICIT]
        (extend_lifestyle
           [("⚖️ Weight management: Target BMI < 25 (current: " ++ py_str rt bmi ++ ")")%string]
           recommendations)
    else recommendations in
  let recommendations := extend_nutrition GENERIC_NUTRITION recommendations in
  let recommendations :=
    if py_eq_int (dict_get features "HighBP" (VInt 0)) 1 then
      extend_medical [MONITOR_BP] recommendations
    else recommendations in
  let recommendations :=
    if py_eq_int (dict_get features "HighChol" (VInt 0)) 1 then
      extend_medical [MONITOR_CHOL] recommendations
    else recommendations in
  let recommendations := extend_medical GENERIC_MEDICAL recommendations in
  let recommendations :=
    match exercise recommendations with
    | [] => extend_exercise DEFAULT_EXERCISE recommendations
    | _ :: _ => recommendations
    end in
  ret recommendations.

(* ===================================================================== *)
(** ** Prediction orchestrator *)
(* ===================================================================== *)

(** [[f for f in fs if not (f in v)]] *)
Fixpoint not_in_value (fs : list string) (v : pyval) : exc (list string) :=
  match fs with
  | [] => ret []
  | f :: fs' =>
      present <- py_in f v ;;
      rest <- not_in_value fs' v ;;
      ret (if present then rest else f :: rest)
  end.

(** [pd.DataFrame([v])[columns]]: the row of the one-row frame, in the
    order of [columns]; [KeyError] when a column is absent.  Keys of [v]
    outside [columns] do not reach the row. *)
Definition frame_row (v : pyval) (columns : list string) : exc (list pyval) :=
  match v with
  | VDict d =>
      match filter (fun c => negb (dict_mem d c)) columns with
      | [] => ret (map (fun c => dict_get d c VNone) columns)
      | missing => raise (KeyError_columns missing)
      end
  | _ => frame_of_other rt v columns
  end.

(** [features.get] exists on a mapping only. *)
Definition as_mapping (v : pyval) : exc dict :=
  match v with
  | VDict d => ret d
  | _ => raise (AttributeError_get v)
  end.

(** Lines 200-201 and 405-406: the label of the first row and, when the
    model has [predict_proba], the probabilities of the first row. *)
Definition classify (md : ModelData) (input_scaled : matrix)
    : exc (Z * option (list spec_float)) :=
  labels <- clf_predict (MODEL md) input_scaled ;;
  prediction <- py_index labels 0 ;;
  prediction_proba <-
    match clf_predict_proba (MODEL md) with
    | Some predict_proba =>
        rows <- predict_proba input_scaled ;;
        row <- py_index rows 0 ;;
        ret (Some (tolist row))
    | None => ret None
    end ;;
  ret (prediction, prediction_proba).

(** [max(prediction_proba) if prediction_proba else None] *)
Definition confidence_of (prediction_proba : option (list spec_float))
    : option spec_float :=
  match prediction_proba with
  | Some (p :: ps) => Some (py_max p ps)
  | _ => None
  end.

(** [(prediction_proba[1] * 100) if prediction_proba else None] *)
Definition risk_percentage_of (prediction_proba : option (list spec_float))
    : exc (option spec_float) :=
  match prediction_proba with
  | Some ((_ :: _) as ps) =>
      p <- py_index ps 1 ;;
      ret (Some (f64_mul p (f64_of_Z 100)))
  | _ => ret None
  end.

(** [prediction_proba[i] if prediction_proba else None] *)
Definition probability_of (prediction_proba : option (list spec_float)) (i : nat)
    : exc (option spec_float) :=
  match prediction_proba with
  | Some ((_ :: _) as ps) => p <- py_index ps i ;; ret (Some p)
  | _ => ret None
  end.

Definition risk_label (prediction : Z) : string :=
  if prediction =? 1 then "High Risk" else "Low Risk".

Record Prediction : Type := {
  prediction : Z;
  prediction_label : string;
  risk_percentage : option spec_float;
  confidence : option spec_float;
  probabilities : option spec_float * option spec_float;
  risk_factors : list RiskFactor;
  recommendations : RecommendationBundle;
  model_name : string;
  timestamp : string
}.

Inductive predict_response : Type :=
| Predict_200 (body : Prediction)
| Predict_400_no_features (expected_format : list (string * Z))
| Predict_400_missing (missing required : list string)
| Predict_500_failed (message : string)
| Predict_500_not_loaded.

(** The [try] block of [predict()]. *)
Definition predict_try (md : ModelData) (data : pyval) (now : string)
    : exc predict_response :=
  no_features <-
    (if negb (truthy data) then ret true
     else present <- py_in "features" data ;; ret (negb present)) ;;
  if no_features : bool then
    ret (Predict_400_no_features (map (fun f => (f, 0)) (FEATURES md)))
  else
    input_features <- py_getitem data "features" ;;
    missing_features <- not_in_value (FEATURES md) input_features ;;
    match missing_features with
    | _ :: _ => ret (Predict_400_missing missing_features (FEATURES md))
    | [] =>
        input_df <- frame_row input_features (FEATURES md) ;;
        input_scaled <- transform (SCALER md) input_df ;;
        ' (prediction, prediction_proba) <- classify md input_scaled ;;
        let confidence := confidence_of prediction_proba in
        let risk_level := risk_label prediction in
        risk_percentage <- risk_percentage_of prediction_proba ;;
        features <- as_mapping input_features ;;
        risk_factors <- get_risk_factors features ;;
        recommendations <-
          generate_base_recommendations features prediction risk_factors ;;
        no_diabetes <- probability_of prediction_proba 0 ;;
        diabetes <- probability_of prediction_proba 1 ;;
        ret (Predict_200
               {| prediction := prediction;
                  prediction_label := risk_level;
                  risk_percentage := risk_percentage;
                  confidence := confidence;
                  probabilities := (no_diabetes, diabetes);
                  risk_factors := risk_factors;
                  recommendations := recommendations;
                  model_name := MODEL_NAME md;
                  timestamp := now |})
    end.

(** [predict()] on the parsed request body; [app] is [None] when the
    model failed to load. *)
Definition predict (app : option ModelData) (data : pyval) (now : string)
    : predict_response :=
  match app with
  | None => Predict_500_not_loaded
  | Some md =>
      match predict_try md data now with
      | inr response => response
      | inl e => Predict_500_failed (exn_str rt e)
      end
  end.

(* ===================================================================== *)
(** ** Batch prediction *)
(* ===================================================================== *)

Inductive BatchItem : Type :=
| Item_prediction (patient_id : Z) (prediction : Z) (risk_level : string)
    (confidence : option spec_float) (risk_percentage : option spec_float)
| Item_error (patient_id : Z) (error : string).

Definition patient_id_of (item : BatchItem) : Z :=
  match item with
  | Item_prediction patient_id _ _ _ _ => patient_id
  | Item_error patient_id _ => patient_id
  end.

Definition is_error (item : BatchItem) : bool :=
  match item with
  | Item_error _ _ => true
  | Item_prediction _ _ _ _ _ => false
  end.

(** The inner [try] block of the loop, for the patient at index [i]. *)
Definition batch_item_try (md : ModelData) (i : Z) (patient : pyval)
    : exc BatchItem :=
  input_df <- frame_row patient (FEATURES md) ;;
  input_scaled <- transform (SCALER md) input_df ;;
  ' (prediction, prediction_proba) <- classify md input_scaled ;;
  risk_percentage <- risk_percentage_of prediction_proba ;;
  ret (Item_prediction (i + 1) prediction (risk_label prediction)
         (confidence_of prediction_proba) risk_percentage).

(** One turn of the loop, with its [except Exception]. *)
Definition batch_step (md : ModelData) (results : list BatchItem)
    (i : Z) (patient : pyval) : list BatchItem :=
  match batch_item_try md i patient with
  | inr item => results ++ [item]
  | inl e => results ++ [Item_error (i + 1) (exn_str rt e)]
  end.

(** [for i, patient in enumerate(patients_data)], from index [i] on. *)
Fixpoint batch_loop (md : ModelData) (results : list BatchItem)
    (i : Z) (patients : list pyval) : list BatchItem :=
  match patients with
  | [] => results
  | patient :: rest => batch_loop md (batch_step md results i patient) (i + 1) rest
  end.

(** The characters of a [str], as UTF-8 byte groups. *)
Definition is_continuation (c : ascii) : bool :=
  match c with
  | Ascii _ _ _ _ _ _ false true => true
  | _ => false
  end.

Fixpoint str_chars_aux (s : string) : string * list string :=
  match s with
  | EmptyString => (EmptyString, [])
  | String c s' =>
      let (pending, acc) := str_chars_aux s' in
      if is_continuation c then (String c pending, acc)
      else (EmptyString, String c pending :: acc)
  end.

Definition str_chars (s : string) : list string := snd (str_chars_aux s).

(** What [enumerate(v)] runs over (and [len(v)] counts). *)
Definition py_iter (v : pyval) : exc (list pyval) :=
  match v with
  | VList l => ret l
  | VDict d => ret (map VStr (keys d))
  | VStr s => ret (map VStr (str_chars s))
  | _ => raise (TypeError_not_iterable v)
  end.

Inductive batch_response : Type :=
| Batch_200 (total_patients : Z) (predictions : list BatchItem) (timestamp : string)
| Batch_400_no_patients
| Batch_500_failed (message : string)
| Batch_500_not_loaded.

(** The outer [try] block of [batch_predict()]. *)
Definition batch_predict_try (md : ModelData) (data : pyval) (now : string)
    : exc batch_response :=
  no_patients <-
    (if negb (truthy data) then ret true
     else present <- py_in "patients" data ;; ret (negb present)) ;;
  if no_patients : bool then ret Batch_400_no_patients
  else
    patients_data <- py_getitem data "patients" ;;
    let results := [] in
    patients <- py_iter patients_data ;;
    let results := batch_loop md results 0 patients in
    ret (Batch_200 (Z.of_nat (List.length patients)) results now).

(** [batch_predict()] on the parsed request body. *)
Definition batch_predict (app : option ModelData) (data : pyval) (now : string)
    : batch_response :=
  match app with
  | None => Batch_500_not_loaded
  | Some md =>
      match batch_predict_try md data now with
      | inr response => response
      | inl e => Batch_500_failed (exn_str rt e)
      end
  end.

End Pipeline.

(** What the loop appends for the patient at index [i]. *)
Definition batch_result (rt : Runtime) (md : ModelData) (i : Z) (patient : pyval)
    : BatchItem :=
  match batch_item_try rt md i patient with
  | inr item => item
  | inl e => Item_error (i + 1) (exn_str rt e)
  end.

(** [[f for f in FEATURES if f not in input_features]] on a mapping. *)
Definition missing_features (FEATURES : list string) (input_features : dict)
    : list string :=
  filter (fun f => negb (dict_mem input_features f)) FEATURES.

(* ===================================================================== *)
(** ** The rule table of the specification *)
(* ===================================================================== *)

(** The keys the risk rules read, in the order of the rules. *)
Definition RULE_ORDER : list string :=
  [ "HighBP"; "HighChol"; "BMI"; "HeartDiseaseorAttack"; "PhysActivity";
    "Smoker"; "GenHlth" ].

(** The value a rule assumes for a key that is absent. *)
Definition rule_default (key : string) : pyval :=
  if String.eqb key "GenHlth" then VInt 3 else VInt 0.

(** [v >= k] as a truth value, for a [v] on which it is defined. *)
Definition value_ge (v : pyval) (k : Z) : bool :=
  match py_ge_int v k with
  | inr b => b
  | inl _ => false
  end.

Definition HIGH_BP : RiskFactor :=
  {| factor := "High Blood Pressure"; severity := "high";
     description := "Elevated blood pressure increases diabetes risk" |}.
Definition HIGH_CHOL : RiskFactor :=
  {| factor := "High Cholesterol"; severity := "high";
     description := "High cholesterol is associated with diabetes" |}.
Definition HIGH_BMI (rt : Runtime) (bmi : pyval) : RiskFactor :=
  {| factor := ("High BMI (" ++ py_str rt bmi ++ ")")%string; severity := "critical";
     description := "Obesity significantly increases diabetes risk" |}.
Definition OVERWEIGHT_BMI (rt : Runtime) (bmi : pyval) : RiskFactor :=
  {| factor := ("Overweight BMI (" ++ py_str rt bmi ++ ")")%string; severity := "moderate";
     description := "Being overweight increases diabetes risk" |}.
Definition HEART_DISEASE : RiskFactor :=
  {| factor := "Heart Disease"; severity := "high";
     description := "Cardiovascular disease is linked to diabetes" |}.
Definition LOW_ACTIVITY : RiskFactor :=
  {| factor := "Low Physical Activity"; severity := "moderate";
     description := "Lack of exercise increases diabetes risk" |}.
Definition SMOKING : RiskFactor :=
  {| factor := "Smoking"; severity := "high";
     description := "Smoking increases diabetes risk by 30-40%" |}.
Definition POOR_HEALTH : RiskFactor :=
  {| factor := "Poor General Health"; severity := "moderate";
     description := "Poor health status correlates with diabetes" |}.

(** Rules 1 to 7 of the specification, each a function of the value of
    its own key. *)
Definition rule_HighBP (v : pyval) : list RiskFactor :=
  if py_eq_int v 1 then [HIGH_BP] else [].
Definition rule_HighChol (v : pyval) : list RiskFactor :=
  if py_eq_int v 1 then [HIGH_CHOL] else [].
Definition rule_BMI (rt : Runtime) (v : pyval) : list RiskFactor :=
  if value_ge v 30 then [HIGH_BMI rt v]
  else if value_ge v 25 then [OVERWEIGHT_BMI rt v]
  else [].
Definition rule_HeartDiseaseorAttack (v : pyval) : list RiskFactor :=
  if py_eq_int v 1 then [HEART_DISEASE] else [].
Definition rule_PhysActivity (v : pyval) : list RiskFactor :=
  if py_eq_int v 0 then [LOW_ACTIVITY] else [].
Definition rule_Smoker (v : pyval) : list RiskFactor :=
  if py_eq_int v 1 then [SMOKING] else [].
Definition rule_GenHlth (v : pyval) : list RiskFactor :=
  if value_ge v 4 then [POOR_HEALTH] else [].

Definition rule (rt : Runtime) (key : string) (v : pyval) : list RiskFactor :=
  if String.eqb key "HighBP" then rule_HighBP v
  else if String.eqb key "HighChol" then rule_HighChol v
  else if String.eqb key "BMI" then rule_BMI rt v
  else if String.eqb key "HeartDiseaseorAttack" then rule_HeartDiseaseorAttack v
  else if String.eqb key "PhysActivity" then rule_PhysActivity v
  else if String.eqb key "Smoker" then rule_Smoker v
  else if String.eqb key "GenHlth" then rule_GenHlth v
  else [].

(** The factors of the rules, one rule after the other in [RULE_ORDER]. *)
Definition rules_in_order (rt : Runtime) (features : dict) : list RiskFactor :=
  flat_map (fun key => rule rt key (dict_get features key (rule_default key)))
           RULE_ORDER.

(** The value of [key] is a number, or [key] is absent. *)
Definition numeric_or_absent (features : dict) (key : string) : bool :=
  match dict_lookup features key with
  | Some v => is_number v
  | None => true
  end.

Definition is_critical (rf : RiskFactor) : bool := String.eqb (severity rf) "critical".

(** The factors that come from the BMI rule. *)
Definition is_bmi_factor (rf : RiskFactor) : bool :=
  String.eqb (description rf) "Obesity significantly increases diabetes risk"
  || String.eqb (description rf) "Being overweight increases diabetes risk".

(** The number of factors at severity critical. *)
Fixpoint critical_count (rfs : list RiskFactor) : Z :=
  match rfs with
  | [] => 0
  | rf :: rest => (if is_critical rf then 1 else 0) + critical_count rest
  end.

(* ===================================================================== *)
(** ** The required features and test fixtures *)
(* ===================================================================== *)

(** Modelled from the spec: [FEATURES] comes from the pickled model file
    ([model_data['features']]), which is not in the repository; section 6
    of the specification lists its 21 names in order. *)
Definition REQUIRED_FEATURES : list string :=
  [ "HighBP"; "HighChol"; "CholCheck"; "BMI"; "Smoker"; "Stroke";
    "HeartDiseaseorAttack"; "PhysActivity"; "Fruits"; "Veggies";
    "HvyAlcoholConsump"; "AnyHealthcare"; "NoDocbcCost"; "GenHlth";
    "MentHlth"; "PhysHlth"; "DiffWalk"; "Sex"; "Age"; "Education"; "Income" ].

Module Fixtures.

(** A runtime that names the class of a built-in exception. *)
Definition runtime : Runtime :=
  {| py_repr := fun _ => "<repr>";
     builtin_msg := fun b =>
       match b with
       | TypeError_order _ | TypeError_not_iterable _
       | TypeError_not_subscriptable _ => "TypeError"
       | AttributeError_get _ => "AttributeError"
       | KeyError_key _ | KeyError_columns _ => "KeyError"
       | IndexError_index _ => "IndexError"
       end;
     frame_of_other := fun _ columns => raise (KeyError_columns columns) |}.

(** A scaler that accepts numbers only. *)
Definition cell (v : pyval) : exc spec_float :=
  match v with
  | VInt z => ret (f64_of_Z z)
  | VBool b => ret (f64_of_Z (if b then 1 else 0))
  | VFloat f => ret f
  | _ => inl (Raised "could not convert value to float")
  end.

Fixpoint cells (row : list pyval) : exc (list spec_float) :=
  match row with
  | [] => ret []
  | v :: row' => x <- cell v ;; xs <- cells row' ;; ret (x :: xs)
  end.

Definition scaler : Scaler :=
  {| transform := fun row => xs <- cells row ;; ret [xs] |}.

(** A booster that scores every row 0.75, and one that scores 0.5. *)
Definition f32_075 : spec_float := S754_finite false 12582912 (-24).
Definition booster : Booster :=
  {| booster_predict := fun X => ret (map (fun _ => f32_075) X) |}.
Definition booster_half : Booster :=
  {| booster_predict := fun X => ret (map (fun _ => f32_half) X) |}.

Definition model_data : ModelData :=
  {| MODEL := XGBoostBoosterWrapper.as_classifier booster;
     SCALER := scaler;
     FEATURES := REQUIRED_FEATURES;
     MODEL_NAME := "XGBoost" |}.

(** All 21 features at 0, then some of them set. *)
Definition baseline : dict := map (fun f => (f, VInt 0)) REQUIRED_FEATURES.

Definition without (key : string) (d : dict) : dict :=
  filter (fun kv => negb (String.eqb (fst kv) key)) d.

Definition patient_1 : dict :=
  ("HighBP", VInt 1) :: ("BMI", VInt 32) :: ("Smoker", VInt 1)
  :: ("PhysActivity", VInt 1)
  :: without "HighBP" (without "BMI" (without "Smoker" (without "PhysActivity" baseline))).

(** [patient_1] with BMI and Smoker left out. *)
Definition patient_2 : dict := without "BMI" (without "Smoker" patient_1).

(** [patient_1] with an extra key. *)
Definition patient_3 : dict := patient_1 ++ [("Notes", VStr "n/a")].

(** Three of the seven rule keys, in two insertion orders. *)
Definition partial : dict :=
  [("HighBP", VInt 1); ("BMI", VInt 32); ("Smoker", VInt 1); ("PhysActivity", VInt 1)].
Definition partial_reordered : dict :=
  [("Smoker", VInt 1); ("PhysActivity", VInt 1); ("BMI", VInt 32); ("HighBP", VInt 1)].

Definition request (key : string) (v : pyval) : pyval := VDict [(key, v)].

End Fixtures.

(* ===================================================================== *)
(** ** Model loading and the feature-importance endpoint *)
(* ===================================================================== *)

(** The module-level names the handlers read. *)
Record Globals : Type := {
  G_MODEL : option Classifier;
  G_SCALER : option Scaler;
  G_FEATURES : option (list string);
  G_FEATURE_IMPORTANCE : dict;
  G_METRICS : pyval;
  G_MODEL_NAME : string
}.

(** The dict that [joblib.load(MODEL_PATH)] returns: a key is present or
    not. *)
Record ModelFile : Type := {
  file_model : option Classifier;
  file_scaler : option Scaler;
  file_features : option (list string);
  file_feature_importance : option dict;
  file_metrics : option pyval;
  file_model_name : option string
}.

Definition set_MODEL (x : option Classifier) (g : Globals) : Globals :=
  {| G_MODEL := x; G_SCALER := G_SCALER g; G_FEATURES := G_FEATURES g;
     G_FEATURE_IMPORTANCE := G_FEATURE_IMPORTANCE g; G_METRICS := G_METRICS g;
     G_MODEL_NAME := G_MODEL_NAME g |}.
Definition set_SCALER (x : option Scaler) (g : Globals) : Globals :=
  {| G_MODEL := G_MODEL g; G_SCALER := x; G_FEATURES := G_FEATURES g;
     G_FEATURE_IMPORTANCE := G_FEATURE_IMPORTANCE g; G_METRICS := G_METRICS g;
     G_MODEL_NAME := G_MODEL_NAME g |}.
Definition set_FEATURES (x : option (list string)) (g : Globals) : Globals :=
  {| G_MODEL := G_MODEL g; G_SCALER := G_SCALER g; G_FEATURES := x;
     G_FEATURE_IMPORTANCE := G_FEATURE_IMPORTANCE g; G_METRICS := G_METRICS g;
     G_MODEL_NAME := G_MODEL_NAME g |}.
Definition set_FEATURE_IMPORTANCE (x : dict) (g : Globals) : Globals :=
  {| G_MODEL := G_MODEL g; G_SCALER := G_SCALER g; G_FEATURES := G_FEATURES g;
     G_FEATURE_IMPORTANCE := x; G_METRICS := G_METRICS g;
     G_MODEL_NAME := G_MODEL_NAME g |}.
Definition set_METRICS (x : pyval) (g : Globals) : Globals :=
  {| G_MODEL := G_MODEL g; G_SCALER := G_SCALER g; G_FEATURES := G_FEATURES g;
     G_FEATURE_IMPORTANCE := G_FEATURE_IMPORTANCE g; G_METRICS := x;
     G_MODEL_NAME := G_MODEL_NAME g |}.
Definition set_MODEL_NAME (x : string) (g : Globals) : Globals :=
  {| G_MODEL := G_MODEL g; G_SCALER := G_SCALER g; G_FEATURES := G_FEATURES g;
     G_FEATURE_IMPORTANCE := G_FEATURE_IMPORTANCE g; G_METRICS := G_METRICS g;
     G_MODEL_NAME := x |}.

(** A statement of the [try] block: it updates the globals, or raises and
    leaves them as they are. *)
Definition stmt : Type := Globals -> exc Globals.

(** Statements in sequence, up to the first that raises. *)
Fixpoint run (body : list stmt) (g : Globals) : Globals * option exn :=
  match body with
  | [] => (g, None)
  | s :: rest =>
      match s g with
      | inl e => (g, Some e)
      | inr g' => run rest g'
      end
  end.

(** [NAME = model_data['key']] *)
Definition assign_key {A : Type} (key : string) (entry : option A)
    (set : A -> Globals -> Globals) : stmt :=
  fun g =>
    match entry with
    | Some x => ret (set x g)
    | None => raise (KeyError_key key)
    end.

(** [print(f"... {METRICS.get('accuracy', 0):.4f}")]; [format_4f] is the
    interpreter's [format(v, '.4f')], which raises on a [v] it cannot
    format. *)
Definition print_accuracy (format_4f : pyval -> exc string) : stmt :=
  fun g =>
    metrics <- as_mapping (G_METRICS g) ;;
    _ <- format_4f (dict_get metrics "accuracy" (VInt 0)) ;;
    ret g.

(** The [try] block of the module: the globals when it ends, and the
    exception that ended it, if any. *)
Definition load_try (joblib_load : exc ModelFile) (format_4f : pyval -> exc string)
    (g : Globals) : Globals * option exn :=
  match joblib_load with
  | inl e => (g, Some e)
  | inr model_data =>
      run [ assign_key "model" (file_model model_data) (fun x => set_MODEL (Some x));
            assign_key "scaler" (file_scaler model_data) (fun x => set_SCALER (Some x));
            assign_key "features" (file_features model_data)
              (fun x => set_FEATURES (Some x));
            (fun g => ret (set_FEATURE_IMPORTANCE
                             (match file_feature_importance model_data with
                              | Some d => d
                              | None => []
                              end) g));
            assign_key "metrics" (file_metrics model_data) set_METRICS;
            assign_key "model_name" (file_model_name model_data) set_MODEL_NAME;
            print_accuracy format_4f ] g
  end.

(** The [except Exception] block. *)
Definition load_except (g : Globals) : Globals :=
  set_MODEL_NAME "Not loaded"
    (set_METRICS (VDict [])
       (set_FEATURE_IMPORTANCE []
          (set_FEATURES None (set_SCALER None (set_MODEL None g))))).

(** The globals once the module is imported. *)
Definition load_model (joblib_load : exc ModelFile) (format_4f : pyval -> exc string)
    (g : Globals) : Globals :=
  match load_try joblib_load format_4f g with
  | (g', None) => g'
  | (g', Some _) => load_except g'
  end.

Definition NOT_LOADED : Globals :=
  {| G_MODEL := None; G_SCALER := None; G_FEATURES := None;
     G_FEATURE_IMPORTANCE := []; G_METRICS := VDict []; G_MODEL_NAME := "Not loaded" |}.

(** What the prediction handlers see of the globals: they test [MODEL]
    and then use [SCALER], [FEATURES] and [MODEL_NAME]. *)
Definition app_of_globals (g : Globals) : option ModelData :=
  match G_MODEL g, G_SCALER g, G_FEATURES g with
  | Some model, Some scaler, Some features =>
      Some {| MODEL := model; SCALER := scaler; FEATURES := features;
              MODEL_NAME := G_MODEL_NAME g |}
  | _, _, _ => None
  end.

Inductive importance_response : Type :=
| Importance_200 (feature_importance top_10 : dict)
| Importance_404.

(** [feature_importance()]; [dict(list(d.items())[:10])] keeps the first
    ten bindings. *)
Definition feature_importance (g : Globals) : importance_response :=
  match G_MODEL g, G_FEATURE_IMPORTANCE g with
  | None, _ | _, [] => Importance_404
  | Some _, (_ :: _) as importance =>
      Importance_200 importance (firstn 10 importance)
  end.

(* ===================================================================== *)
(** ** Predicates used in the properties below *)
(* ===================================================================== *)

(** The severities of the data model. *)
Definition SEVERITIES : list string := ["moderate"; "high"; "critical"].

Fixpoint distinct (l : list string) : bool :=
  match l with
  | [] => true
  | x :: rest => negb (existsb (String.eqb x) rest) && distinct rest
  end.

(** The second entry of a row denotes a greater number than the first:
    [np.argmax] of the row is 1. *)
Definition argmax_is_positive (q p : spec_float) : bool :=
  match f32_units q, f32_units p with
  | Some uq, Some up => uq <? up
  | _, _ => false
  end.

Definition is_prediction (item : BatchItem) : bool := negb (is_error item).

Module MoreFixtures.

Definition model_file : ModelFile :=
  {| file_model := Some (XGBoostBoosterWrapper.as_classifier Fixtures.booster);
     file_scaler := Some Fixtures.scaler;
     file_features := Some REQUIRED_FEATURES;
     file_feature_importance := Some [("BMI", VInt 3); ("Age", VInt 2)];
     file_metrics := Some (VDict [("accuracy", VInt 1)]);
     file_model_name := Some "XGBoost" |}.

(** The same file without its metrics. *)
Definition model_file_no_metrics : ModelFile :=
  {| file_model := file_model model_file;
     file_scaler := file_scaler model_file;
     file_features := file_features model_file;
     file_feature_importance := file_feature_importance model_file;
     file_metrics := None;
     file_model_name := file_model_name model_file |}.

(** [format(v, '.4f')] on numbers only. *)
Definition format_4f (v : pyval) : exc string :=
  if is_number v then ret "<number>" else raise (TypeError_order v).

(** Globals with leftovers in every name. *)
Definition dirty : Globals :=
  {| G_MODEL := Some (XGBoostBoosterWrapper.as_classifier Fixtures.booster_half);
     G_SCALER := Some Fixtures.scaler;
     G_FEATURES := Some ["x"];
     G_FEATURE_IMPORTANCE := [("x", VInt 1)];
     G_METRICS := VNone;
     G_MODEL_NAME := "old" |}.

End MoreFixtures.

(* ===================================================================== *)
(** ** Lemmas on dicts and operators *)
(* ===================================================================== *)

Lemma dict_lookup_In (d : dict) (k : string) (v : pyval) :
  dict_lookup d k = Some v -> In k (keys d).
Proof.
  induction d as [|[k' v'] d IH]; simpl; [discriminate|].
  destruct (String.eqb_spec k' k); auto.
Qed.

Lemma dict_lookup_notin (d : dict) (k : string) :
  ~ In k (keys d) -> dict_lookup d k = None.
Proof.
  intros H. destruct (dict_lookup d k) eqn:E; [|reflexivity].
  elim H. eapply dict_lookup_In; eassumption.
Qed.

(** Lookup does not see the insertion order of a dict. *)
Lemma dict_lookup_perm (d d' : dict) (k : string) :
  dict_wf d -> Permutation d d' -> dict_lookup d k = dict_lookup d' k.
Proof.
  unfold dict_wf. intros Hwf Hp. induction Hp as [| [a v] l l' Hp IH | [a v] [b w] l | l l' l'' H1 IH1 H2 IH2].
  - reflexivity.
  - simpl in *. inversion Hwf; subst. rewrite IH by assumption. reflexivity.
  - simpl in *. inversion Hwf as [|? ? Hnin Hnd]; subst.
    destruct (String.eqb_spec b k), (String.eqb_spec a k); subst; try reflexivity.
    elim Hnin. simpl. auto.
  - rewrite IH1 by assumption. apply IH2.
    unfold keys. eapply Permutation_NoDup; [|exact Hwf].
    apply Permutation_map. assumption.
Qed.

Lemma dict_get_perm (d d' : dict) (k : string) (default : pyval) :
  dict_wf d -> Permutation d d' -> dict_get d k default = dict_get d' k default.
Proof.
  intros Hwf Hp. unfold dict_get. rewrite (dict_lookup_perm d d' k Hwf Hp). reflexivity.
Qed.

Lemma py_ge_int_number (v : pyval) (k : Z) :
  is_number v = true -> py_ge_int v k = inr (value_ge v k).
Proof.
  unfold value_ge. destruct v; simpl; intros H; try discriminate; reflexivity.
Qed.

Lemma dict_get_number (features : dict) (key : string) (default : pyval) :
  numeric_or_absent features key = true -> is_number default = true ->
  is_number (dict_get features key default) = true.
Proof.
  unfold numeric_or_absent, dict_get. destruct (dict_lookup features key); auto.
Qed.

(** A binding for a key that is absent, with the rule's default as its
    value, changes no [get] that falls back on the rule's default. *)
Lemma dict_get_cons_default (features : dict) (key k : string) :
  dict_lookup features key = None ->
  dict_get ((key, rule_default key) :: features) k (rule_default k)
  = dict_get features k (rule_default k).
Proof.
  intros Hnone. unfold dict_get. simpl.
  destruct (String.eqb_spec key k).
  - subst. rewrite Hnone. reflexivity.
  - reflexivity.
Qed.

Lemma ge_cmp_mono (x k k' : Z) :
  k <= k' ->
  match Some (x ?= k') with Some (Eq | Gt) => true | _ => false end = true ->
  match Some (x ?= k) with Some (Eq | Gt) => true | _ => false end = true.
Proof.
  intros Hk.
  destruct (Z.compare_spec x k'); try discriminate; intros _;
    destruct (Z.compare_spec x k); try reflexivity; lia.
Qed.

Lemma float_cmp_int_mono (f : spec_float) (k k' : Z) :
  k <= k' ->
  match float_cmp_int f k' with Some (Eq | Gt) => true | _ => false end = true ->
  match float_cmp_int f k with Some (Eq | Gt) => true | _ => false end = true.
Proof.
  intros Hk. destruct f as [s| [|] | | s m e]; cbn [float_cmp_int];
    try discriminate; try reflexivity.
  - apply ge_cmp_mono; assumption.
  - destruct (0 <=? e) eqn:He.
    + apply ge_cmp_mono; assumption.
    + assert (0 < 2 ^ (- e)) as Hpos by (apply Z.pow_pos_nonneg; lia).
      assert (k * 2 ^ (- e) <= k' * 2 ^ (- e)) as Hmul
        by (apply Z.mul_le_mono_nonneg_r; lia).
      apply ge_cmp_mono; assumption.
Qed.

(** [v >= k'] implies [v >= k] for [k <= k']. *)
Lemma value_ge_mono (v : pyval) (k k' : Z) :
  k <= k' -> value_ge v k' = true -> value_ge v k = true.
Proof.
  intros Hk. unfold value_ge. destruct v; simpl; try discriminate.
  - destruct b; intros H; apply Z.leb_le in H; apply Z.leb_le; lia.
  - intros H; apply Z.leb_le in H; apply Z.leb_le; lia.
  - apply float_cmp_int_mono. assumption.
Qed.

(** The extractor as a function of the seven values it reads. *)
Lemma get_risk_factors_rules (rt : Runtime) (features : dict) :
  numeric_or_absent features "BMI" = true ->
  numeric_or_absent features "GenHlth" = true ->
  get_risk_factors rt features = inr (rules_in_order rt features).
Proof.
  intros Hbmi Hgen.
  pose proof (dict_get_number features "BMI" (VInt 0) Hbmi eq_refl) as Nb.
  pose proof (dict_get_number features "GenHlth" (VInt 3) Hgen eq_refl) as Ng.
  unfold get_risk_factors, rules_in_order, RULE_ORDER. cbn [flat_map].
  rewrite (py_ge_int_number _ 30 Nb), (py_ge_int_number _ 25 Nb),
          (py_ge_int_number _ 4 Ng).
  change (rule_default "HighBP") with (VInt 0).
  change (rule_default "HighChol") with (VInt 0).
  change (rule_default "BMI") with (VInt 0).
  change (rule_default "HeartDiseaseorAttack") with (VInt 0).
  change (rule_default "PhysActivity") with (VInt 0).
  change (rule_default "Smoker") with (VInt 0).
  change (rule_default "GenHlth") with (VInt 3).
  change (rule rt "HighBP") with rule_HighBP.
  change (rule rt "HighChol") with rule_HighChol.
  change (rule rt "BMI") with (rule_BMI rt).
  change (rule rt "HeartDiseaseorAttack") with rule_HeartDiseaseorAttack.
  change (rule rt "PhysActivity") with rule_PhysActivity.
  change (rule rt "Smoker") with rule_Smoker.
  change (rule rt "GenHlth") with rule_GenHlth.
  unfold rule_HighBP, rule_HighChol, rule_BMI, rule_HeartDiseaseorAttack,
    rule_PhysActivity, rule_Smoker, rule_GenHlth.
  generalize (dict_get features "BMI" (VInt 0)); intros bmi.
  fold HIGH_BP HIGH_CHOL HEART_DISEASE LOW_ACTIVITY SMOKING POOR_HEALTH.
  fold (HIGH_BMI rt bmi) (OVERWEIGHT_BMI rt bmi).
  destruct (py_eq_int (dict_get features "HighBP" (VInt 0)) 1),
    (py_eq_int (dict_get features "HighChol" (VInt 0)) 1),
    (value_ge bmi 30), (value_ge bmi 25),
    (py_eq_int (dict_get features "HeartDiseaseorAttack" (VInt 0)) 1),
    (py_eq_int (dict_get features "PhysActivity" (VInt 0)) 0),
    (py_eq_int (dict_get features "Smoker" (VInt 0)) 1),
    (value_ge (dict_get features "GenHlth" (VInt 3)) 4);
    reflexivity.
Qed.

(** The extractor reads its argument through the seven [get]s only. *)
Lemma get_risk_factors_ext (rt : Runtime) (f1 f2 : dict) :
  (forall key, In key RULE_ORDER ->
     dict_get f1 key (rule_default key) = dict_get f2 key (rule_default key)) ->
  get_risk_factors rt f1 = get_risk_factors rt f2.
Proof.
  intros H. unfold get_risk_factors.
  pose proof (H "HighBP" ltac:(simpl; tauto)) as H1.
  pose proof (H "HighChol" ltac:(simpl; tauto)) as H2.
  pose proof (H "BMI" ltac:(simpl; tauto)) as H3.
  pose proof (H "HeartDiseaseorAttack" ltac:(simpl; tauto)) as H4.
  pose proof (H "PhysActivity" ltac:(simpl; tauto)) as H5.
  pose proof (H "Smoker" ltac:(simpl; tauto)) as H6.
  pose proof (H "GenHlth" ltac:(simpl; tauto)) as H7.
  change (rule_default _) with (VInt 0) in H1, H2, H3, H4, H5, H6.
  change (rule_default _) with (VInt 3) in H7.
  rewrite H1, H2, H3, H4, H5, H6, H7. reflexivity.
Qed.

(** The synthesizer reads [features] through five of the seven [get]s. *)
Lemma generate_base_recommendations_ext (rt : Runtime) (f1 f2 : dict)
    (prediction : Z) (rfs : list RiskFactor) :
  (forall key, In key RULE_ORDER ->
     dict_get f1 key (rule_default key) = dict_get f2 key (rule_default key)) ->
  generate_base_recommendations rt f1 prediction rfs
  = generate_base_recommendations rt f2 prediction rfs.
Proof.
  intros H. unfold generate_base_recommendations.
  pose proof (H "HighBP" ltac:(simpl; tauto)) as H1.
  pose proof (H "HighChol" ltac:(simpl; tauto)) as H2.
  pose proof (H "BMI" ltac:(simpl; tauto)) as H3.
  pose proof (H "PhysActivity" ltac:(simpl; tauto)) as H5.
  pose proof (H "Smoker" ltac:(simpl; tauto)) as H6.
  change (rule_default _) with (VInt 0) in H1, H2, H3, H5, H6.
  rewrite H1, H2, H3, H5, H6. reflexivity.
Qed.

Lemma lookup_agree_get_agree (f1 f2 : dict) (key : string) (default : pyval) :
  dict_lookup f1 key = dict_lookup f2 key ->
  dict_get f1 key default = dict_get f2 key default.
Proof. unfold dict_get. intros ->. reflexivity. Qed.

(** The emergency messages are three different strings. *)
Lemma messages_distinct :
  HIGH_PRIORITY <> ELEVATED_RISK /\ HIGH_PRIORITY <> MAINTAIN_HEALTHY_HABITS
  /\ ELEVATED_RISK <> MAINTAIN_HEALTHY_HABITS.
Proof. repeat split; discriminate. Qed.

(** The factors a rule list holds at severity critical. *)
Lemma critical_of_rules (rt : Runtime) (features : dict) :
  filter is_critical (rules_in_order rt features)
  = let bmi := dict_get features "BMI" (VInt 0) in
    if value_ge bmi 30 then [HIGH_BMI rt bmi] else [].
Proof.
  unfold rules_in_order, RULE_ORDER. cbn [flat_map].
  rewrite !filter_app.
  change (rule rt "HighBP") with rule_HighBP.
  change (rule rt "HighChol") with rule_HighChol.
  change (rule rt "BMI") with (rule_BMI rt).
  change (rule rt "HeartDiseaseorAttack") with rule_HeartDiseaseorAttack.
  change (rule rt "PhysActivity") with rule_PhysActivity.
  change (rule rt "Smoker") with rule_Smoker.
  change (rule rt "GenHlth") with rule_GenHlth.
  change (rule_default "BMI") with (VInt 0).
  unfold rule_HighBP, rule_HighChol, rule_BMI, rule_HeartDiseaseorAttack,
    rule_PhysActivity, rule_Smoker, rule_GenHlth.
  cbv zeta.
  repeat match goal with
         | |- context [if ?b then _ else _] => destruct b
         end; reflexivity.
Qed.

(* ===================================================================== *)
(** ** Risk-factor extractor *)
(* ===================================================================== *)

Lemma bmi_factors_of_rules (rt : Runtime) (features : dict) :
  filter is_bmi_factor (rules_in_order rt features)
  = rule_BMI rt (dict_get features "BMI" (VInt 0)).
Proof.
  unfold rules_in_order, RULE_ORDER. cbn [flat_map].
  rewrite !filter_app.
  change (rule rt "HighBP") with rule_HighBP.
  change (rule rt "HighChol") with rule_HighChol.
  change (rule rt "BMI") with (rule_BMI rt).
  change (rule rt "HeartDiseaseorAttack") with rule_HeartDiseaseorAttack.
  change (rule rt "PhysActivity") with rule_PhysActivity.
  change (rule rt "Smoker") with rule_Smoker.
  change (rule rt "GenHlth") with rule_GenHlth.
  change (rule_default "BMI") with (VInt 0).
  unfold rule_HighBP, rule_HighChol, rule_BMI, rule_HeartDiseaseorAttack,
    rule_PhysActivity, rule_Smoker, rule_GenHlth.
  repeat match goal with
         | |- context [if ?b then _ else _] => destruct b
         end; reflexivity.
Qed.

(** C1. On a feature mapping (BMI and GenHlth numeric where present) the
    extractor returns the factors of the seven rules in the fixed order
    HighBP, HighChol, BMI, HeartDiseaseorAttack, PhysActivity, Smoker,
    GenHlth, each rule a function of the value of its own key; the result
    is the same for every insertion order of the mapping; and the BMI rule
    contributes at most one factor: the critical one when BMI >= 30,
    otherwise the moderate one when BMI >= 25, never both. *)
Theorem risk_factors_fixed_order (rt : Runtime) (features : dict) :
  numeric_or_absent features "BMI" = true ->
  numeric_or_absent features "GenHlth" = true ->
  get_risk_factors rt features = inr (rules_in_order rt features)
  /\ (forall features',
        dict_wf features -> Permutation features features' ->
        get_risk_factors rt features' = inr (rules_in_order rt features))
  /\ (let bmi := dict_get features "BMI" (VInt 0) in
      filter is_bmi_factor (rules_in_order rt features) = rule_BMI rt bmi
      /\ (List.length (rule_BMI rt bmi) <= 1)%nat
      /\ (value_ge bmi 30 = true -> rule_BMI rt bmi = [HIGH_BMI rt bmi])
      /\ (value_ge bmi 30 = false -> value_ge bmi 25 = true ->
          rule_BMI rt bmi = [OVERWEIGHT_BMI rt bmi])
      /\ (value_ge bmi 25 = false -> rule_BMI rt bmi = [])).
Proof.
  intros Hbmi Hgen.
  pose proof (get_risk_factors_rules rt features Hbmi Hgen) as Heq.
  split; [exact Heq|]. split.
  - intros features' Hwf Hp. rewrite <- Heq. symmetry.
    apply get_risk_factors_ext. intros key _.
    apply dict_get_perm; assumption.
  - cbv zeta. split; [apply bmi_factors_of_rules|].
    unfold rule_BMI. repeat split.
    + destruct (value_ge _ 30); [simpl; lia|].
      destruct (value_ge _ 25); simpl; lia.
    + intros ->. reflexivity.
    + intros -> ->. reflexivity.
    + intros H25.
      destruct (value_ge (dict_get features "BMI" (VInt 0)) 30) eqn:H30.
      * apply (value_ge_mono _ 25 30) in H30; [congruence|lia].
      * rewrite H25. reflexivity.
Qed.

Lemma risk_factors_fixed_order_witness :
  get_risk_factors Fixtures.runtime Fixtures.partial
  = inr [HIGH_BP; HIGH_BMI Fixtures.runtime (VInt 32); SMOKING]
  /\ get_risk_factors Fixtures.runtime Fixtures.partial_reordered
     = inr [HIGH_BP; HIGH_BMI Fixtures.runtime (VInt 32); SMOKING].
Proof.
  destruct (risk_factors_fixed_order Fixtures.runtime Fixtures.partial eq_refl eq_refl)
    as [H1 [H2 _]].
  split.
  - rewrite H1. reflexivity.
  - rewrite (H2 Fixtures.partial_reordered).
    + reflexivity.
    + unfold dict_wf. simpl.
      repeat (constructor; [simpl; intuition discriminate|]). constructor.
    + unfold Fixtures.partial, Fixtures.partial_reordered.
      eapply perm_trans; [apply Permutation_rev|]. simpl.
      apply perm_swap.
Defined.

(** C9. Only the BMI >= 30 rule gives severity critical, so the list the
    extractor returns holds at most one critical factor; on such a list
    the emergency note is never the HIGH PRIORITY message, and label 1
    gets the ELEVATED RISK message. *)
Theorem extractor_yields_at_most_one_critical (rt : Runtime) (features : dict) :
  numeric_or_absent features "BMI" = true ->
  numeric_or_absent features "GenHlth" = true ->
  exists rfs,
    get_risk_factors rt features = inr rfs
    /\ filter is_critical rfs
       = (let bmi := dict_get features "BMI" (VInt 0) in
          if value_ge bmi 30 then [HIGH_BMI rt bmi] else [])
    /\ (List.length (filter is_critical rfs) <= 1)%nat
    /\ (forall prediction, get_emergency_note prediction rfs <> HIGH_PRIORITY)
    /\ get_emergency_note 1 rfs = ELEVATED_RISK.
Proof.
  intros Hbmi Hgen.
  exists (rules_in_order rt features).
  split; [apply get_risk_factors_rules; assumption|].
  pose proof (critical_of_rules rt features) as Hc. cbv zeta in Hc.
  assert ((List.length (filter is_critical (rules_in_order rt features)) <= 1)%nat) as Hlen.
  { rewrite Hc. destruct (value_ge _ 30); simpl; lia. }
  split; [exact Hc|]. split; [exact Hlen|].
  assert ((2 <? Z.of_nat (List.length (filter is_critical (rules_in_order rt features))))
          = false) as Hlt by (apply Z.ltb_ge; lia).
  destruct messages_distinct as [D1 [D2 D3]].
  split.
  - intros prediction. unfold get_emergency_note.
    change (fun rf => (severity rf =? "critical")%string) with is_critical.
    rewrite Hlt, andb_false_r.
    destruct (prediction =? 1); intros Heq;
      [apply D1 | apply D2]; symmetry; exact Heq.
  - unfold get_emergency_note.
    change (fun rf => (severity rf =? "critical")%string) with is_critical.
    rewrite Hlt. reflexivity.
Qed.

Lemma extractor_yields_at_most_one_critical_witness :
  exists rfs,
    get_risk_factors Fixtures.runtime Fixtures.patient_1 = inr rfs
    /\ filter is_critical rfs = [HIGH_BMI Fixtures.runtime (VInt 32)]
    /\ get_emergency_note 1 rfs = ELEVATED_RISK.
Proof.
  destruct (extractor_yields_at_most_one_critical Fixtures.runtime Fixtures.patient_1
              eq_refl eq_refl) as [rfs [H1 [H2 [_ [_ H5]]]]].
  exists rfs. split; [exact H1|]. split; [exact H2 | exact H5].
Defined.

(** C10. Two feature mappings that agree on the seven keys HighBP,
    HighChol, BMI, HeartDiseaseorAttack, PhysActivity, Smoker and GenHlth
    get the same result of the extractor and, for the same label (and the
    same factor list), the same result of the synthesizer: other keys do
    not influence either. *)
Theorem outputs_depend_on_rule_keys_only (rt : Runtime) (f1 f2 : dict) :
  (forall key, In key RULE_ORDER -> dict_lookup f1 key = dict_lookup f2 key) ->
  get_risk_factors rt f1 = get_risk_factors rt f2
  /\ (forall prediction rfs,
        generate_base_recommendations rt f1 prediction rfs
        = generate_base_recommendations rt f2 prediction rfs)
  /\ (forall prediction,
        bind (get_risk_factors rt f1) (generate_base_recommendations rt f1 prediction)
        = bind (get_risk_factors rt f2) (generate_base_recommendations rt f2 prediction)).
Proof.
  intros H.
  assert (forall key, In key RULE_ORDER ->
            dict_get f1 key (rule_default key) = dict_get f2 key (rule_default key)) as Hget
    by (intros key Hin; apply lookup_agree_get_agree, H, Hin).
  pose proof (get_risk_factors_ext rt f1 f2 Hget) as Hrf.
  split; [exact Hrf|]. split.
  - intros prediction rfs. apply generate_base_recommendations_ext. exact Hget.
  - intros prediction. rewrite Hrf.
    destruct (get_risk_factors rt f2) as [e|rfs]; [reflexivity|]. simpl.
    apply generate_base_recommendations_ext. exact Hget.
Qed.

Lemma outputs_depend_on_rule_keys_only_witness :
  get_risk_factors Fixtures.runtime Fixtures.patient_1
  = get_risk_factors Fixtures.runtime Fixtures.patient_3
  /\ generate_base_recommendations Fixtures.runtime Fixtures.patient_1 1 []
     = generate_base_recommendations Fixtures.runtime Fixtures.patient_3 1 [].
Proof.
  assert (forall key, In key RULE_ORDER ->
            dict_lookup Fixtures.patient_1 key = dict_lookup Fixtures.patient_3 key) as H.
  { intros key Hin. simpl in Hin.
    repeat (destruct Hin as [<- | Hin]; [reflexivity|]). contradiction. }
  destruct (outputs_depend_on_rule_keys_only Fixtures.runtime
              Fixtures.patient_1 Fixtures.patient_3 H) as [H1 [H2 _]].
  split; [exact H1 | apply H2].
Defined.

(* ===================================================================== *)
(** ** Recommendation synthesizer *)
(* ===================================================================== *)

Lemma critical_count_filter (rfs : list RiskFactor) :
  Z.of_nat (List.length (filter is_critical rfs)) = critical_count rfs.
Proof.
  induction rfs as [|rf rfs IH]; [reflexivity|].
  cbn [filter critical_count]. destruct (is_critical rf); cbn [List.length]; lia.
Qed.

(** C3. For every label and every risk-factor list the emergency note is
    one of three different messages: HIGH PRIORITY when the label is 1 and
    more than 2 factors have severity critical, ELEVATED RISK when the
    label is 1 otherwise, MAINTAIN HEALTHY HABITS for any other label. *)
Theorem emergency_note_selection (prediction : Z) (risk_factors : list RiskFactor) :
  (prediction = 1 /\ critical_count risk_factors > 2 ->
   get_emergency_note prediction risk_factors = HIGH_PRIORITY)
  /\ (prediction = 1 /\ critical_count risk_factors <= 2 ->
      get_emergency_note prediction risk_factors = ELEVATED_RISK)
  /\ (prediction <> 1 ->
      get_emergency_note prediction risk_factors = MAINTAIN_HEALTHY_HABITS)
  /\ In (get_emergency_note prediction risk_factors)
        [HIGH_PRIORITY; ELEVATED_RISK; MAINTAIN_HEALTHY_HABITS]
  /\ NoDup [HIGH_PRIORITY; ELEVATED_RISK; MAINTAIN_HEALTHY_HABITS].
Proof.
  unfold get_emergency_note.
  change (fun rf => (severity rf =? "critical")%string) with is_critical.
  rewrite critical_count_filter.
  repeat split.
  - intros [-> Hc]. apply Z.gt_lt, Z.ltb_lt in Hc. rewrite Hc. reflexivity.
  - intros [-> Hc]. apply Z.ltb_ge in Hc. rewrite Hc. reflexivity.
  - intros Hp. apply Z.eqb_neq in Hp. rewrite Hp. reflexivity.
  - destruct (prediction =? 1), (2 <? critical_count risk_factors); simpl; tauto.
  - destruct messages_distinct as [D1 [D2 D3]].
    repeat constructor; simpl; intuition congruence.
Qed.

Lemma emergency_note_selection_witness :
  get_emergency_note 1 [HIGH_BMI Fixtures.runtime (VInt 31);
                        HIGH_BMI Fixtures.runtime (VInt 32);
                        HIGH_BMI Fixtures.runtime (VInt 33)] = HIGH_PRIORITY
  /\ get_emergency_note 1 [HIGH_BMI Fixtures.runtime (VInt 31);
                           HIGH_BMI Fixtures.runtime (VInt 32)] = ELEVATED_RISK
  /\ get_emergency_note 0 [HIGH_BMI Fixtures.runtime (VInt 31);
                           HIGH_BMI Fixtures.runtime (VInt 32);
                           HIGH_BMI Fixtures.runtime (VInt 33)] = MAINTAIN_HEALTHY_HABITS.
Proof.
  split; [|split].
  - apply (emergency_note_selection 1). split; [reflexivity | vm_compute; reflexivity].
  - apply (emergency_note_selection 1). split; [reflexivity | vm_compute; discriminate].
  - apply (emergency_note_selection 0). discriminate.
Defined.

(** The bundle as a function of the five values the synthesizer reads. *)
Lemma generate_base_recommendations_bundle (rt : Runtime) (features : dict)
    (prediction : Z) (rfs : list RiskFactor) :
  numeric_or_absent features "BMI" = true ->
  generate_base_recommendations rt features prediction rfs
  = let bmi := dict_get features "BMI" (VInt 0) in
    inr {| ai_generated := false;
           emergency_note := get_emergency_note prediction rfs;
           lifestyle :=
             (if py_eq_int (dict_get features "Smoker" (VInt 0)) 1
              then [QUIT_SMOKING] else [])
             ++ (if value_ge bmi 25
                 then [("⚖️ Weight management: Target BMI < 25 (current: "
                        ++ py_str rt bmi ++ ")")%string]
                 else []);
           medical :=
             (if py_eq_int (dict_get features "HighBP" (VInt 0)) 1
              then [MONITOR_BP] else [])
             ++ (if py_eq_int (dict_get features "HighChol" (VInt 0)) 1
                 then [MONITOR_CHOL] else [])
             ++ GENERIC_MEDICAL;
           nutrition :=
             (if value_ge bmi 25 then [CALORIE_DEFICIT] else [])
             ++ GENERIC_NUTRITION;
           exercise :=
             if py_eq_int (dict_get features "PhysActivity" (VInt 0)) 0
             then START_EXERCISE else DEFAULT_EXERCISE |}.
Proof.
  intros Hbmi.
  pose proof (dict_get_number features "BMI" (VInt 0) Hbmi eq_refl) as Nb.
  unfold generate_base_recommendations.
  rewrite (py_ge_int_number _ 25 Nb). cbv zeta.
  generalize (dict_get features "BMI" (VInt 0)); intros bmi.
  destruct (py_eq_int (dict_get features "Smoker" (VInt 0)) 1),
    (py_eq_int (dict_get features "PhysActivity" (VInt 0)) 0),
    (value_ge bmi 25),
    (py_eq_int (dict_get features "HighBP" (VInt 0)) 1),
    (py_eq_int (dict_get features "HighChol" (VInt 0)) 1);
    reflexivity.
Qed.

(** C6. The exercise category of the bundle is never empty: when
    PhysActivity == 0 it is the 2 entries on aerobic exercise and on
    strength training; otherwise no rule has added an entry and it is the
    3 default entries (walking, resistance, flexibility). *)
Theorem exercise_never_empty (rt : Runtime) (features : dict)
    (prediction : Z) (rfs : list RiskFactor) :
  numeric_or_absent features "BMI" = true ->
  exists bundle,
    generate_base_recommendations rt features prediction rfs = inr bundle
    /\ exercise bundle <> []
    /\ (py_eq_int (dict_get features "PhysActivity" (VInt 0)) 0 = true ->
        exercise bundle = START_EXERCISE /\ List.length (exercise bundle) = 2%nat)
    /\ (py_eq_int (dict_get features "PhysActivity" (VInt 0)) 0 = false ->
        exercise bundle = DEFAULT_EXERCISE /\ List.length (exercise bundle) = 3%nat).
Proof.
  intros Hbmi.
  rewrite (generate_base_recommendations_bundle rt features prediction rfs Hbmi).
  cbv zeta. eexists. split; [reflexivity|]. cbn [exercise].
  destruct (py_eq_int (dict_get features "PhysActivity" (VInt 0)) 0).
  - split; [discriminate|]. split; [intros _; split; reflexivity | discriminate].
  - split; [discriminate|]. split; [discriminate | intros _; split; reflexivity].
Qed.

Lemma exercise_never_empty_witness :
  exists bundle,
    generate_base_recommendations Fixtures.runtime Fixtures.patient_1 1 [] = inr bundle
    /\ exercise bundle = DEFAULT_EXERCISE.
Proof.
  destruct (exercise_never_empty Fixtures.runtime Fixtures.patient_1 1 [] eq_refl)
    as [bundle [H1 [_ [_ H4]]]].
  exists bundle. split; [exact H1|]. apply H4. reflexivity.
Defined.

(** C7. The nutrition category ends with the four generic entries (fiber,
    sugar, portions, hydration), after the entry the BMI rule may have
    added; the medical category ends with the three generic entries
    (HbA1c, check-ups, glucose), after the entries the blood-pressure and
    cholesterol rules may have added; and ai_generated is false. *)
Theorem generic_entries_always_appended (rt : Runtime) (features : dict)
    (prediction : Z) (rfs : list RiskFactor) :
  numeric_or_absent features "BMI" = true ->
  exists bundle,
    generate_base_recommendations rt features prediction rfs = inr bundle
    /\ ai_generated bundle = false
    /\ nutrition bundle
       = (if value_ge (dict_get features "BMI" (VInt 0)) 25
          then [CALORIE_DEFICIT] else []) ++ GENERIC_NUTRITION
    /\ medical bundle
       = (if py_eq_int (dict_get features "HighBP" (VInt 0)) 1
          then [MONITOR_BP] else [])
         ++ (if py_eq_int (dict_get features "HighChol" (VInt 0)) 1
             then [MONITOR_CHOL] else [])
         ++ GENERIC_MEDICAL
    /\ List.length GENERIC_NUTRITION = 4%nat
    /\ List.length GENERIC_MEDICAL = 3%nat.
Proof.
  intros Hbmi.
  rewrite (generate_base_recommendations_bundle rt features prediction rfs Hbmi).
  cbv zeta. eexists. split; [reflexivity|]. cbn [ai_generated nutrition medical].
  repeat split.
Qed.

Lemma generic_entries_always_appended_witness :
  exists bundle,
    generate_base_recommendations Fixtures.runtime Fixtures.patient_1 1 [] = inr bundle
    /\ ai_generated bundle = false
    /\ nutrition bundle = CALORIE_DEFICIT :: GENERIC_NUTRITION
    /\ medical bundle = MONITOR_BP :: GENERIC_MEDICAL.
Proof.
  destruct (generic_entries_always_appended Fixtures.runtime Fixtures.patient_1 1 [] eq_refl)
    as [bundle [H1 [H2 [H3 [H4 _]]]]].
  exists bundle. split; [exact H1|]. split; [exact H2|]. split; [exact H3 | exact H4].
Defined.

(* ===================================================================== *)
(** ** Feature validation *)
(* ===================================================================== *)

Lemma not_in_value_dict (fs : list string) (d : dict) :
  not_in_value fs (VDict d) = inr (missing_features fs d).
Proof.
  induction fs as [|f fs IH]; [reflexivity|].
  cbn [not_in_value py_in]. unfold bind at 1. unfold ret at 1.
  rewrite IH. unfold missing_features. cbn [filter bind ret].
  destruct (dict_mem d f); reflexivity.
Qed.

Lemma missing_features_spec (fs : list string) (d : dict) (f : string) :
  In f (missing_features fs d) <-> In f fs /\ dict_lookup d f = None.
Proof.
  unfold missing_features. rewrite filter_In. unfold dict_mem.
  destruct (dict_lookup d f); simpl; intuition congruence.
Qed.

Lemma missing_features_agree (fs : list string) (d d' : dict) :
  (forall f, In f fs -> dict_lookup d' f = dict_lookup d f) ->
  missing_features fs d' = missing_features fs d.
Proof.
  intros H. unfold missing_features. apply filter_ext_in.
  intros f Hin. unfold dict_mem. rewrite (H f Hin). reflexivity.
Qed.

Lemma lookup_some_truthy (body : dict) (k : string) (v : pyval) :
  dict_lookup body k = Some v -> truthy (VDict body) = true.
Proof. destruct body; [discriminate | reflexivity]. Qed.

(** The response of [predict] to a request whose feature mapping lacks a
    required feature. *)
Lemma predict_missing (rt : Runtime) (md : ModelData) (body features : dict)
    (now : string) :
  dict_lookup body "features" = Some (VDict features) ->
  missing_features (FEATURES md) features <> [] ->
  predict rt (Some md) (VDict body) now
  = Predict_400_missing (missing_features (FEATURES md) features) (FEATURES md).
Proof.
  intros Hbody Hmiss. unfold predict, predict_try.
  rewrite (lookup_some_truthy body _ _ Hbody).
  cbn [negb py_in py_getitem]. unfold dict_mem. rewrite Hbody.
  cbn [bind ret negb]. rewrite not_in_value_dict.
  destruct (missing_features (FEATURES md) features); [contradiction | reflexivity].
Qed.

(** C5. When the submitted feature mapping lacks at least one required
    feature, [predict] answers 400 with the list of every required feature
    that is absent (in the order of FEATURES), not the first one only; a
    key outside FEATURES is never in that list, and adding, removing or
    changing such keys changes neither the answer nor the row that is
    handed to the scaler. *)
Theorem validation_reports_every_missing_feature (rt : Runtime) (md : ModelData)
    (body features : dict) (now : string) :
  dict_lookup body "features" = Some (VDict features) ->
  (exists f, In f (FEATURES md) /\ dict_lookup features f = None) ->
  exists missing,
    predict rt (Some md) (VDict body) now = Predict_400_missing missing (FEATURES md)
    /\ missing = filter (fun f => negb (dict_mem features f)) (FEATURES md)
    /\ (forall f, In f missing <-> In f (FEATURES md) /\ dict_lookup features f = None)
    /\ (forall body' features',
          dict_lookup body' "features" = Some (VDict features') ->
          (forall f, In f (FEATURES md) -> dict_lookup features' f = dict_lookup features f) ->
          predict rt (Some md) (VDict body') now
          = Predict_400_missing missing (FEATURES md)
          /\ frame_row rt (VDict features') (FEATURES md)
             = frame_row rt (VDict features) (FEATURES md)).
Proof.
  intros Hbody [f0 [Hin0 Hnone0]].
  assert (missing_features (FEATURES md) features <> []) as Hne.
  { intros Hnil.
    assert (In f0 (missing_features (FEATURES md) features)) as Hf0
      by (apply missing_features_spec; auto).
    rewrite Hnil in Hf0. exact Hf0. }
  exists (missing_features (FEATURES md) features).
  split; [apply predict_missing; assumption|].
  split; [reflexivity|].
  split; [intros f; apply missing_features_spec|].
  intros body' features' Hbody' Hagree.
  pose proof (missing_features_agree (FEATURES md) features features' Hagree) as Hm.
  split.
  - rewrite <- Hm. apply predict_missing; [assumption | rewrite Hm; assumption].
  - unfold frame_row. fold (missing_features (FEATURES md) features').
    fold (missing_features (FEATURES md) features). rewrite Hm.
    destruct (missing_features (FEATURES md) features); [|reflexivity].
    f_equal. apply map_ext_in. intros c Hc. unfold dict_get.
    rewrite (Hagree c Hc). reflexivity.
Qed.

Lemma validation_reports_every_missing_feature_witness :
  predict Fixtures.runtime (Some Fixtures.model_data)
    (Fixtures.request "features" (VDict Fixtures.patient_2)) "t"
  = Predict_400_missing ["BMI"; "Smoker"] REQUIRED_FEATURES
  /\ predict Fixtures.runtime (Some Fixtures.model_data)
       (Fixtures.request "features"
          (VDict (("Notes", VStr "n/a") :: Fixtures.patient_2))) "t"
     = Predict_400_missing ["BMI"; "Smoker"] REQUIRED_FEATURES.
Proof.
  assert (In "BMI" (FEATURES Fixtures.model_data)) as Hin
    by (do 3 right; left; reflexivity).
  destruct (validation_reports_every_missing_feature Fixtures.runtime
              Fixtures.model_data [("features", VDict Fixtures.patient_2)]
              Fixtures.patient_2 "t" eq_refl
              (ex_intro _ "BMI" (conj Hin eq_refl)))
    as [missing [H1 [H2 [_ H4]]]].
  assert (missing = ["BMI"; "Smoker"]) as Hm by (rewrite H2; reflexivity).
  assert (forall f, In f (FEATURES Fixtures.model_data) ->
            dict_lookup (("Notes", VStr "n/a") :: Fixtures.patient_2) f
            = dict_lookup Fixtures.patient_2 f) as Hagree.
  { intros f Hf. change (FEATURES Fixtures.model_data) with REQUIRED_FEATURES in Hf.
    unfold REQUIRED_FEATURES in Hf. cbn [In] in Hf.
    repeat (destruct Hf as [<- | Hf]; [vm_compute; reflexivity|]). contradiction. }
  destruct (H4 [("features", VDict (("Notes", VStr "n/a") :: Fixtures.patient_2))]
               (("Notes", VStr "n/a") :: Fixtures.patient_2) eq_refl Hagree)
    as [H5 _].
  rewrite Hm in H1, H5.
  split; [exact H1 | exact H5].
Defined.

(* ===================================================================== *)
(** ** Batch prediction *)
(* ===================================================================== *)

Lemma batch_step_result (rt : Runtime) (md : ModelData) (results : list BatchItem)
    (i : Z) (patient : pyval) :
  batch_step rt md results i patient = results ++ [batch_result rt md i patient].
Proof.
  unfold batch_step, batch_result.
  destruct (batch_item_try rt md i patient); reflexivity.
Qed.

(** The loop only appends to what it has collected. *)
Lemma batch_loop_app (rt : Runtime) (md : ModelData) (patients : list pyval) :
  forall results i,
    batch_loop rt md results i patients = results ++ batch_loop rt md [] i patients.
Proof.
  induction patients as [|patient rest IH]; intros results i; cbn [batch_loop].
  - rewrite app_nil_r. reflexivity.
  - rewrite (IH (batch_step rt md results i patient)).
    rewrite (IH (batch_step rt md [] i patient)).
    rewrite !batch_step_result, <- app_assoc. reflexivity.
Qed.

Lemma batch_loop_length (rt : Runtime) (md : ModelData) (patients : list pyval) :
  forall i, List.length (batch_loop rt md [] i patients) = List.length patients.
Proof.
  induction patients as [|patient rest IH]; intros i; cbn [batch_loop]; [reflexivity|].
  rewrite batch_loop_app, batch_step_result, length_app, IH. reflexivity.
Qed.

(** The item at position [n] is the result for the patient at position
    [n], whatever happened to the patients before it. *)
Lemma batch_loop_nth (rt : Runtime) (md : ModelData) (patients : list pyval) :
  forall i n patient,
    nth_error patients n = Some patient ->
    nth_error (batch_loop rt md [] i patients) n
    = Some (batch_result rt md (i + Z.of_nat n) patient).
Proof.
  induction patients as [|p rest IH]; intros i n patient Hn.
  - destruct n; discriminate.
  - cbn [batch_loop]. rewrite batch_loop_app, batch_step_result. cbn [app].
    destruct n as [|n].
    + injection Hn as ->. cbn [nth_error]. rewrite Z.add_0_r. reflexivity.
    + cbn [nth_error] in *. rewrite (IH (i + 1) n patient Hn).
      do 2 f_equal. lia.
Qed.

(** A patient that goes through yields prediction fields under its
    1-based position. *)
Lemma batch_item_try_ok (rt : Runtime) (md : ModelData) (i : Z) (patient : pyval)
    (item : BatchItem) :
  batch_item_try rt md i patient = inr item ->
  is_error item = false /\ patient_id_of item = i + 1.
Proof.
  unfold batch_item_try.
  destruct (frame_row rt patient (FEATURES md)) as [e|input_df]; [discriminate|].
  cbn [bind].
  destruct (transform (SCALER md) input_df) as [e|input_scaled]; [discriminate|].
  cbn [bind].
  destruct (classify md input_scaled) as [e|[prediction prediction_proba]]; [discriminate|].
  cbn [bind].
  destruct (risk_percentage_of prediction_proba) as [e|risk_percentage]; [discriminate|].
  cbn [bind ret]. intros H. injection H as <-. split; reflexivity.
Qed.

Lemma batch_result_patient_id (rt : Runtime) (md : ModelData) (i : Z) (patient : pyval) :
  patient_id_of (batch_result rt md i patient) = i + 1.
Proof.
  unfold batch_result.
  destruct (batch_item_try rt md i patient) as [e|item] eqn:E; [reflexivity|].
  apply (batch_item_try_ok rt md i patient item E).
Qed.

(** C2. For every list of patients, [batch_predict] answers 200 with
    [total_patients] the length of the list and one item per patient, in
    order; the item at (1-based) position [n + 1] has [patient_id = n + 1]
    and depends on that patient only: prediction fields when its pipeline
    succeeds, [patient_id] and the error message when it raises.  No
    failure ends the loop, also when every patient fails. *)
Theorem batch_isolates_failures (rt : Runtime) (md : ModelData) (body : dict)
    (patients : list pyval) (now : string) :
  dict_lookup body "patients" = Some (VList patients) ->
  exists results,
    batch_predict rt (Some md) (VDict body) now
    = Batch_200 (Z.of_nat (List.length patients)) results now
    /\ List.length results = List.length patients
    /\ (forall n patient,
          nth_error patients n = Some patient ->
          exists item,
            nth_error results n = Some item
            /\ patient_id_of item = Z.of_nat n + 1
            /\ (forall e,
                  batch_item_try rt md (Z.of_nat n) patient = inl e ->
                  item = Item_error (Z.of_nat n + 1) (exn_str rt e))
            /\ (forall ok,
                  batch_item_try rt md (Z.of_nat n) patient = inr ok ->
                  item = ok /\ is_error item = false)).
Proof.
  intros Hbody.
  exists (batch_loop rt md [] 0 patients). split; [|split].
  - unfold batch_predict, batch_predict_try.
    rewrite (lookup_some_truthy body _ _ Hbody).
    cbn [negb py_in py_getitem]. unfold dict_mem. rewrite Hbody. reflexivity.
  - apply batch_loop_length.
  - intros n patient Hn.
    exists (batch_result rt md (Z.of_nat n) patient).
    split; [apply (batch_loop_nth rt md patients 0 n patient Hn)|].
    split; [apply batch_result_patient_id|].
    unfold batch_result. split.
    + intros e ->. reflexivity.
    + intros ok E. rewrite E. split; [reflexivity|].
      apply (batch_item_try_ok rt md (Z.of_nat n) patient ok E).
Qed.

Lemma batch_isolates_failures_witness :
  exists results,
    batch_predict Fixtures.runtime (Some Fixtures.model_data)
      (Fixtures.request "patients"
         (VList [VDict Fixtures.patient_1; VDict Fixtures.patient_2;
                 VDict Fixtures.patient_3])) "t"
    = Batch_200 3 results "t"
    /\ List.length results = 3%nat
    /\ nth_error results 1 = Some (Item_error 2 "KeyError").
Proof.
  destruct (batch_isolates_failures Fixtures.runtime Fixtures.model_data
              [("patients", VList [VDict Fixtures.patient_1; VDict Fixtures.patient_2;
                                   VDict Fixtures.patient_3])]
              [VDict Fixtures.patient_1; VDict Fixtures.patient_2; VDict Fixtures.patient_3]
              "t" eq_refl) as [results [H1 [H2 H3]]].
  exists results. split; [exact H1|]. split; [exact H2|].
  destruct (H3 1%nat (VDict Fixtures.patient_2) eq_refl) as [item [Hn [_ [Herr _]]]].
  rewrite Hn. f_equal.
  apply (Herr (Builtin (KeyError_columns ["BMI"; "Smoker"]))).
  vm_compute. reflexivity.
Defined.

(** Three patients, the second without BMI and Smoker: two predictions
    around one error item. *)
Example batch_three_patients :
  batch_predict Fixtures.runtime (Some Fixtures.model_data)
    (Fixtures.request "patients"
       (VList [VDict Fixtures.patient_1; VDict Fixtures.patient_2;
               VDict Fixtures.patient_3])) "t"
  = Batch_200 3
      [ Item_prediction 1 1 "High Risk"
          (Some (S754_finite false 6755399441055744 (-53)))   (* 0.75 *)
          (Some (S754_finite false 5277655813324800 (-46)));  (* 75.0 *)
        Item_error 2 "KeyError";
        Item_prediction 3 1 "High Risk"
          (Some (S754_finite false 6755399441055744 (-53)))
          (Some (S754_finite false 5277655813324800 (-46))) ] "t".
Proof. vm_compute. reflexivity. Qed.

(** Every patient failing still gives one error item each. *)
Example batch_all_fail :
  batch_predict Fixtures.runtime (Some Fixtures.model_data)
    (Fixtures.request "patients" (VList [VDict []; VInt 7; VDict Fixtures.patient_2])) "t"
  = Batch_200 3 [Item_error 1 "KeyError"; Item_error 2 "KeyError";
                 Item_error 3 "KeyError"] "t".
Proof. vm_compute. reflexivity. Qed.

(* ===================================================================== *)
(** ** Classifier adapter *)
(* ===================================================================== *)

(** *** Rounding of a float32 difference

    [SFsub] rounds the exact difference to nearest-even; the lemmas below
    follow the shifts of [binary_round] to bound the rounding error. *)

Lemma iter_pos_nat {A : Type} (f : A -> A) (n : positive) :
  forall x, iter_pos f n x = Nat.iter (Pos.to_nat n) f x.
Proof.
  induction n as [n IH | n IH |]; intros x; cbn [iter_pos].
  - rewrite !IH, Pos2Nat.inj_xI.
    replace (S (2 * Pos.to_nat n)) with (Pos.to_nat n + (Pos.to_nat n + 1))%nat by lia.
    rewrite !Nat.iter_add. reflexivity.
  - rewrite !IH, Pos2Nat.inj_xO.
    replace (2 * Pos.to_nat n)%nat with (Pos.to_nat n + Pos.to_nat n)%nat by lia.
    rewrite Nat.iter_add. reflexivity.
  - reflexivity.
Qed.

Lemma digits2_pos_spec (p : positive) :
  2 ^ (Zpos (digits2_pos p) - 1) <= Zpos p < 2 ^ Zpos (digits2_pos p).
Proof.
  induction p as [p IH | p IH |]; cbn [digits2_pos].
  - rewrite Pos2Z.inj_succ.
    replace (Z.succ (Zpos (digits2_pos p)) - 1) with (Z.succ (Zpos (digits2_pos p) - 1)) by lia.
    rewrite !Z.pow_succ_r by lia. lia.
  - rewrite Pos2Z.inj_succ.
    replace (Z.succ (Zpos (digits2_pos p)) - 1) with (Z.succ (Zpos (digits2_pos p) - 1)) by lia.
    rewrite !Z.pow_succ_r by lia. lia.
  - simpl. lia.
Qed.

Lemma digits2_pos_unique (p : positive) (n : Z) :
  2 ^ (n - 1) <= Zpos p < 2 ^ n -> Zpos (digits2_pos p) = n.
Proof.
  intros [Hlo Hhi]. pose proof (digits2_pos_spec p) as [Hlo' Hhi'].
  assert (0 < n) as Hn.
  { destruct (Z.ltb_spec 0 n); [assumption|].
    exfalso. destruct (Z.eqb_spec n 0).
    - subst. simpl in Hhi. lia.
    - rewrite (Z.pow_neg_r 2 n) in Hhi by lia. lia. }
  destruct (Z.lt_trichotomy (Zpos (digits2_pos p)) n) as [Hlt | [Heq | Hgt]]; [|assumption|].
  - exfalso. assert (2 ^ Zpos (digits2_pos p) <= 2 ^ (n - 1)) by (apply Z.pow_le_mono_r; lia). lia.
  - exfalso. assert (2 ^ n <= 2 ^ (Zpos (digits2_pos p) - 1)) by (apply Z.pow_le_mono_r; lia). lia.
Qed.

Lemma shr_1_inv (x j : Z) (mrs : shr_record) :
  0 <= x -> 0 <= j -> shr_inv x j mrs -> shr_inv x (j + 1) (shr_1 mrs).
Proof.
  intros Hx Hj [Hm [Hr Hs]].
  assert (0 < 2 ^ j) as Hpow by (apply Z.pow_pos_nonneg; lia).
  assert (2 ^ (j + 1) = 2 ^ j * 2) as Hsucc by (rewrite Z.pow_add_r by lia; reflexivity).
  pose proof (Z.mod_pos_bound x (2 ^ j) Hpow) as Hrem.
  assert (x / 2 ^ (j + 1) = x / 2 ^ j / 2) as Hdiv
    by (rewrite Hsucc, Z.div_div by lia; reflexivity).
  assert (x mod 2 ^ (j + 1) = x mod 2 ^ j + 2 ^ j * ((x / 2 ^ j) mod 2)) as Hmod
    by (rewrite Hsucc; apply Z.rem_mul_r; lia).
  assert (0 <= x / 2 ^ j) as Hq by (apply Z.div_pos; lia).
  pose proof (Z.mod_pos_bound (x / 2 ^ j) 2 ltac:(lia)) as Hbit.
  pose proof (Z.div_mod (x / 2 ^ j) 2 ltac:(lia)) as Hdm.
  destruct mrs as [m r s]. cbn [shr_m shr_r shr_s] in *.
  assert (orb r s = true <-> x mod 2 ^ j <> 0) as Hrs.
  { rewrite orb_true_iff, Hr, Hs. lia. }
  unfold shr_inv. rewrite Hdiv, Hmod, Hsucc. rewrite <- Hm in *.
  unfold shr_1.
  assert (forall p, Zpos p~1 / 2 = Zpos p /\ Zpos p~1 mod 2 = 1) as Hodd.
  { intros p. rewrite Pos2Z.inj_xI. split; symmetry.
    - apply (Z.div_unique _ 2 _ 1); lia.
    - apply (Z.mod_unique _ 2 (Zpos p) 1); lia. }
  assert (forall p, Zpos p~0 / 2 = Zpos p /\ Zpos p~0 mod 2 = 0) as Heven.
  { intros p. rewrite Pos2Z.inj_xO. split; symmetry.
    - apply (Z.div_unique _ 2 _ 0); lia.
    - apply (Z.mod_unique _ 2 (Zpos p) 0); lia. }
  destruct m as [|[p|p|]|p]; cbn [shr_m shr_r shr_s]; try lia;
    [ change (0 mod 2) with 0 in *; change (0 / 2) with 0
    | destruct (Hodd p) as [-> ->]
    | destruct (Heven p) as [-> ->]
    | change (1 / 2) with 0; change (1 mod 2) with 1 ];
    (repeat split; intros; try discriminate;
     try match goal with H : orb _ _ = true |- _ => apply Hrs in H end;
     try (apply Hrs); lia).
Qed.

Lemma shr_inv_exact (x : Z) : shr_inv x 0 (shr_record_of_loc x loc_Exact).
Proof.
  unfold shr_inv. cbn [shr_record_of_loc shr_m shr_r shr_s].
  rewrite Z.pow_0_r, Z.div_1_r, Z.mod_1_r. repeat split; intros; try discriminate; lia.
Qed.

Lemma shr_inv_iter (x : Z) (mrs : shr_record) (n : nat) :
  0 <= x -> shr_inv x 0 mrs -> shr_inv x (Z.of_nat n) (Nat.iter n shr_1 mrs).
Proof.
  intros Hx H0. induction n as [|n IH]; [exact H0|].
  rewrite Nat2Z.inj_succ. cbn [Nat.iter]. apply shr_1_inv; [assumption | lia | assumption].
Qed.

Lemma shr_shift (x e : Z) (k : positive) :
  0 <= x ->
  exists mrs,
    shr (shr_record_of_loc x loc_Exact) e (Zpos k) = (mrs, e + Zpos k)
    /\ shr_inv x (Zpos k) mrs.
Proof.
  intros Hx. eexists. split; [reflexivity|].
  rewrite iter_pos_nat, <- positive_nat_Z.
  apply shr_inv_iter; [assumption | apply shr_inv_exact].
Qed.

(** Rounding to nearest even after [j] shifts moves [x] by at most half
    of [2^j]. *)
Lemma round_nearest_even_bound (x j : Z) (mrs : shr_record) :
  0 <= x -> 0 <= j -> shr_inv x j mrs ->
  let M := round_nearest_even (shr_m mrs) (loc_of_shr_record mrs) in
  x / 2 ^ j <= M <= x / 2 ^ j + 1 /\ 2 * Z.abs (M * 2 ^ j - x) <= 2 ^ j.
Proof.
  intros Hx Hj [Hm [Hr Hs]]. cbv zeta.
  assert (0 < 2 ^ j) as Hpow by (apply Z.pow_pos_nonneg; lia).
  pose proof (Z.mod_pos_bound x (2 ^ j) Hpow) as Hrem.
  pose proof (Z.div_mod x (2 ^ j) ltac:(lia)) as Hdm.
  destruct mrs as [m r s]. cbn [shr_m shr_r shr_s] in *. subst m.
  set (q := x / 2 ^ j) in *. set (rem := x mod 2 ^ j) in *.
  destruct r, s; cbn [loc_of_shr_record round_nearest_even].
  - assert (2 ^ j <= 2 * rem) by (apply Hr; reflexivity).
    assert (2 * rem <> 2 ^ j) by (apply Hs; reflexivity). nia.
  - assert (2 ^ j <= 2 * rem) by (apply Hr; reflexivity).
    assert (2 * rem = 2 ^ j).
    { destruct (Z.eq_dec (2 * rem) (2 ^ j)); [assumption|].
      assert (false = true) by (apply Hs; lia). discriminate. }
    destruct (Z.even q); nia.
  - assert (~ 2 ^ j <= 2 * rem) by (intros H; apply Hr in H; discriminate). nia.
  - assert (~ 2 ^ j <= 2 * rem) by (intros H; apply Hr in H; discriminate).
    assert (rem = 0).
    { destruct (Z.eq_dec rem 0); [assumption|].
      assert (false = true) by (apply Hs; lia). discriminate. }
    nia.
Qed.

Lemma iter_xO (p d : positive) : Zpos (Pos.iter xO p d) = Zpos p * 2 ^ Zpos d.
Proof.
  induction d as [|d IH] using Pos.peano_ind.
  - simpl. lia.
  - rewrite Pos.iter_succ, Pos2Z.inj_xO, IH, Pos2Z.inj_succ, Z.pow_succ_r by lia. lia.
Qed.

Lemma fexp32 (x : Z) : fexp 24 128 x = Z.max (x - 24) (-149).
Proof. reflexivity. Qed.

Lemma pow2_split (a b : Z) : 0 <= a -> 0 <= b -> 2 ^ (a + b) = 2 ^ a * 2 ^ b.
Proof. intros. apply Z.pow_add_r; assumption. Qed.

(** No shift is due: the mantissa is kept, whatever the location. *)
Lemma shr_fexp_keep (p : positive) (e : Z) :
  fexp 24 128 (Zpos (digits2_pos p) + e) = e ->
  shr_fexp 24 128 (Zpos p) e loc_Exact = (shr_record_of_loc (Zpos p) loc_Exact, e).
Proof.
  intros H. unfold shr_fexp. cbn [Zdigits2]. rewrite H, Z.sub_diag. reflexivity.
Qed.

Lemma binary_round_aux_keep (p : positive) (e : Z) :
  fexp 24 128 (Zpos (digits2_pos p) + e) = e -> e <= 104 ->
  binary_round_aux 24 128 false (Zpos p) e loc_Exact = S754_finite false p e.
Proof.
  intros H He. unfold binary_round_aux.
  rewrite (shr_fexp_keep p e H).
  cbn [shr_record_of_loc shr_m loc_of_shr_record round_nearest_even].
  rewrite (shr_fexp_keep p e H). cbn [shr_record_of_loc shr_m].
  change (128 - 24) with 104.
  destruct (Z.leb_spec e 104); [reflexivity | lia].
Qed.

(** Rounding [dp * 2^e], a number below 1, to binary32 gives a finite
    float within [2^-25] of it; values are in units of [2^-149]. *)
Lemma binary_round_error (dp : positive) (e : Z) :
  -149 <= e -> Zpos dp < 2 ^ (- e) ->
  exists mq eq,
    binary_round 24 128 false dp e = S754_finite false mq eq
    /\ -149 <= eq
    /\ Z.abs (Zpos mq * 2 ^ (eq + 149) - Zpos dp * 2 ^ (e + 149)) <= 2 ^ 124.
Proof.
  intros He Hdp.
  pose proof (digits2_pos_spec dp) as [Hlo Hhi].
  set (n := Zpos (digits2_pos dp)) in *.
  assert (0 < n) as Hn0 by (unfold n; lia).
  assert (n <= - e) as Hn.
  { destruct (Z.leb_spec n (- e)); [assumption|]. exfalso.
    assert (2 ^ (- e) <= 2 ^ (n - 1)) by (apply Z.pow_le_mono_r; lia). lia. }
  unfold binary_round. fold n. rewrite fexp32.
  set (t := Z.max (n + e - 24) (-149)).
  unfold shl_align.
  destruct (t - e) as [|k|d] eqn:Hk.
  - (* no shift at all *)
    rewrite binary_round_aux_keep.
    + exists dp, e. repeat split; [assumption|]. rewrite Z.sub_diag. simpl. lia.
    + fold n. rewrite fexp32. fold t. lia.
    + lia.
  - (* shift right by k *)
    assert (t = n + e - 24) as Ht by lia.
    assert (Zpos k = n - 24) as Hkn by lia.
    destruct (shr_shift (Zpos dp) e k ltac:(lia)) as [mrs [Hshr Hinv]].
    assert (shr_fexp 24 128 (Zpos dp) e loc_Exact = (mrs, t)) as H1.
    { unfold shr_fexp. cbn [Zdigits2]. fold n. rewrite fexp32. fold t.
      rewrite Hk, Hshr. f_equal. lia. }
    pose proof (round_nearest_even_bound (Zpos dp) (Zpos k) mrs ltac:(lia) ltac:(lia) Hinv)
      as [HM Herr].
    cbv zeta in HM, Herr.
    unfold binary_round_aux. rewrite H1.
    set (M := round_nearest_even (shr_m mrs) (loc_of_shr_record mrs)) in *.
    assert (0 < 2 ^ Zpos k) as Hpk by (apply Z.pow_pos_nonneg; lia).
    assert (2 ^ (n - 1) = 2 ^ 23 * 2 ^ Zpos k) as Hsplit1
      by (replace (n - 1) with (23 + Zpos k) by lia; apply pow2_split; lia).
    assert (2 ^ n = 2 ^ 24 * 2 ^ Zpos k) as Hsplit2
      by (replace n with (24 + Zpos k) at 1 by lia; apply pow2_split; lia).
    assert (2 ^ 23 <= Zpos dp / 2 ^ Zpos k < 2 ^ 24) as [Hq1 Hq2].
    { split.
      - apply Z.div_le_lower_bound; lia.
      - apply Z.div_lt_upper_bound; lia. }
    assert (0 < 2 ^ (e + 149)) as HE by (apply Z.pow_pos_nonneg; lia).
    assert (2 ^ (t + 149) = 2 ^ (e + 149) * 2 ^ Zpos k) as Hscale
      by (replace (t + 149) with ((e + 149) + Zpos k) by lia; apply pow2_split; lia).
    assert (2 ^ (t + 149) = 2 * 2 ^ (t + 148)) as Hhalf
      by (replace (t + 149) with (Z.succ (t + 148)) by lia; apply Z.pow_succ_r; lia).
    assert (2 ^ (t + 148) <= 2 ^ 124) as Htol by (apply Z.pow_le_mono_r; lia).
    assert (Z.abs (M * 2 ^ (t + 149) - Zpos dp * 2 ^ (e + 149)) <= 2 ^ 124) as Hfinal.
    { rewrite Hscale.
      replace (M * (2 ^ (e + 149) * 2 ^ Zpos k) - Zpos dp * 2 ^ (e + 149))
        with (2 ^ (e + 149) * (M * 2 ^ Zpos k - Zpos dp)) by ring.
      rewrite Z.abs_mul, (Z.abs_eq (2 ^ (e + 149))) by lia.
      nia. }
    destruct M as [|Mp|Mp] eqn:HMp; [lia | | lia].
    destruct (Z.eq_dec (Zpos Mp) (2 ^ 24)) as [Htop | Hntop].
    + (* the mantissa overflowed to 2^24: one more, exact, shift *)
      assert (Mp = 16777216%positive) as -> by (change (2 ^ 24) with 16777216 in Htop; congruence).
      unfold shr_fexp. change (Zdigits2 16777216) with 25. rewrite fexp32.
      replace (Z.max (25 + t - 24) (-149) - t) with 1 by lia.
      cbn [shr_record_of_loc shr iter_pos shr_1 shr_m].
      change (128 - 24) with 104.
      destruct (Z.leb_spec (t + 1) 104); [|lia].
      exists 8388608%positive, (t + 1). split; [reflexivity|]. split; [lia|].
      replace (t + 1 + 149) with (Z.succ (t + 149)) by lia.
      rewrite Z.pow_succ_r by lia.
      replace (8388608 * (2 * 2 ^ (t + 149))) with (16777216 * 2 ^ (t + 149)) by ring.
      exact Hfinal.
    + assert (Zpos (digits2_pos Mp) = 24) as Hdig
        by (apply digits2_pos_unique; change (24 - 1) with 23; lia).
      rewrite shr_fexp_keep by (rewrite Hdig, fexp32; lia).
      cbn [shr_record_of_loc shr_m]. change (128 - 24) with 104.
      destruct (Z.leb_spec t 104); [|lia].
      exists Mp, t. split; [reflexivity|]. split; [lia | exact Hfinal].
  - (* shift left by d *)
    assert (Zpos d = e - t) as Hd by lia.
    pose proof (iter_xO dp d) as Hmz.
    set (mz := Pos.iter xO dp d) in *.
    assert (0 < 2 ^ Zpos d) as Hpd by (apply Z.pow_pos_nonneg; lia).
    assert (Zpos (digits2_pos mz) = n + Zpos d) as Hdig.
    { apply digits2_pos_unique. rewrite Hmz.
      replace (n + Zpos d - 1) with ((n - 1) + Zpos d) by lia.
      rewrite !pow2_split by lia. nia. }
    rewrite binary_round_aux_keep.
    + exists mz, t. split; [reflexivity|]. split; [lia|].
      rewrite Hmz. replace (e + 149) with (Zpos d + (t + 149)) by lia.
      rewrite (pow2_split (Zpos d)) by lia.
      replace (Zpos dp * 2 ^ Zpos d * 2 ^ (t + 149) - Zpos dp * (2 ^ Zpos d * 2 ^ (t + 149)))
        with 0 by ring.
      simpl. lia.
    + rewrite Hdig, fexp32. lia.
    + lia.
Qed.


Lemma is_probability_cases (p : spec_float) :
  is_probability p = true ->
  (exists s, p = S754_zero s)
  \/ p = f32_one
  \/ (exists m e, p = S754_finite false m e /\ -149 <= e < -23 /\ Zpos m < 2 ^ (- e)).
Proof.
  unfold is_probability. rewrite !andb_true_iff. intros [[Hv H0] H1].
  destruct p as [s | [|] | | [|] m e]; try discriminate.
  - left. exists s. reflexivity.
  - cbn [valid_binary] in Hv. unfold bounded, canonical_mantissa in Hv.
    apply andb_true_iff in Hv. destruct Hv as [Hc _].
    apply Z.eqb_eq in Hc. rewrite fexp32 in Hc.
    pose proof (digits2_pos_spec m) as [Hlo Hhi].
    unfold SFleb, SFcompare, f32_one in H1.
    destruct (Z.compare_spec e (-23)) as [He | He | He]; try discriminate.
    + (* exponent -23: the mantissa is 2^23 *)
      right. left. subst e.
      assert (Zpos (digits2_pos m) = 24) as Hd by lia. rewrite Hd in *.
      change (24 - 1) with 23 in Hlo.
      destruct (Pos.compare_cont Eq m 8388608) eqn:Hcmp; try discriminate.
      * apply (Pos.compare_eq m 8388608) in Hcmp. subst m. reflexivity.
      * exfalso. apply (Pos.compare_lt_iff m 8388608) in Hcmp.
        apply Pos2Z.pos_lt_pos in Hcmp. change (2 ^ 23) with 8388608 in Hlo. lia.
    + right. right. exists m, e. split; [reflexivity|]. split; [lia|].
      assert (Zpos (digits2_pos m) <= 24) as Hd by lia.
      assert (2 ^ Zpos (digits2_pos m) <= 2 ^ (- e)) by (apply Z.pow_le_mono_r; lia).
      lia.
Qed.

(** For a probability [p] the float32 difference [1 - p] and [p] denote
    numbers whose sum is within [2^-25] of 1. *)
Lemma f32_row_sums_to_one (p : spec_float) :
  is_probability p = true -> sums_to_one (f32_sub f32_one p) p = true.
Proof.
  intros Hp. destruct (is_probability_cases p Hp) as [[s ->] | [-> | [m [e [-> [He Hm]]]]]].
  - reflexivity.
  - reflexivity.
  - unfold f32_sub, SFsub, f32_one.
    rewrite Z.min_r by lia.
    unfold shl_align at 2. rewrite Z.sub_diag. cbn [fst cond_Zopp].
    unfold shl_align.
    destruct (e - -23) as [|d|d] eqn:Hd; try lia.
    cbn [fst]. rewrite iter_xO.
    assert (Zpos d = -23 - e) as Hd' by lia.
    assert (8388608 * 2 ^ Zpos d = 2 ^ (- e)) as Hone.
    { change 8388608 with (2 ^ 23). rewrite <- pow2_split by lia. f_equal. lia. }
    rewrite Hone.
    destruct (2 ^ (- e) - Zpos m) as [|dp|dp] eqn:Hdp; try lia.
    cbn [binary_normalize].
    destruct (binary_round_error dp e ltac:(lia) ltac:(lia)) as [mq [eq [Hr [Heq Herr]]]].
    rewrite Hr. unfold sums_to_one. cbn [f32_units].
    apply Z.leb_le.
    assert (2 ^ 149 = 2 ^ (- e) * 2 ^ (e + 149)) as H149
      by (rewrite <- pow2_split by lia; f_equal; lia).
    replace (Zpos mq * 2 ^ (eq + 149) + Zpos m * 2 ^ (e + 149) - 2 ^ 149)
      with (Zpos mq * 2 ^ (eq + 149) - Zpos dp * 2 ^ (e + 149)); [exact Herr|].
    rewrite H149, <- Hdp. ring.
Qed.

(** At a score of exactly 0.5 the adapter's row is [0.5, 0.5] and,
    although 0.5 >= 0.5, its label is 0: the comparison in [predict] is
    strict. *)
Lemma adapter_label_at_half :
  booster_predict Fixtures.booster_half [[f32_one]] = inr [f32_half]
  /\ SFleb f32_half f32_half = true
  /\ XGBoostBoosterWrapper.predict_proba Fixtures.booster_half [[f32_one]]
     = inr [[f32_half; f32_half]]
  /\ XGBoostBoosterWrapper.predict Fixtures.booster_half [[f32_one]] = inr [0]
  /\ XGBoostBoosterWrapper.predict Fixtures.booster_half [[f32_one]] <> inr [1].
Proof. repeat split; try reflexivity. discriminate. Qed.

(** C4, amended. For every input matrix on which the booster returns
    scores, the adapter's probability row of each sample is [1 - p, p] for
    its score p, with [1 - p] computed in float32; for a probability p (a
    well-formed float32 in [0, 1]) the two entries sum to 1 within 2^-25;
    and the label is 1 if and only if p > 0.5, and 0 otherwise. *)
Theorem adapter_rows_and_strict_threshold (booster : Booster) (X : matrix)
    (proba : list spec_float) :
  booster_predict booster X = inr proba ->
  exists rows labels,
    XGBoostBoosterWrapper.predict_proba booster X = inr rows
    /\ XGBoostBoosterWrapper.predict booster X = inr labels
    /\ List.length rows = List.length proba
    /\ List.length labels = List.length proba
    /\ (forall n p,
          nth_error proba n = Some p ->
          exists label,
            nth_error rows n = Some [f32_sub f32_one p; p]
            /\ (is_probability p = true -> sums_to_one (f32_sub f32_one p) p = true)
            /\ nth_error labels n = Some label
            /\ (label = 1 \/ label = 0)
            /\ (label = 1 <-> SFltb f32_half p = true)).
Proof.
  intros Hp. unfold XGBoostBoosterWrapper.predict_proba, XGBoostBoosterWrapper.predict.
  rewrite Hp. cbn [bind ret].
  do 2 eexists. split; [reflexivity|]. split; [reflexivity|].
  split; [apply length_map|]. split; [apply length_map|].
  intros n p Hn. rewrite !nth_error_map, Hn. cbn [option_map].
  eexists. split; [reflexivity|]. split; [apply f32_row_sums_to_one|].
  split; [reflexivity|].
  destruct (SFltb f32_half p); split; auto; split; intros; congruence.
Qed.

Lemma adapter_rows_and_strict_threshold_witness :
  exists rows labels,
    XGBoostBoosterWrapper.predict_proba Fixtures.booster [[f32_one]] = inr rows
    /\ XGBoostBoosterWrapper.predict Fixtures.booster [[f32_one]] = inr labels
    /\ nth_error rows 0 = Some [S754_finite false 8388608 (-25); Fixtures.f32_075]
    /\ sums_to_one (S754_finite false 8388608 (-25)) Fixtures.f32_075 = true
    /\ nth_error labels 0 = Some 1.
Proof.
  destruct (adapter_rows_and_strict_threshold Fixtures.booster [[f32_one]]
              [Fixtures.f32_075] eq_refl) as [rows [labels [H1 [H2 [_ [_ H5]]]]]].
  exists rows, labels. split; [exact H1|]. split; [exact H2|].
  destruct (H5 0%nat Fixtures.f32_075 eq_refl) as [label [Hrow [Hsum [Hlab [_ Hiff]]]]].
  split; [exact Hrow|]. split; [apply Hsum; reflexivity|].
  rewrite Hlab. f_equal. apply Hiff. reflexivity.
Defined.

(** On these scores the float32 row sums to exactly 1. *)
Example adapter_row_sum_samples :
  Forall (fun p => SFadd 24 128 (f32_sub f32_one p) p = f32_one)
    [ f32_half; Fixtures.f32_075;
      S754_finite false 10066330 (-25);   (* 0.3 *)
      S754_finite false 13421773 (-27) ]. (* 0.1 *)
Proof. repeat constructor. Qed.

(** A complete request: label, factors in rule order, and the note. *)
Example predict_patient_1 :
  match predict Fixtures.runtime (Some Fixtures.model_data)
          (Fixtures.request "features" (VDict Fixtures.patient_1)) "t" with
  | Predict_200 body =>
      prediction body = 1
      /\ map factor (risk_factors body)
         = ["High Blood Pressure"; "High BMI (32)"; "Smoking"]
      /\ emergency_note (recommendations body) = ELEVATED_RISK
      /\ List.length (exercise (recommendations body)) = 3%nat
  | _ => False
  end.
Proof. vm_compute. repeat split. Qed.

(** Outside the data model: a BMI that is not a number (here JSON null)
    makes the comparison raise. *)
Example get_risk_factors_raises_on_unordered :
  get_risk_factors Fixtures.runtime [("BMI", VNone)]
  = inl (Builtin (TypeError_order VNone)).
Proof. reflexivity. Qed.

(* ===================================================================== *)
(** ** Further properties of the extractor and the synthesizer *)
(* ===================================================================== *)

Lemma py_ge_int_not_number (v : pyval) (k : Z) :
  is_number v = false -> py_ge_int v k = inl (Builtin (TypeError_order v)).
Proof. destruct v; simpl; intros H; try discriminate; reflexivity. Qed.

Lemma dict_get_not_number (features : dict) (key : string) (default : pyval) :
  numeric_or_absent features key = false ->
  is_number (dict_get features key default) = false.
Proof.
  unfold numeric_or_absent, dict_get.
  destruct (dict_lookup features key); [auto | discriminate].
Qed.

(** What the extractor does when BMI is not a number: the first
    comparison raises. *)
Lemma get_risk_factors_bad_bmi (rt : Runtime) (features : dict) :
  numeric_or_absent features "BMI" = false ->
  get_risk_factors rt features
  = inl (Builtin (TypeError_order (dict_get features "BMI" (VInt 0)))).
Proof.
  intros H. unfold get_risk_factors.
  rewrite (py_ge_int_not_number _ 30 (dict_get_not_number _ _ _ H)). reflexivity.
Qed.

(** ... and when BMI is a number but GenHlth is not: the last one does. *)
Lemma get_risk_factors_bad_genhlth (rt : Runtime) (features : dict) :
  numeric_or_absent features "BMI" = true ->
  numeric_or_absent features "GenHlth" = false ->
  get_risk_factors rt features
  = inl (Builtin (TypeError_order (dict_get features "GenHlth" (VInt 3)))).
Proof.
  intros Hbmi Hgen.
  pose proof (dict_get_number features "BMI" (VInt 0) Hbmi eq_refl) as Nb.
  unfold get_risk_factors.
  rewrite (py_ge_int_number _ 30 Nb), (py_ge_int_number _ 25 Nb).
  rewrite (py_ge_int_not_number _ 4 (dict_get_not_number _ _ _ Hgen)).
  destruct (value_ge (dict_get features "BMI" (VInt 0)) 30);
    [|destruct (value_ge (dict_get features "BMI" (VInt 0)) 25)]; reflexivity.
Qed.

(** A returned list is the list of the rules, and tells that BMI and
    GenHlth were numbers. *)
Lemma get_risk_factors_inr (rt : Runtime) (features : dict) (rfs : list RiskFactor) :
  get_risk_factors rt features = inr rfs ->
  numeric_or_absent features "BMI" = true
  /\ numeric_or_absent features "GenHlth" = true
  /\ rfs = rules_in_order rt features.
Proof.
  intros H.
  destruct (numeric_or_absent features "BMI") eqn:Hbmi.
  - destruct (numeric_or_absent features "GenHlth") eqn:Hgen.
    + rewrite (get_risk_factors_rules rt features Hbmi Hgen) in H.
      injection H as <-. auto.
    + rewrite (get_risk_factors_bad_genhlth rt features Hbmi Hgen) in H. discriminate.
  - rewrite (get_risk_factors_bad_bmi rt features Hbmi) in H. discriminate.
Qed.

(** X1. The extractor fails in one way only: a [TypeError] of the ordering
    comparison, on the BMI value when that is not a number, else on the
    GenHlth value when that is not a number; and it returns the list of
    the rules exactly when both are numbers or absent. *)
Theorem extractor_outcomes (rt : Runtime) (features : dict) :
  match get_risk_factors rt features with
  | inr rfs =>
      numeric_or_absent features "BMI" = true
      /\ numeric_or_absent features "GenHlth" = true
      /\ rfs = rules_in_order rt features
  | inl e =>
      (numeric_or_absent features "BMI" = false
       /\ e = Builtin (TypeError_order (dict_get features "BMI" (VInt 0))))
      \/ (numeric_or_absent features "BMI" = true
          /\ numeric_or_absent features "GenHlth" = false
          /\ e = Builtin (TypeError_order (dict_get features "GenHlth" (VInt 3))))
  end.
Proof.
  destruct (get_risk_factors rt features) as [e|rfs] eqn:E.
  - destruct (numeric_or_absent features "BMI") eqn:Hbmi.
    + destruct (numeric_or_absent features "GenHlth") eqn:Hgen.
      * rewrite (get_risk_factors_rules rt features Hbmi Hgen) in E. discriminate.
      * rewrite (get_risk_factors_bad_genhlth rt features Hbmi Hgen) in E.
        injection E as <-. right. auto.
    + rewrite (get_risk_factors_bad_bmi rt features Hbmi) in E.
      injection E as <-. left. auto.
  - apply (get_risk_factors_inr rt features rfs E).
Qed.

(** What the synthesizer does when BMI is not a number. *)
Lemma generate_base_recommendations_bad_bmi (rt : Runtime) (features : dict)
    (prediction : Z) (rfs : list RiskFactor) :
  numeric_or_absent features "BMI" = false ->
  generate_base_recommendations rt features prediction rfs
  = inl (Builtin (TypeError_order (dict_get features "BMI" (VInt 0)))).
Proof.
  intros H. unfold generate_base_recommendations.
  rewrite (py_ge_int_not_number _ 25 (dict_get_not_number _ _ _ H)). reflexivity.
Qed.

(** A returned bundle tells that BMI was a number. *)
Lemma synthesizer_outcomes_aux (rt : Runtime) (features : dict) (prediction : Z)
    (rfs : list RiskFactor) (bundle : RecommendationBundle) :
  generate_base_recommendations rt features prediction rfs = inr bundle ->
  numeric_or_absent features "BMI" = true.
Proof.
  intros H. destruct (numeric_or_absent features "BMI") eqn:Hbmi; [reflexivity|].
  rewrite (generate_base_recommendations_bad_bmi rt features prediction rfs Hbmi) in H.
  discriminate.
Qed.

(** X2. The synthesizer returns a bundle exactly when BMI is a number or
    absent, whatever the label and the factor list; otherwise it raises the
    [TypeError] of [bmi >= 25]. *)
Theorem synthesizer_outcomes (rt : Runtime) (features : dict)
    (prediction : Z) (rfs : list RiskFactor) :
  match generate_base_recommendations rt features prediction rfs with
  | inr bundle =>
      numeric_or_absent features "BMI" = true
      /\ emergency_note bundle = get_emergency_note prediction rfs
  | inl e =>
      numeric_or_absent features "BMI" = false
      /\ e = Builtin (TypeError_order (dict_get features "BMI" (VInt 0)))
  end.
Proof.
  destruct (numeric_or_absent features "BMI") eqn:Hbmi.
  - rewrite (generate_base_recommendations_bundle rt features prediction rfs Hbmi).
    cbv zeta. cbn [emergency_note]. auto.
  - rewrite (generate_base_recommendations_bad_bmi rt features prediction rfs Hbmi). auto.
Qed.

Lemma distinct_NoDup (l : list string) : distinct l = true -> NoDup l.
Proof.
  induction l as [|x l IH]; cbn [distinct]; intros H; [constructor|].
  apply andb_true_iff in H. destruct H as [Hx Hl].
  constructor; [|apply IH; exact Hl].
  intros Hin. apply negb_true_iff in Hx.
  assert (existsb (String.eqb x) l = true) as Hex
    by (apply existsb_exists; exists x; split; [exact Hin | apply String.eqb_refl]).
  congruence.
Qed.

Lemma shape_check (l : list RiskFactor) :
  (List.length l <=? 7)%nat
  && forallb (fun rf => existsb (String.eqb (severity rf)) SEVERITIES) l
  && distinct (map description l) = true ->
  (List.length l <= 7)%nat
  /\ Forall (fun rf => In (severity rf) SEVERITIES) l
  /\ NoDup (map description l).
Proof.
  rewrite !andb_true_iff. intros [[Hlen Hsev] Hdis].
  split; [apply Nat.leb_le; exact Hlen|].
  split; [|apply distinct_NoDup; exact Hdis].
  apply Forall_forall. intros rf Hin.
  rewrite forallb_forall in Hsev. specialize (Hsev rf Hin).
  apply existsb_exists in Hsev. destruct Hsev as [s [Hs Heq]].
  apply String.eqb_eq in Heq. rewrite Heq. exact Hs.
Qed.

(** The shape of the list of the rules. *)
Lemma rules_in_order_shape (rt : Runtime) (features : dict) :
  (List.length (rules_in_order rt features) <= 7)%nat
  /\ Forall (fun rf => In (severity rf) SEVERITIES) (rules_in_order rt features)
  /\ NoDup (map description (rules_in_order rt features)).
Proof.
  apply shape_check.
  unfold rules_in_order, RULE_ORDER. cbn [flat_map].
  change (rule rt "HighBP") with rule_HighBP.
  change (rule rt "HighChol") with rule_HighChol.
  change (rule rt "BMI") with (rule_BMI rt).
  change (rule rt "HeartDiseaseorAttack") with rule_HeartDiseaseorAttack.
  change (rule rt "PhysActivity") with rule_PhysActivity.
  change (rule rt "Smoker") with rule_Smoker.
  change (rule rt "GenHlth") with rule_GenHlth.
  unfold rule_HighBP, rule_HighChol, rule_BMI, rule_HeartDiseaseorAttack,
    rule_PhysActivity, rule_Smoker, rule_GenHlth.
  repeat match goal with
         | |- context [if ?b then _ else _] => destruct b
         end; vm_compute; reflexivity.
Qed.

(** X3. A list the extractor returns has at most 7 factors, every one
    with a severity among moderate, high and critical, and no two with
    the same description (no rule fires twice). *)
Theorem risk_factor_list_shape (rt : Runtime) (features : dict)
    (rfs : list RiskFactor) :
  get_risk_factors rt features = inr rfs ->
  (List.length rfs <= 7)%nat
  /\ Forall (fun rf => In (severity rf) SEVERITIES) rfs
  /\ NoDup (map description rfs).
Proof.
  intros H. destruct (get_risk_factors_inr rt features rfs H) as [_ [_ ->]].
  apply rules_in_order_shape.
Qed.

Lemma risk_factor_list_shape_witness :
  (List.length [HIGH_BP; HIGH_BMI Fixtures.runtime (VInt 32); SMOKING] <= 7)%nat
  /\ NoDup (map description [HIGH_BP; HIGH_BMI Fixtures.runtime (VInt 32); SMOKING]).
Proof.
  destruct (risk_factor_list_shape Fixtures.runtime Fixtures.partial
              [HIGH_BP; HIGH_BMI Fixtures.runtime (VInt 32); SMOKING] eq_refl)
    as [H1 [_ H3]].
  split; [exact H1 | exact H3].
Defined.

(** Membership in the list of the rules, rule by rule. *)
Lemma in_rules_in_order (rt : Runtime) (features : dict) (x : RiskFactor) :
  In x (rules_in_order rt features) <->
  In x (rule_HighBP (dict_get features "HighBP" (VInt 0)))
  \/ In x (rule_HighChol (dict_get features "HighChol" (VInt 0)))
  \/ In x (rule_BMI rt (dict_get features "BMI" (VInt 0)))
  \/ In x (rule_HeartDiseaseorAttack (dict_get features "HeartDiseaseorAttack" (VInt 0)))
  \/ In x (rule_PhysActivity (dict_get features "PhysActivity" (VInt 0)))
  \/ In x (rule_Smoker (dict_get features "Smoker" (VInt 0)))
  \/ In x (rule_GenHlth (dict_get features "GenHlth" (VInt 3))).
Proof.
  unfold rules_in_order, RULE_ORDER. cbn [flat_map].
  rewrite !in_app_iff. cbn [In]. tauto.
Qed.

Lemma in_if_singleton {A : Type} (b : bool) (x y : A) :
  In x (if b then [y] else []) <-> b = true /\ y = x.
Proof. destruct b; cbn [In]; intuition discriminate. Qed.

Lemma in_rule_BMI (rt : Runtime) (v : pyval) (x : RiskFactor) :
  In x (rule_BMI rt v)
  <-> (value_ge v 30 = true /\ HIGH_BMI rt v = x)
      \/ (value_ge v 30 = false /\ value_ge v 25 = true /\ OVERWEIGHT_BMI rt v = x).
Proof.
  unfold rule_BMI. destruct (value_ge v 30), (value_ge v 25); cbn [In];
    intuition discriminate.
Qed.

Ltac rule_cases :=
  unfold rule_HighBP, rule_HighChol, rule_HeartDiseaseorAttack,
    rule_PhysActivity, rule_Smoker, rule_GenHlth;
  rewrite !in_if_singleton, in_rule_BMI;
  intuition (try discriminate; try congruence).

Lemma smoking_in_rules (rt : Runtime) (features : dict) :
  In SMOKING (rules_in_order rt features)
  <-> py_eq_int (dict_get features "Smoker" (VInt 0)) 1 = true.
Proof. rewrite in_rules_in_order. rule_cases. Qed.

Lemma high_bp_in_rules (rt : Runtime) (features : dict) :
  In HIGH_BP (rules_in_order rt features)
  <-> py_eq_int (dict_get features "HighBP" (VInt 0)) 1 = true.
Proof. rewrite in_rules_in_order. rule_cases. Qed.

Lemma high_chol_in_rules (rt : Runtime) (features : dict) :
  In HIGH_CHOL (rules_in_order rt features)
  <-> py_eq_int (dict_get features "HighChol" (VInt 0)) 1 = true.
Proof. rewrite in_rules_in_order. rule_cases. Qed.

Lemma low_activity_in_rules (rt : Runtime) (features : dict) :
  In LOW_ACTIVITY (rules_in_order rt features)
  <-> py_eq_int (dict_get features "PhysActivity" (VInt 0)) 0 = true.
Proof. rewrite in_rules_in_order. rule_cases. Qed.

Lemma bmi_factor_in_rules (rt : Runtime) (features : dict) :
  filter is_bmi_factor (rules_in_order rt features) <> []
  <-> value_ge (dict_get features "BMI" (VInt 0)) 25 = true.
Proof.
  rewrite bmi_factors_of_rules. unfold rule_BMI.
  destruct (value_ge (dict_get features "BMI" (VInt 0)) 30) eqn:H30.
  - apply (value_ge_mono _ 25 30) in H30; [|lia]. rewrite H30.
    split; [reflexivity | discriminate].
  - destruct (value_ge (dict_get features "BMI" (VInt 0)) 25);
      split; try reflexivity; try discriminate; congruence.
Qed.

Lemma heart_disease_in_rules (rt : Runtime) (features : dict) :
  In HEART_DISEASE (rules_in_order rt features)
  <-> py_eq_int (dict_get features "HeartDiseaseorAttack" (VInt 0)) 1 = true.
Proof. rewrite in_rules_in_order. rule_cases. Qed.

Lemma poor_health_in_rules (rt : Runtime) (features : dict) :
  In POOR_HEALTH (rules_in_order rt features)
  <-> value_ge (dict_get features "GenHlth" (VInt 3)) 4 = true.
Proof. rewrite in_rules_in_order. rule_cases. Qed.

(** C8. On a feature mapping with any subset of the keys missing, the
    extractor returns a list (it does not raise), the list of the seven
    rules; a missing key counts as its default, 0 for HighBP, HighChol,
    HeartDiseaseorAttack, Smoker and BMI, 3 for GenHlth: the returned list
    is the one returned with the key bound to that default, and it holds
    no factor of the rule of a missing HighBP, HighChol, BMI,
    HeartDiseaseorAttack, Smoker or GenHlth.  PhysActivity defaults to 0
    as well, so a missing PhysActivity yields the Low Physical Activity
    factor; with all seven keys missing that factor is the whole list. *)
Theorem risk_factors_total_on_partial_data (rt : Runtime) (features : dict) :
  numeric_or_absent features "BMI" = true ->
  numeric_or_absent features "GenHlth" = true ->
  exists rfs,
    get_risk_factors rt features = inr rfs
    /\ rfs = rules_in_order rt features
    /\ (forall key, In key RULE_ORDER -> dict_lookup features key = None ->
          get_risk_factors rt ((key, rule_default key) :: features) = inr rfs)
    /\ map rule_default RULE_ORDER
       = [VInt 0; VInt 0; VInt 0; VInt 0; VInt 0; VInt 0; VInt 3]
    /\ (dict_lookup features "HighBP" = None -> ~ In HIGH_BP rfs)
    /\ (dict_lookup features "HighChol" = None -> ~ In HIGH_CHOL rfs)
    /\ (dict_lookup features "BMI" = None -> filter is_bmi_factor rfs = [])
    /\ (dict_lookup features "HeartDiseaseorAttack" = None -> ~ In HEART_DISEASE rfs)
    /\ (dict_lookup features "Smoker" = None -> ~ In SMOKING rfs)
    /\ (dict_lookup features "GenHlth" = None -> ~ In POOR_HEALTH rfs)
    /\ (dict_lookup features "PhysActivity" = None -> In LOW_ACTIVITY rfs)
    /\ ((forall key, In key RULE_ORDER -> dict_lookup features key = None) ->
        rfs = [LOW_ACTIVITY]).
Proof.
  intros Hbmi Hgen.
  pose proof (get_risk_factors_rules rt features Hbmi Hgen) as Heq.
  exists (rules_in_order rt features).
  split; [exact Heq|]. split; [reflexivity|]. split.
  { intros key Hin Hnone. rewrite <- Heq.
    apply get_risk_factors_ext. intros k _.
    apply dict_get_cons_default. assumption. }
  split; [reflexivity|].
  split.
  { intros Hnone Hin. apply high_bp_in_rules in Hin.
    unfold dict_get in Hin. rewrite Hnone in Hin. discriminate Hin. }
  split.
  { intros Hnone Hin. apply high_chol_in_rules in Hin.
    unfold dict_get in Hin. rewrite Hnone in Hin. discriminate Hin. }
  split.
  { intros Hnone. rewrite bmi_factors_of_rules.
    unfold dict_get. rewrite Hnone. reflexivity. }
  split.
  { intros Hnone Hin. apply heart_disease_in_rules in Hin.
    unfold dict_get in Hin. rewrite Hnone in Hin. discriminate Hin. }
  split.
  { intros Hnone Hin. apply smoking_in_rules in Hin.
    unfold dict_get in Hin. rewrite Hnone in Hin. discriminate Hin. }
  split.
  { intros Hnone Hin. apply poor_health_in_rules in Hin.
    unfold dict_get in Hin. rewrite Hnone in Hin. discriminate Hin. }
  split.
  { intros Hnone. apply low_activity_in_rules.
    unfold dict_get. rewrite Hnone. reflexivity. }
  intros Hall. unfold rules_in_order, RULE_ORDER. cbn [flat_map]. unfold dict_get.
  rewrite (Hall "HighBP"), (Hall "HighChol"), (Hall "BMI"),
    (Hall "HeartDiseaseorAttack"), (Hall "PhysActivity"), (Hall "Smoker"),
    (Hall "GenHlth") by (cbn [RULE_ORDER In]; tauto).
  reflexivity.
Qed.

Lemma risk_factors_total_on_partial_data_witness :
  get_risk_factors Fixtures.runtime [("BMI", VInt 27)]
  = inr [OVERWEIGHT_BMI Fixtures.runtime (VInt 27); LOW_ACTIVITY]
  /\ get_risk_factors Fixtures.runtime [("GenHlth", VInt 3); ("BMI", VInt 27)]
     = inr [OVERWEIGHT_BMI Fixtures.runtime (VInt 27); LOW_ACTIVITY]
  /\ In LOW_ACTIVITY [OVERWEIGHT_BMI Fixtures.runtime (VInt 27); LOW_ACTIVITY]
  /\ ~ In SMOKING [OVERWEIGHT_BMI Fixtures.runtime (VInt 27); LOW_ACTIVITY].
Proof.
  destruct (risk_factors_total_on_partial_data Fixtures.runtime [("BMI", VInt 27)]
              eq_refl eq_refl)
    as [rfs [H1 [Hrules [H2 [_ [_ [_ [_ [_ [Hsmoker [_ [Hphys _]]]]]]]]]]]].
  assert (rfs = [OVERWEIGHT_BMI Fixtures.runtime (VInt 27); LOW_ACTIVITY]) as Hrfs
    by (rewrite Hrules; reflexivity).
  rewrite Hrfs in *.
  split; [exact H1|]. split.
  - apply (H2 "GenHlth"); [cbn [RULE_ORDER In]; tauto | reflexivity].
  - split; [apply Hphys | apply Hsmoker]; reflexivity.
Defined.

(** X4. The two rule tables agree where they overlap: in one request the
    Smoking, High Blood Pressure and High Cholesterol factors are reported
    exactly when the bundle holds the smoking-cessation, blood-pressure
    and cholesterol entries, the Low Physical Activity factor exactly when
    the exercise category is the two start-exercising entries, and a BMI
    factor (of either severity) exactly when the nutrition category holds
    the calorie-deficit entry. *)
Theorem recommendations_match_risk_factors (rt : Runtime) (features : dict)
    (prediction : Z) (rfs : list RiskFactor) (bundle : RecommendationBundle) :
  get_risk_factors rt features = inr rfs ->
  generate_base_recommendations rt features prediction rfs = inr bundle ->
  (In SMOKING rfs <-> In QUIT_SMOKING (lifestyle bundle))
  /\ (In HIGH_BP rfs <-> In MONITOR_BP (medical bundle))
  /\ (In HIGH_CHOL rfs <-> In MONITOR_CHOL (medical bundle))
  /\ (In LOW_ACTIVITY rfs <-> exercise bundle = START_EXERCISE)
  /\ (filter is_bmi_factor rfs <> [] <-> In CALORIE_DEFICIT (nutrition bundle)).
Proof.
  intros Hrf Hgen.
  destruct (get_risk_factors_inr rt features rfs Hrf) as [Hbmi [_ ->]].
  rewrite (generate_base_recommendations_bundle rt features prediction _ Hbmi) in Hgen.
  cbv zeta in Hgen. injection Hgen as <-.
  cbn [lifestyle medical exercise nutrition].
  rewrite smoking_in_rules, high_bp_in_rules, high_chol_in_rules,
    low_activity_in_rules, bmi_factor_in_rules.
  rewrite !in_app_iff, !in_if_singleton.
  unfold GENERIC_MEDICAL, GENERIC_NUTRITION, START_EXERCISE, DEFAULT_EXERCISE.
  cbn [In append].
  destruct (py_eq_int (dict_get features "PhysActivity" (VInt 0)) 0);
    intuition (try discriminate; try congruence).
Qed.

Lemma recommendations_match_risk_factors_witness :
  exists rfs bundle,
    get_risk_factors Fixtures.runtime Fixtures.patient_1 = inr rfs
    /\ generate_base_recommendations Fixtures.runtime Fixtures.patient_1 1 rfs = inr bundle
    /\ In QUIT_SMOKING (lifestyle bundle)
    /\ In CALORIE_DEFICIT (nutrition bundle).
Proof.
  set (rfs := [HIGH_BP; HIGH_BMI Fixtures.runtime (VInt 32); SMOKING]).
  assert (get_risk_factors Fixtures.runtime Fixtures.patient_1 = inr rfs) as Hrf
    by (vm_compute; reflexivity).
  destruct (generate_base_recommendations Fixtures.runtime Fixtures.patient_1 1 rfs)
    as [e|bundle] eqn:Hgen; [vm_compute in Hgen; discriminate|].
  exists rfs, bundle. split; [exact Hrf|]. split; [exact Hgen|].
  destruct (recommendations_match_risk_factors Fixtures.runtime Fixtures.patient_1 1
              rfs bundle Hrf Hgen) as [H1 [_ [_ [_ H5]]]].
  split.
  - apply H1. unfold rfs. cbn [In]. tauto.
  - apply H5. vm_compute. discriminate.
Defined.

(** X5. The size of every category of a bundle is bounded: at most 2
    lifestyle entries, 3 to 5 medical entries, 4 or 5 nutrition entries
    and 2 or 3 exercise entries, so a bundle has 9 to 15 entries. *)
Theorem bundle_sizes (rt : Runtime) (features : dict) (prediction : Z)
    (rfs : list RiskFactor) (bundle : RecommendationBundle) :
  generate_base_recommendations rt features prediction rfs = inr bundle ->
  (List.length (lifestyle bundle) <= 2)%nat
  /\ (3 <= List.length (medical bundle) <= 5)%nat
  /\ (4 <= List.length (nutrition bundle) <= 5)%nat
  /\ (2 <= List.length (exercise bundle) <= 3)%nat
  /\ (9 <= List.length (lifestyle bundle ++ medical bundle ++ nutrition bundle
                          ++ exercise bundle) <= 15)%nat.
Proof.
  intros Hgen.
  pose proof (synthesizer_outcomes_aux rt features prediction rfs bundle Hgen) as Hbmi.
  rewrite (generate_base_recommendations_bundle rt features prediction _ Hbmi) in Hgen.
  cbv zeta in Hgen. injection Hgen as <-.
  cbn [lifestyle medical exercise nutrition].
  rewrite !length_app.
  destruct (py_eq_int (dict_get features "Smoker" (VInt 0)) 1),
    (py_eq_int (dict_get features "PhysActivity" (VInt 0)) 0),
    (value_ge (dict_get features "BMI" (VInt 0)) 25),
    (py_eq_int (dict_get features "HighBP" (VInt 0)) 1),
    (py_eq_int (dict_get features "HighChol" (VInt 0)) 1);
    unfold GENERIC_MEDICAL, GENERIC_NUTRITION, START_EXERCISE, DEFAULT_EXERCISE;
    cbn [List.length]; lia.
Qed.

Lemma bundle_sizes_witness :
  exists bundle,
    generate_base_recommendations Fixtures.runtime Fixtures.patient_1 1 [] = inr bundle
    /\ (3 <= List.length (medical bundle) <= 5)%nat.
Proof.
  destruct (generate_base_recommendations Fixtures.runtime Fixtures.patient_1 1 [])
    as [e|bundle] eqn:Hgen; [vm_compute in Hgen; discriminate|].
  exists bundle. split; [reflexivity|].
  apply (bundle_sizes Fixtures.runtime Fixtures.patient_1 1 [] bundle Hgen).
Defined.

Lemma critical_count_perm (rfs rfs' : list RiskFactor) :
  Permutation rfs rfs' -> critical_count rfs = critical_count rfs'.
Proof.
  induction 1 as [| x l l' _ IH | x y l | l l' l'' _ IH1 _ IH2];
    cbn [critical_count]; lia.
Qed.

Lemma get_emergency_note_count (prediction : Z) (rfs : list RiskFactor) :
  get_emergency_note prediction rfs
  = if (prediction =? 1) && (2 <? critical_count rfs) then HIGH_PRIORITY
    else if prediction =? 1 then ELEVATED_RISK
    else MAINTAIN_HEALTHY_HABITS.
Proof.
  unfold get_emergency_note.
  change (fun rf => (severity rf =? "critical")%string) with is_critical.
  rewrite critical_count_filter. reflexivity.
Qed.

(** X6. The emergency note depends on the factor list through its number
    of critical factors only: it is the same for any reordering of the
    list, it does not change when a factor of another severity is added,
    and for a label other than 1 it does not depend on the list at all. *)
Theorem emergency_note_invariance (prediction : Z) (rfs rfs' : list RiskFactor) :
  (critical_count rfs = critical_count rfs' ->
   get_emergency_note prediction rfs = get_emergency_note prediction rfs')
  /\ (Permutation rfs rfs' ->
      get_emergency_note prediction rfs = get_emergency_note prediction rfs')
  /\ (forall rf, is_critical rf = false ->
        get_emergency_note prediction (rf :: rfs) = get_emergency_note prediction rfs)
  /\ (prediction <> 1 ->
      get_emergency_note prediction rfs = get_emergency_note prediction rfs').
Proof.
  rewrite !get_emergency_note_count. repeat split.
  - intros ->. reflexivity.
  - intros Hp. rewrite (critical_count_perm rfs rfs' Hp). reflexivity.
  - intros rf Hrf. rewrite get_emergency_note_count. cbn [critical_count].
    rewrite Hrf. reflexivity.
  - intros Hp. apply Z.eqb_neq in Hp. rewrite Hp. reflexivity.
Qed.

Lemma emergency_note_invariance_witness :
  get_emergency_note 1 [HIGH_BP; HIGH_BMI Fixtures.runtime (VInt 32)]
  = get_emergency_note 1 [HIGH_BMI Fixtures.runtime (VInt 32); HIGH_BP]
  /\ get_emergency_note 1 [SMOKING; HIGH_BP] = get_emergency_note 1 [HIGH_BP].
Proof.
  split.
  - destruct (emergency_note_invariance 1
                [HIGH_BP; HIGH_BMI Fixtures.runtime (VInt 32)]
                [HIGH_BMI Fixtures.runtime (VInt 32); HIGH_BP]) as [_ [Hperm _]].
    apply Hperm. apply perm_swap.
  - destruct (emergency_note_invariance 1 [HIGH_BP] []) as [_ [_ [Hcons _]]].
    apply Hcons. reflexivity.
Defined.

(* ===================================================================== *)
(** ** Further properties of the prediction handler *)
(* ===================================================================== *)

Ltac bind_step H :=
  match type of H with
  | bind ?c _ = inr _ =>
      let E := fresh "E" in
      destruct c eqn:E; cbn [bind] in H; [discriminate H|]
  end.

Lemma frame_row_complete (rt : Runtime) (features : dict) (columns : list string) :
  missing_features columns features = [] ->
  frame_row rt (VDict features) columns
  = inr (map (fun c => dict_get features c VNone) columns).
Proof.
  intros H. unfold frame_row. fold (missing_features columns features).
  rewrite H. reflexivity.
Qed.

Lemma frame_row_incomplete (rt : Runtime) (features : dict) (columns : list string) :
  missing_features columns features <> [] ->
  frame_row rt (VDict features) columns
  = inl (Builtin (KeyError_columns (missing_features columns features))).
Proof.
  intros H. unfold frame_row. fold (missing_features columns features).
  destruct (missing_features columns features); [contradiction | reflexivity].
Qed.

(** What a 200 answer of the [try] block tells about the steps before
    it. *)
Lemma predict_try_200 (rt : Runtime) (md : ModelData) (data : pyval) (now : string)
    (body : Prediction) :
  predict_try rt md data now = inr (Predict_200 body) ->
  exists features input_scaled prediction_proba,
    py_getitem data "features" = inr (VDict features)
    /\ missing_features (FEATURES md) features = []
    /\ transform (SCALER md) (map (fun c => dict_get features c VNone) (FEATURES md))
       = inr input_scaled
    /\ classify md input_scaled = inr (prediction body, prediction_proba)
    /\ confidence body = confidence_of prediction_proba
    /\ risk_percentage_of prediction_proba = inr (risk_percentage body)
    /\ probability_of prediction_proba 0 = inr (fst (probabilities body))
    /\ probability_of prediction_proba 1 = inr (snd (probabilities body))
    /\ get_risk_factors rt features = inr (risk_factors body)
    /\ generate_base_recommendations rt features (prediction body) (risk_factors body)
       = inr (recommendations body)
    /\ prediction_label body = risk_label (prediction body)
    /\ model_name body = MODEL_NAME md
    /\ timestamp body = now.
Proof.
  unfold predict_try. intros H.
  bind_step H.
  destruct b; [discriminate H|].
  bind_step H. rename p into input_features.
  bind_step H. rename l into missing.
  destruct missing as [|m missing]; [|discriminate H].
  bind_step H. bind_step H. bind_step H.
  destruct p as [prediction0 prediction_proba].
  bind_step H. bind_step H. rename d into features.
  bind_step H. bind_step H. bind_step H. bind_step H.
  cbn [ret] in H. injection H as <-.
  cbn [prediction prediction_label risk_percentage confidence probabilities
       risk_factors recommendations model_name timestamp fst snd].
  destruct input_features as [| | | | | |d]; try discriminate E6.
  cbn [as_mapping ret] in E6. injection E6 as <-.
  rewrite not_in_value_dict in E1. injection E1 as E1.
  rewrite (frame_row_complete rt d _ E1) in E2. injection E2 as <-.
  exists d, m, prediction_proba.
  repeat split; try assumption; reflexivity.
Qed.

(** The [try] block on a request whose body is an object with a mapping
    under 'features'. *)
Lemma predict_try_dict (rt : Runtime) (md : ModelData) (body features : dict)
    (now : string) :
  dict_lookup body "features" = Some (VDict features) ->
  predict_try rt md (VDict body) now
  = match missing_features (FEATURES md) features with
    | _ :: _ =>
        inr (Predict_400_missing (missing_features (FEATURES md) features) (FEATURES md))
    | [] =>
        input_scaled <- transform (SCALER md)
                          (map (fun c => dict_get features c VNone) (FEATURES md)) ;;
        ' (prediction, prediction_proba) <- classify md input_scaled ;;
        risk_percentage <- risk_percentage_of prediction_proba ;;
        risk_factors <- get_risk_factors rt features ;;
        recommendations <-
          generate_base_recommendations rt features prediction risk_factors ;;
        no_diabetes <- probability_of prediction_proba 0 ;;
        diabetes <- probability_of prediction_proba 1 ;;
        ret (Predict_200
               {| prediction := prediction;
                  prediction_label := risk_label prediction;
                  risk_percentage := risk_percentage;
                  confidence := confidence_of prediction_proba;
                  probabilities := (no_diabetes, diabetes);
                  risk_factors := risk_factors;
                  recommendations := recommendations;
                  model_name := MODEL_NAME md;
                  timestamp := now |})
    end.
Proof.
  intros Hbody. unfold predict_try.
  rewrite (lookup_some_truthy body _ _ Hbody).
  cbn [negb py_in py_getitem]. unfold dict_mem. rewrite Hbody.
  cbn [bind ret negb]. rewrite not_in_value_dict. cbn [bind ret].
  destruct (missing_features (FEATURES md) features) eqn:Hm; [|reflexivity].
  rewrite (frame_row_complete rt features _ Hm). reflexivity.
Qed.

Lemma missing_features_nil (fs : list string) (d : dict) :
  missing_features fs d = [] <-> (forall f, In f fs -> dict_mem d f = true).
Proof.
  split.
  - intros H f Hin. unfold dict_mem.
    destruct (dict_lookup d f) eqn:E; [reflexivity|].
    assert (In f (missing_features fs d)) as Hf by (apply missing_features_spec; auto).
    rewrite H in Hf. contradiction.
  - intros H. destruct (missing_features fs d) as [|f l] eqn:E; [reflexivity|].
    assert (In f (missing_features fs d)) as Hf by (rewrite E; left; reflexivity).
    apply missing_features_spec in Hf. destruct Hf as [Hin Hnone].
    specialize (H f Hin). unfold dict_mem in H. rewrite Hnone in H. discriminate.
Qed.

(** On the list of the rules the note is never the HIGH PRIORITY one. *)
Lemma note_on_rules (rt : Runtime) (features : dict) (prediction : Z) :
  get_emergency_note prediction (rules_in_order rt features) <> HIGH_PRIORITY.
Proof.
  rewrite get_emergency_note_count, <- critical_count_filter.
  pose proof (critical_of_rules rt features) as Hc. cbv zeta in Hc. rewrite Hc.
  destruct messages_distinct as [D1 [D2 D3]].
  assert ((2 <? Z.of_nat (List.length
                            (if value_ge (dict_get features "BMI" (VInt 0)) 30
                             then [HIGH_BMI rt (dict_get features "BMI" (VInt 0))]
                             else []))) = false) as Hlt.
  { apply Z.ltb_ge. destruct (value_ge _ 30); cbn [List.length]; lia. }
  rewrite Hlt, andb_false_r.
  destruct (prediction =? 1); intros Heq; [apply D1 | apply D2]; symmetry; exact Heq.
Qed.

(** X7. A 200 answer of [predict] is only given when the model is loaded
    and the request holds a mapping under 'features' with every required
    feature and with numbers for BMI and GenHlth; its label text agrees
    with its label, its risk factors are those of the rules in order, its
    emergency note is the one for its label and factors and never the
    HIGH PRIORITY one, and its exercise advice is not empty. *)
Theorem predict_200_guarantees (rt : Runtime) (app : option ModelData) (data : pyval)
    (now : string) (body : Prediction) :
  predict rt app data now = Predict_200 body ->
  exists md features,
    app = Some md
    /\ py_getitem data "features" = inr (VDict features)
    /\ (forall f, In f (FEATURES md) -> dict_mem features f = true)
    /\ numeric_or_absent features "BMI" = true
    /\ numeric_or_absent features "GenHlth" = true
    /\ prediction_label body
       = (if prediction body =? 1 then "High Risk" else "Low Risk")
    /\ risk_factors body = rules_in_order rt features
    /\ emergency_note (recommendations body)
       = get_emergency_note (prediction body) (risk_factors body)
    /\ emergency_note (recommendations body) <> HIGH_PRIORITY
    /\ exercise (recommendations body) <> []
    /\ model_name body = MODEL_NAME md
    /\ timestamp body = now.
Proof.
  unfold predict. intros H.
  destruct app as [md|]; [|discriminate H].
  destruct (predict_try rt md data now) as [e|response] eqn:Htry; [discriminate H|].
  subst response.
  destruct (predict_try_200 rt md data now body Htry)
    as [features [input_scaled [proba [Hget [Hmiss [_ [_ [_ [_ [_ [_
         [Hrf [Hrec [Hlabel [Hname Htime]]]]]]]]]]]]]]].
  destruct (get_risk_factors_inr rt features _ Hrf) as [Hbmi [Hgen Hrules]].
  exists md, features.
  split; [reflexivity|]. split; [exact Hget|].
  split; [apply missing_features_nil; exact Hmiss|].
  split; [exact Hbmi|]. split; [exact Hgen|].
  split; [exact Hlabel|]. split; [exact Hrules|].
  rewrite (generate_base_recommendations_bundle rt features _ _ Hbmi) in Hrec.
  cbv zeta in Hrec. injection Hrec as Hrec. rewrite <- Hrec.
  cbn [emergency_note exercise].
  split; [reflexivity|]. split; [rewrite Hrules; apply note_on_rules|].
  split; [|split; assumption].
  destruct (py_eq_int (dict_get features "PhysActivity" (VInt 0)) 0); discriminate.
Qed.

Lemma predict_200_guarantees_witness :
  exists body,
    predict Fixtures.runtime (Some Fixtures.model_data)
      (Fixtures.request "features" (VDict Fixtures.patient_1)) "t" = Predict_200 body
    /\ risk_factors body = [HIGH_BP; HIGH_BMI Fixtures.runtime (VInt 32); SMOKING]
    /\ emergency_note (recommendations body) <> HIGH_PRIORITY.
Proof.
  destruct (predict Fixtures.runtime (Some Fixtures.model_data)
              (Fixtures.request "features" (VDict Fixtures.patient_1)) "t")
    as [body| | | |] eqn:H; try (vm_compute in H; discriminate).
  exists body. split; [reflexivity|].
  destruct (predict_200_guarantees _ _ _ _ _ H)
    as [md [features [_ [Hget [_ [_ [_ [_ [Hrules [_ [Hnote _]]]]]]]]]]].
  split; [|exact Hnote].
  cbn in Hget. injection Hget as <-. rewrite Hrules. vm_compute. reflexivity.
Defined.

(** X8. Keys outside FEATURES change nothing in the whole answer of
    [predict], also when it is a 200: when every key the rules read is a
    required feature, two requests whose feature mappings agree on the
    required features get the same response. *)
Theorem predict_ignores_other_keys (rt : Runtime) (md : ModelData)
    (body body' features features' : dict) (now : string) :
  incl RULE_ORDER (FEATURES md) ->
  dict_lookup body "features" = Some (VDict features) ->
  dict_lookup body' "features" = Some (VDict features') ->
  (forall f, In f (FEATURES md) -> dict_lookup features' f = dict_lookup features f) ->
  predict rt (Some md) (VDict body') now = predict rt (Some md) (VDict body) now.
Proof.
  intros Hincl Hbody Hbody' Hagree. unfold predict.
  rewrite (predict_try_dict rt md body features now Hbody).
  rewrite (predict_try_dict rt md body' features' now Hbody').
  rewrite (missing_features_agree (FEATURES md) features features' Hagree).
  assert (map (fun c => dict_get features' c VNone) (FEATURES md)
          = map (fun c => dict_get features c VNone) (FEATURES md)) as Hrow.
  { apply map_ext_in. intros c Hc. unfold dict_get. rewrite (Hagree c Hc). reflexivity. }
  rewrite Hrow.
  assert (forall key, In key RULE_ORDER ->
            dict_get features' key (rule_default key)
            = dict_get features key (rule_default key)) as Hget.
  { intros key Hin. apply lookup_agree_get_agree, Hagree, Hincl, Hin. }
  destruct (missing_features (FEATURES md) features); [|reflexivity].
  destruct (transform (SCALER md) _) as [e|input_scaled]; [reflexivity|]. cbn [bind].
  destruct (classify md input_scaled) as [e|[prediction0 proba]]; [reflexivity|].
  cbn [bind].
  destruct (risk_percentage_of proba) as [e|rp]; [reflexivity|]. cbn [bind].
  rewrite (get_risk_factors_ext rt features' features Hget).
  destruct (get_risk_factors rt features) as [e|rfs]; [reflexivity|]. cbn [bind].
  rewrite (generate_base_recommendations_ext rt features' features prediction0 rfs Hget).
  reflexivity.
Qed.

Lemma predict_ignores_other_keys_witness :
  predict Fixtures.runtime (Some Fixtures.model_data)
    (Fixtures.request "features" (VDict Fixtures.patient_3)) "t"
  = predict Fixtures.runtime (Some Fixtures.model_data)
      (Fixtures.request "features" (VDict Fixtures.patient_1)) "t".
Proof.
  apply (predict_ignores_other_keys Fixtures.runtime Fixtures.model_data
           [("features", VDict Fixtures.patient_1)]
           [("features", VDict Fixtures.patient_3)]
           Fixtures.patient_1 Fixtures.patient_3 "t").
  - intros key Hin. cbv in Hin.
    repeat (destruct Hin as [<- | Hin]; [vm_compute; tauto|]). contradiction.
  - reflexivity.
  - reflexivity.
  - intros f Hf. change (FEATURES Fixtures.model_data) with REQUIRED_FEATURES in Hf.
    unfold REQUIRED_FEATURES in Hf. cbn [In] in Hf.
    repeat (destruct Hf as [<- | Hf]; [vm_compute; reflexivity|]). contradiction.
Defined.

(** With every required feature present the answer is a 200 or the 500 of
    an exception. *)
Lemma predict_complete_response (rt : Runtime) (md : ModelData)
    (body features : dict) (now : string) :
  dict_lookup body "features" = Some (VDict features) ->
  missing_features (FEATURES md) features = [] ->
  (exists b, predict rt (Some md) (VDict body) now = Predict_200 b)
  \/ (exists e, predict rt (Some md) (VDict body) now = Predict_500_failed (exn_str rt e)).
Proof.
  intros Hbody Hmiss. unfold predict.
  rewrite (predict_try_dict rt md body features now Hbody), Hmiss.
  destruct (transform (SCALER md) _) as [e|input_scaled]; [right; eexists; reflexivity|].
  cbn [bind].
  destruct (classify md input_scaled) as [e|[prediction0 proba]];
    [right; eexists; reflexivity|].
  cbn [bind].
  destruct (risk_percentage_of proba) as [e|rp]; [right; eexists; reflexivity|].
  cbn [bind].
  destruct (get_risk_factors rt features) as [e|rfs]; [right; eexists; reflexivity|].
  cbn [bind].
  destruct (generate_base_recommendations rt features prediction0 rfs) as [e|rec];
    [right; eexists; reflexivity|].
  cbn [bind].
  destruct (probability_of proba 0) as [e|p0]; [right; eexists; reflexivity|].
  cbn [bind].
  destruct (probability_of proba 1) as [e|p1]; [right; eexists; reflexivity|].
  left. eexists. reflexivity.
Qed.

(** X9. With every required feature present, an exception of the scaler
    or of the model is not lost and not retried: [predict] answers 500
    with exactly the message of that exception, and never a 400. *)
Theorem predict_surfaces_inference_errors (rt : Runtime) (md : ModelData)
    (body features : dict) (now : string) :
  dict_lookup body "features" = Some (VDict features) ->
  missing_features (FEATURES md) features = [] ->
  let row := map (fun c => dict_get features c VNone) (FEATURES md) in
  (forall e, transform (SCALER md) row = inl e ->
     predict rt (Some md) (VDict body) now = Predict_500_failed (exn_str rt e))
  /\ (forall input_scaled e,
        transform (SCALER md) row = inr input_scaled ->
        classify md input_scaled = inl e ->
        predict rt (Some md) (VDict body) now = Predict_500_failed (exn_str rt e))
  /\ (forall missing required,
        predict rt (Some md) (VDict body) now <> Predict_400_missing missing required)
  /\ (forall expected,
        predict rt (Some md) (VDict body) now <> Predict_400_no_features expected).
Proof.
  intros Hbody Hmiss row.
  pose proof (predict_complete_response rt md body features now Hbody Hmiss) as Hcases.
  split; [|split; [|split]].
  - intros e He. unfold predict.
    rewrite (predict_try_dict rt md body features now Hbody), Hmiss. fold row.
    rewrite He. reflexivity.
  - intros input_scaled e Ht Hc. unfold predict.
    rewrite (predict_try_dict rt md body features now Hbody), Hmiss. fold row.
    rewrite Ht. cbn [bind]. rewrite Hc. reflexivity.
  - intros missing required. destruct Hcases as [[b ->] | [e ->]]; discriminate.
  - intros expected. destruct Hcases as [[b ->] | [e ->]]; discriminate.
Qed.

Lemma predict_surfaces_inference_errors_witness :
  predict Fixtures.runtime (Some Fixtures.model_data)
    (Fixtures.request "features"
       (VDict (("GenHlth", VStr "poor") :: Fixtures.without "GenHlth" Fixtures.patient_1)))
    "t"
  = Predict_500_failed "could not convert value to float".
Proof.
  destruct (predict_surfaces_inference_errors Fixtures.runtime Fixtures.model_data
              [("features",
                VDict (("GenHlth", VStr "poor")
                       :: Fixtures.without "GenHlth" Fixtures.patient_1))]
              (("GenHlth", VStr "poor") :: Fixtures.without "GenHlth" Fixtures.patient_1)
              "t" eq_refl ltac:(vm_compute; reflexivity)) as [H _].
  apply (H (Raised "could not convert value to float")).
  vm_compute. reflexivity.
Defined.

(** What a result of [classify] tells about the model's probability
    rows. *)
Lemma classify_row (md : ModelData) (input_scaled : matrix) (prediction0 : Z)
    (prediction_proba : option (list spec_float)) :
  classify md input_scaled = inr (prediction0, prediction_proba) ->
  match clf_predict_proba (MODEL md) with
  | None => prediction_proba = None
  | Some predict_proba =>
      exists rows row,
        predict_proba input_scaled = inr rows
        /\ nth_error rows 0 = Some row
        /\ prediction_proba = Some (tolist row)
  end.
Proof.
  unfold classify. intros H.
  destruct (clf_predict (MODEL md) input_scaled) as [e|labels]; [discriminate H|].
  cbn [bind] in H.
  destruct (py_index labels 0) as [e|label]; [discriminate H|]. cbn [bind] in H.
  destruct (clf_predict_proba (MODEL md)) as [predict_proba|].
  - destruct (predict_proba input_scaled) as [e|rows]; [discriminate H|].
    cbn [bind] in H. unfold py_index in H.
    destruct (nth_error rows 0) as [row|] eqn:Hrow; [|discriminate H].
    cbn [bind ret] in H. injection H as _ <-.
    exists rows, row. auto.
  - cbn [bind ret] in H. injection H as _ <-. reflexivity.
Qed.

(** X10. The probability fields of a 200 answer come from the first
    probability row of the model, and go together.  The row the fields
    are computed from is that first row (as a list of floats), or nothing
    when the model has no [predict_proba]; a first row of a single entry
    never yields a 200.  Without a row, or with an empty one, confidence,
    risk percentage and both probabilities are all null; otherwise the
    row has at least two entries, the probabilities are its first two,
    the risk percentage is the second times 100 and the confidence is the
    maximum of the row. *)
Theorem predict_probability_fields (rt : Runtime) (md : ModelData) (data : pyval)
    (now : string) (body : Prediction) :
  predict rt (Some md) data now = Predict_200 body ->
  exists features input_scaled prediction_proba,
    py_getitem data "features" = inr (VDict features)
    /\ transform (SCALER md) (map (fun c => dict_get features c VNone) (FEATURES md))
       = inr input_scaled
    /\ classify md input_scaled = inr (prediction body, prediction_proba)
    /\ match clf_predict_proba (MODEL md) with
       | None => prediction_proba = None
       | Some predict_proba =>
           exists rows row,
             predict_proba input_scaled = inr rows
             /\ nth_error rows 0 = Some row
             /\ prediction_proba = Some (tolist row)
             /\ List.length row <> 1%nat
       end
    /\ (forall x, prediction_proba <> Some [x])
    /\ (((prediction_proba = None \/ prediction_proba = Some [])
         /\ confidence body = None /\ risk_percentage body = None
         /\ probabilities body = (None, None))
        \/ (exists p0 p1 rest,
              prediction_proba = Some (p0 :: p1 :: rest)
              /\ probabilities body = (Some p0, Some p1)
              /\ risk_percentage body = Some (f64_mul p1 (f64_of_Z 100))
              /\ confidence body = Some (py_max p0 (p1 :: rest)))).
Proof.
  unfold predict. intros H.
  destruct (predict_try rt md data now) as [e|response] eqn:Htry; [discriminate H|].
  subst response.
  destruct (predict_try_200 rt md data now body Htry)
    as [features [input_scaled [proba [Hget [_ [Ht [Hc [Hconf [Hrp [Hp0 [Hp1 _]]]]]]]]]]].
  exists features, input_scaled, proba.
  split; [exact Hget|]. split; [exact Ht|]. split; [exact Hc|].
  assert (forall x, proba <> Some [x]) as Hone.
  { intros x ->. discriminate Hrp. }
  split.
  { pose proof (classify_row md input_scaled _ _ Hc) as Hrow.
    destruct (clf_predict_proba (MODEL md)) as [predict_proba|]; [|exact Hrow].
    destruct Hrow as [rows [row [Hrows [Hnth Hproba]]]].
    exists rows, row. repeat split; try assumption.
    intros Hlen. destruct row as [|x [|y row]]; try discriminate Hlen.
    apply (Hone (to_float x)). exact Hproba. }
  split; [exact Hone|].
  destruct (probabilities body) as [q0 q1]. cbn [fst snd] in Hp0, Hp1.
  unfold risk_percentage_of, probability_of, py_index, ret, raise in Hrp, Hp0, Hp1.
  destruct proba as [[|p0 [|p1 rest]]|]; cbn [confidence_of nth_error bind] in *.
  - left. injection Hrp as <-. injection Hp0 as <-. injection Hp1 as <-. auto.
  - discriminate Hrp.
  - right. exists p0, p1, rest.
    injection Hrp as <-. injection Hp0 as <-. injection Hp1 as <-. auto.
  - left. injection Hrp as <-. injection Hp0 as <-. injection Hp1 as <-. auto.
Qed.

Lemma predict_probability_fields_witness :
  exists body,
    predict Fixtures.runtime (Some Fixtures.model_data)
      (Fixtures.request "features" (VDict Fixtures.patient_1)) "t" = Predict_200 body
    /\ confidence body <> None
    /\ exists p0 p1, probabilities body = (Some p0, Some p1).
Proof.
  destruct (predict Fixtures.runtime (Some Fixtures.model_data)
              (Fixtures.request "features" (VDict Fixtures.patient_1)) "t")
    as [body| | | |] eqn:H; try (vm_compute in H; discriminate).
  exists body. split; [reflexivity|].
  destruct (predict_probability_fields _ _ _ _ _ H)
    as [features [input_scaled [proba [_ [_ [_ [_ [_ Hcases]]]]]]]].
  destruct Hcases as [[_ [Hc _]] | [p0 [p1 [rest [_ [Hp [_ Hc]]]]]]].
  - vm_compute in H. injection H as <-. discriminate Hc.
  - split; [rewrite Hc; discriminate | exists p0, p1; exact Hp].
Defined.

(** X11. The shapes of request body that never reach validation.  A
    falsy body (null, an empty object or list, 0, an empty string) and an
    object without the key 'features' get the 400 that shows the expected
    format, with every required feature at 0; a body that is a non-zero
    number or [true] gets a 500 (the membership test raises); and without
    a loaded model every body gets the "not loaded" 500. *)
Theorem predict_without_features (rt : Runtime) (md : ModelData) (data : pyval)
    (now : string) :
  (truthy data = false
   \/ (exists body, data = VDict body /\ dict_lookup body "features" = None) ->
   predict rt (Some md) data now
   = Predict_400_no_features (map (fun f => (f, 0)) (FEATURES md)))
  /\ (truthy data = true -> is_number data = true ->
      predict rt (Some md) data now
      = Predict_500_failed (builtin_msg rt (TypeError_not_iterable data)))
  /\ predict rt None data now = Predict_500_not_loaded.
Proof.
  split; [|split].
  - intros [Hfalsy | [body [-> Hnone]]]; unfold predict, predict_try.
    + rewrite Hfalsy. reflexivity.
    + destruct (truthy (VDict body)); [|reflexivity].
      cbn [negb py_in]. unfold dict_mem. rewrite Hnone. reflexivity.
  - intros Ht Hn. unfold predict, predict_try. rewrite Ht.
    destruct data; try discriminate Hn; reflexivity.
  - reflexivity.
Qed.

Lemma predict_without_features_witness :
  predict Fixtures.runtime (Some Fixtures.model_data) (VDict []) "t"
  = Predict_400_no_features (map (fun f => (f, 0)) REQUIRED_FEATURES)
  /\ predict Fixtures.runtime (Some Fixtures.model_data) (VInt 7) "t"
     = Predict_500_failed "TypeError".
Proof.
  destruct (predict_without_features Fixtures.runtime Fixtures.model_data (VDict []) "t")
    as [H1 _].
  destruct (predict_without_features Fixtures.runtime Fixtures.model_data (VInt 7) "t")
    as [_ [H2 _]].
  split.
  - apply H1. left. reflexivity.
  - apply H2; reflexivity.
Defined.

(* ===================================================================== *)
(** ** Further properties of batch prediction *)
(* ===================================================================== *)

(** X12. The loop can be cut anywhere: running it over [l1 ++ l2] is
    running it over [l1] and then, from the index and with the results
    reached, over [l2].  So the items of the first patients are the same
    whatever follows them, and the results of a batch are those of its
    two halves, the second half numbered from where the first ends. *)
Theorem batch_loop_split (rt : Runtime) (md : ModelData) (l1 l2 : list pyval)
    (results : list BatchItem) (i : Z) :
  batch_loop rt md results i (l1 ++ l2)
  = batch_loop rt md (batch_loop rt md results i l1) (i + Z.of_nat (List.length l1)) l2
  /\ batch_loop rt md [] 0 (l1 ++ l2)
     = batch_loop rt md [] 0 l1 ++ batch_loop rt md [] (Z.of_nat (List.length l1)) l2
  /\ firstn (List.length l1) (batch_loop rt md [] 0 (l1 ++ l2)) = batch_loop rt md [] 0 l1.
Proof.
  assert (forall l results i,
            batch_loop rt md results i (l ++ l2)
            = batch_loop rt md (batch_loop rt md results i l)
                (i + Z.of_nat (List.length l)) l2) as Hsplit.
  { induction l as [|patient rest IH]; intros res j.
    - cbn [app batch_loop List.length]. rewrite Z.add_0_r. reflexivity.
    - cbn [app batch_loop]. rewrite IH. f_equal.
      cbn [List.length]. lia. }
  split; [apply Hsplit|].
  assert (batch_loop rt md [] 0 (l1 ++ l2)
          = batch_loop rt md [] 0 l1
            ++ batch_loop rt md [] (Z.of_nat (List.length l1)) l2) as Happ.
  { rewrite Hsplit, batch_loop_app. reflexivity. }
  split; [exact Happ|].
  rewrite Happ, <- (batch_loop_length rt md l1 0), firstn_app, Nat.sub_diag, firstn_all.
  cbn [firstn]. apply app_nil_r.
Qed.

(** X13. The two endpoints agree on a patient that [predict] accepts: if
    [predict] answers 200 for a feature mapping, the batch loop yields for
    that mapping, at any position, a prediction item with the same label,
    risk level, confidence and risk percentage. *)
Theorem batch_agrees_with_predict (rt : Runtime) (md : ModelData) (data : pyval)
    (now : string) (body : Prediction) :
  predict rt (Some md) data now = Predict_200 body ->
  exists features,
    py_getitem data "features" = inr (VDict features)
    /\ forall i,
         batch_result rt md i (VDict features)
         = Item_prediction (i + 1) (prediction body) (prediction_label body)
             (confidence body) (risk_percentage body).
Proof.
  unfold predict. intros H.
  destruct (predict_try rt md data now) as [e|response] eqn:Htry; [discriminate H|].
  subst response.
  destruct (predict_try_200 rt md data now body Htry)
    as [features [input_scaled [proba [Hget [Hmiss [Ht [Hc [Hconf [Hrp [_ [_ [_ [_
         [Hlabel _]]]]]]]]]]]]]].
  exists features. split; [exact Hget|].
  intros i. unfold batch_result, batch_item_try.
  rewrite (frame_row_complete rt features _ Hmiss). cbn [bind].
  rewrite Ht. cbn [bind]. rewrite Hc. cbn [bind]. rewrite Hrp. cbn [bind ret].
  rewrite Hlabel, Hconf. reflexivity.
Qed.

Lemma batch_agrees_with_predict_witness :
  exists body,
    predict Fixtures.runtime (Some Fixtures.model_data)
      (Fixtures.request "features" (VDict Fixtures.patient_1)) "t" = Predict_200 body
    /\ batch_result Fixtures.runtime Fixtures.model_data 4 (VDict Fixtures.patient_1)
       = Item_prediction 5 (prediction body) (prediction_label body)
           (confidence body) (risk_percentage body).
Proof.
  destruct (predict Fixtures.runtime (Some Fixtures.model_data)
              (Fixtures.request "features" (VDict Fixtures.patient_1)) "t")
    as [body| | | |] eqn:H; try (vm_compute in H; discriminate).
  exists body. split; [reflexivity|].
  destruct (batch_agrees_with_predict _ _ _ _ _ H) as [features [Hget Hitem]].
  cbn in Hget. injection Hget as <-. apply (Hitem 4).
Defined.

(** X14. ... and on a patient that [predict] rejects for missing
    features: the batch loop yields, at any position, an error item, whose
    error is the [KeyError] of the column selection on the same missing
    features that the 400 of [predict] lists. *)
Theorem batch_rejects_missing_features (rt : Runtime) (md : ModelData)
    (body features : dict) (now : string) (missing required : list string) :
  dict_lookup body "features" = Some (VDict features) ->
  predict rt (Some md) (VDict body) now = Predict_400_missing missing required ->
  missing <> []
  /\ forall i,
       batch_result rt md i (VDict features)
       = Item_error (i + 1) (exn_str rt (Builtin (KeyError_columns missing))).
Proof.
  intros Hbody H.
  destruct (missing_features (FEATURES md) features) as [|f rest] eqn:Hm.
  - destruct (predict_complete_response rt md body features now Hbody Hm)
      as [[b Hb] | [e He]]; congruence.
  - assert (missing_features (FEATURES md) features <> []) as Hne by (rewrite Hm; discriminate).
    rewrite (predict_missing rt md body features now Hbody Hne) in H.
    injection H as <- _.
    split; [exact Hne|].
    intros i. unfold batch_result, batch_item_try.
    rewrite (frame_row_incomplete rt features _ Hne). reflexivity.
Qed.

Lemma batch_rejects_missing_features_witness :
  batch_result Fixtures.runtime Fixtures.model_data 1 (VDict Fixtures.patient_2)
  = Item_error 2 "KeyError".
Proof.
  destruct (batch_rejects_missing_features Fixtures.runtime Fixtures.model_data
              [("features", VDict Fixtures.patient_2)] Fixtures.patient_2 "t"
              ["BMI"; "Smoker"] REQUIRED_FEATURES eq_refl
              ltac:(vm_compute; reflexivity)) as [_ H].
  rewrite (H 1). reflexivity.
Defined.

(** X15. The shapes of request body that never reach the loop, and the
    empty batch.  A falsy body and an object without 'patients' get the
    400; a 'patients' value that cannot be iterated (null, a boolean, a
    number) gets the 500 of the outer handler; an empty list gets a 200
    with [total_patients] 0 and no item; and without a loaded model every
    body gets the "not loaded" 500. *)
Theorem batch_request_shapes (rt : Runtime) (md : ModelData) (data : pyval)
    (now : string) :
  (truthy data = false
   \/ (exists body, data = VDict body /\ dict_lookup body "patients" = None) ->
   batch_predict rt (Some md) data now = Batch_400_no_patients)
  /\ (forall body v,
        data = VDict body -> dict_lookup body "patients" = Some v ->
        (v = VNone \/ is_number v = true) ->
        batch_predict rt (Some md) data now
        = Batch_500_failed (builtin_msg rt (TypeError_not_iterable v)))
  /\ (forall body,
        data = VDict body -> dict_lookup body "patients" = Some (VList []) ->
        batch_predict rt (Some md) data now = Batch_200 0 [] now)
  /\ batch_predict rt None data now = Batch_500_not_loaded.
Proof.
  split; [|split; [|split]].
  - intros [Hfalsy | [body [-> Hnone]]]; unfold batch_predict, batch_predict_try.
    + rewrite Hfalsy. reflexivity.
    + destruct (truthy (VDict body)); [|reflexivity].
      cbn [negb py_in]. unfold dict_mem. rewrite Hnone. reflexivity.
  - intros body v -> Hbody Hv. unfold batch_predict, batch_predict_try.
    rewrite (lookup_some_truthy body _ _ Hbody).
    cbn [negb py_in py_getitem]. unfold dict_mem. rewrite Hbody. cbn [bind ret negb].
    destruct Hv as [-> | Hv]; [reflexivity|].
    destruct v; try discriminate Hv; reflexivity.
  - intros body -> Hbody. unfold batch_predict, batch_predict_try.
    rewrite (lookup_some_truthy body _ _ Hbody).
    cbn [negb py_in py_getitem]. unfold dict_mem. rewrite Hbody. reflexivity.
  - reflexivity.
Qed.

Lemma batch_request_shapes_witness :
  batch_predict Fixtures.runtime (Some Fixtures.model_data) (VList []) "t"
  = Batch_400_no_patients
  /\ batch_predict Fixtures.runtime (Some Fixtures.model_data)
       (Fixtures.request "patients" (VInt 3)) "t"
     = Batch_500_failed "TypeError".
Proof.
  split.
  - destruct (batch_request_shapes Fixtures.runtime Fixtures.model_data (VList []) "t")
      as [H _].
    apply H. left. reflexivity.
  - destruct (batch_request_shapes Fixtures.runtime Fixtures.model_data
                (Fixtures.request "patients" (VInt 3)) "t") as [_ [H _]].
    apply (H [("patients", VInt 3)] (VInt 3)); auto.
Defined.

(* ===================================================================== *)
(** ** Model loading and the feature-importance endpoint *)
(* ===================================================================== *)

(** X16. Loading is all or nothing.  Whatever the names held before, and
    wherever the [try] block stopped, the globals end either all reset
    ([MODEL], [SCALER] and [FEATURES] None, no importances, no metrics,
    name "Not loaded") or all set from the file; a file that lacks any of
    'model', 'scaler', 'features', 'metrics' or 'model_name' leaves them
    reset, although the names before the missing key had been assigned;
    and [MODEL] is None exactly when the handlers have no model data. *)
Theorem load_is_all_or_nothing (joblib_load : exc ModelFile)
    (format_4f : pyval -> exc string) (g0 : Globals) :
  let g := load_model joblib_load format_4f g0 in
  (g = NOT_LOADED
   \/ exists file model scaler features metrics name,
        joblib_load = inr file
        /\ file_model file = Some model /\ file_scaler file = Some scaler
        /\ file_features file = Some features /\ file_metrics file = Some metrics
        /\ file_model_name file = Some name
        /\ g = {| G_MODEL := Some model; G_SCALER := Some scaler;
                  G_FEATURES := Some features;
                  G_FEATURE_IMPORTANCE :=
                    match file_feature_importance file with
                    | Some d => d
                    | None => []
                    end;
                  G_METRICS := metrics; G_MODEL_NAME := name |})
  /\ (forall g0', load_model joblib_load format_4f g0' = g)
  /\ (forall file,
        joblib_load = inr file ->
        file_model file = None \/ file_scaler file = None \/ file_features file = None
        \/ file_metrics file = None \/ file_model_name file = None ->
        g = NOT_LOADED)
  /\ (G_MODEL g = None <-> app_of_globals g = None).
Proof.
  cbv zeta. unfold load_model, load_try.
  destruct joblib_load as [e|[[model|] [scaler|] [features|] importance [metrics|] [name|]]];
    cbn [run assign_key file_model file_scaler file_features file_feature_importance
         file_metrics file_model_name ret raise];
    try (split; [left; reflexivity|];
         split; [reflexivity|];
         split; [reflexivity|];
         split; reflexivity).
  unfold print_accuracy.
  cbn [G_METRICS set_MODEL set_SCALER set_FEATURES set_FEATURE_IMPORTANCE
       set_METRICS set_MODEL_NAME].
  destruct (as_mapping metrics) as [e|d]; cbn [bind].
  - split; [left; reflexivity|]. split; [reflexivity|].
    split; [reflexivity|]. split; reflexivity.
  - destruct (format_4f (dict_get d "accuracy" (VInt 0))) as [e|s]; cbn [bind ret].
    + split; [left; reflexivity|]. split; [reflexivity|].
      split; [reflexivity|]. split; reflexivity.
    + split.
      * right. exists {| file_model := Some model; file_scaler := Some scaler;
                         file_features := Some features;
                         file_feature_importance := importance;
                         file_metrics := Some metrics; file_model_name := Some name |},
                 model, scaler, features, metrics, name.
        repeat split.
      * split; [reflexivity|]. split.
        -- intros file Hfile Hnone. injection Hfile as <-.
           cbn in Hnone. intuition discriminate.
        -- cbn. split; discriminate.
Qed.

Lemma load_is_all_or_nothing_witness :
  load_model (inr MoreFixtures.model_file_no_metrics) MoreFixtures.format_4f
    MoreFixtures.dirty = NOT_LOADED
  /\ G_MODEL (load_model (inr MoreFixtures.model_file) MoreFixtures.format_4f
                MoreFixtures.dirty) <> None.
Proof.
  split.
  - destruct (load_is_all_or_nothing (inr MoreFixtures.model_file_no_metrics)
                MoreFixtures.format_4f MoreFixtures.dirty) as [_ [_ [H _]]].
    apply (H MoreFixtures.model_file_no_metrics); [reflexivity|].
    right. right. right. left. reflexivity.
  - destruct (load_is_all_or_nothing (inr MoreFixtures.model_file)
                MoreFixtures.format_4f MoreFixtures.dirty) as [_ [_ [_ H]]].
    intros Hnone. apply H in Hnone. discriminate Hnone.
Defined.

Lemma lookup_firstn (n : nat) (d : dict) (k : string) (v : pyval) :
  dict_lookup (firstn n d) k = Some v -> dict_lookup d k = Some v.
Proof.
  revert d. induction n as [|n IH]; intros [|[k' v'] d]; cbn [firstn dict_lookup];
    try discriminate.
  destruct (String.eqb k' k); [auto | apply IH].
Qed.

(** X17. [feature_importance] answers 404 exactly when no model is loaded
    or no importance is known; otherwise its [top_10] is the first
    [min 10 n] bindings of the [n] it has, so it is not empty, it is the
    whole mapping when there are at most 10, and every value it gives for
    a feature is the value the full mapping gives. *)
Theorem feature_importance_top_10 (g : Globals) :
  match feature_importance g with
  | Importance_404 => G_MODEL g = None \/ G_FEATURE_IMPORTANCE g = []
  | Importance_200 importance top_10 =>
      G_MODEL g <> None
      /\ importance = G_FEATURE_IMPORTANCE g
      /\ top_10 = firstn 10 importance
      /\ top_10 <> []
      /\ List.length top_10 = Nat.min 10 (List.length importance)
      /\ ((List.length importance <= 10)%nat -> top_10 = importance)
      /\ (forall k v, dict_lookup top_10 k = Some v -> dict_lookup importance k = Some v)
  end.
Proof.
  unfold feature_importance.
  destruct (G_MODEL g) as [model|]; [|left; reflexivity].
  destruct (G_FEATURE_IMPORTANCE g) as [|kv rest]; [right; reflexivity|].
  split; [discriminate|]. split; [reflexivity|]. split; [reflexivity|].
  split; [discriminate|]. split; [apply length_firstn|].
  split; [apply firstn_all2 | intros k v; apply lookup_firstn].
Qed.

(* ===================================================================== *)
(** ** Further properties of the classifier adapter *)
(* ===================================================================== *)

(** The shape of a probability, by exponent: 0, 1, the binade of 1/2, or
    below 1/2. *)
Lemma is_probability_shape (p : spec_float) :
  is_probability p = true ->
  (exists s, p = S754_zero s)
  \/ p = f32_one
  \/ (exists m, p = S754_finite false m (-24) /\ 2 ^ 23 <= Zpos m < 2 ^ 24)
  \/ (exists m e, p = S754_finite false m e /\ -149 <= e <= -25 /\ Zpos m < 2 ^ 24).
Proof.
  intros Hp.
  destruct (is_probability_cases p Hp) as [Hz | [H1 | [m [e [-> [He Hm]]]]]];
    [left; exact Hz | right; left; exact H1 |].
  right. right.
  unfold is_probability in Hp. rewrite !andb_true_iff in Hp. destruct Hp as [[Hv _] _].
  cbn [valid_binary] in Hv. unfold bounded, canonical_mantissa in Hv.
  apply andb_true_iff in Hv. destruct Hv as [Hc _].
  apply Z.eqb_eq in Hc. rewrite fexp32 in Hc.
  pose proof (digits2_pos_spec m) as [Hlo Hhi].
  destruct (Z.eq_dec e (-24)) as [-> | Hne].
  - left. exists m. split; [reflexivity|].
    assert (Zpos (digits2_pos m) = 24) as Hd by lia. rewrite Hd in *.
    change (24 - 1) with 23 in Hlo. lia.
  - right. exists m, e. split; [reflexivity|]. split; [lia|].
    assert (Zpos (digits2_pos m) <= 24) as Hd by lia.
    assert (2 ^ Zpos (digits2_pos m) <= 2 ^ 24) by (apply Z.pow_le_mono_r; lia).
    lia.
Qed.

(** For a probability the strict test against 0.5 is the test that the
    second entry of the row is the greater one. *)
Lemma threshold_is_argmax (p : spec_float) :
  is_probability p = true ->
  SFltb f32_half p = argmax_is_positive (f32_sub f32_one p) p.
Proof.
  intros Hp. pose proof (f32_row_sums_to_one p Hp) as Hsum.
  destruct (is_probability_shape p Hp)
    as [[s ->] | [-> | [[m [-> [Hlo Hhi]]] | [m [e [-> [He Hm]]]]]]].
  - destruct s; reflexivity.
  - reflexivity.
  - destruct (Z.eq_dec (Zpos m) (2 ^ 23)) as [Heq | Hne].
    + assert (m = 8388608%positive) as -> by (change (2 ^ 23) with 8388608 in Heq; congruence).
      vm_compute. reflexivity.
    + unfold sums_to_one, argmax_is_positive in *.
      destruct (f32_units (f32_sub f32_one (S754_finite false m (-24)))) as [uq|];
        [|discriminate Hsum].
      cbn [f32_units] in *. apply Z.leb_le in Hsum.
      change (-24 + 149) with 125 in *.
      assert (SFltb f32_half (S754_finite false m (-24)) = true) as ->.
      { unfold SFltb, SFcompare, f32_half. rewrite Z.compare_refl.
        assert (Pos.compare 8388608 m = Lt) as Hcmp
          by (apply Pos.compare_lt_iff; change (2 ^ 23) with 8388608 in *; lia).
        unfold Pos.compare in Hcmp. rewrite Hcmp. reflexivity. }
      symmetry. apply Z.ltb_lt.
      change (2 ^ 23) with 8388608 in *. change (2 ^ 24) with 16777216 in *.
      assert (2 ^ 149 = 16777216 * 2 ^ 125) as H149 by reflexivity.
      assert (2 ^ 125 = 2 * 2 ^ 124) as H125 by reflexivity.
      assert (0 < 2 ^ 124) as Hpos by reflexivity.
      lia.
  - unfold sums_to_one, argmax_is_positive in *.
    destruct (f32_units (f32_sub f32_one (S754_finite false m e))) as [uq|];
      [|discriminate Hsum].
    cbn [f32_units] in *. apply Z.leb_le in Hsum.
    assert (SFltb f32_half (S754_finite false m e) = false) as ->.
    { unfold SFltb, SFcompare, f32_half.
      destruct (Z.compare_spec (-24) e); try reflexivity; lia. }
    symmetry. apply Z.ltb_ge.
    assert (0 < 2 ^ (e + 149) <= 2 ^ 124) as [Hp1 Hp2]
      by (split; [apply Z.pow_pos_nonneg; lia | apply Z.pow_le_mono_r; lia]).
    assert (Zpos m * 2 ^ (e + 149) <= 16777215 * 2 ^ 124) as Hup.
    { change (2 ^ 24) with 16777216 in Hm.
      transitivity (16777215 * 2 ^ (e + 149)).
      - apply Z.mul_le_mono_nonneg_r; lia.
      - apply Z.mul_le_mono_nonneg_l; lia. }
    assert (2 ^ 149 = 33554432 * 2 ^ 124) as H149 by reflexivity.
    assert (0 < 2 ^ 124) as Hpos by reflexivity.
    lia.
Qed.

(** X18. [predict] and [predict_proba] of the adapter agree: when the
    scores of the booster are probabilities, the label of each sample is
    the index of the greater entry of its probability row, and 0 when the
    two entries are equal (as [np.argmax] of the row would give). *)
Theorem adapter_label_is_argmax (booster : Booster) (X : matrix)
    (proba : list spec_float) :
  booster_predict booster X = inr proba ->
  Forall (fun p => is_probability p = true) proba ->
  exists rows labels,
    XGBoostBoosterWrapper.predict_proba booster X = inr rows
    /\ XGBoostBoosterWrapper.predict booster X = inr labels
    /\ Forall2 (fun row label =>
                  exists q p,
                    row = [q; p]
                    /\ label = (if argmax_is_positive q p then 1 else 0))
               rows labels.
Proof.
  intros Hp Hall. unfold XGBoostBoosterWrapper.predict_proba, XGBoostBoosterWrapper.predict.
  rewrite Hp. cbn [bind ret]. do 2 eexists. split; [reflexivity|]. split; [reflexivity|].
  clear Hp. induction Hall as [|p rest Hprob _ IH]; cbn [map]; constructor; [|exact IH].
  exists (f32_sub f32_one p), p. split; [reflexivity|].
  rewrite (threshold_is_argmax p Hprob). reflexivity.
Qed.

Lemma adapter_label_is_argmax_witness :
  exists rows labels,
    XGBoostBoosterWrapper.predict_proba Fixtures.booster_half [[f32_one]] = inr rows
    /\ XGBoostBoosterWrapper.predict Fixtures.booster_half [[f32_one]] = inr labels
    /\ Forall2 (fun row label =>
                  exists q p,
                    row = [q; p]
                    /\ label = (if argmax_is_positive q p then 1 else 0))
               rows labels.
Proof.
  apply (adapter_label_is_argmax Fixtures.booster_half [[f32_one]] [f32_half] eq_refl).
  constructor; [reflexivity | constructor].
Defined.

(** Rounding [dp * 2^e], a number below 1, to binary32 gives a
    well-formed float that is at most 1. *)
Lemma binary_round_unit (dp : positive) (e : Z) :
  -149 <= e -> Zpos dp < 2 ^ (- e) ->
  exists mq eq,
    binary_round 24 128 false dp e = S754_finite false mq eq
    /\ canonical_mantissa 24 128 mq eq = true
    /\ -149 <= eq <= 104
    /\ Zpos mq * 2 ^ (eq + 149) <= 2 ^ 149.
Proof.
  intros He Hdp.
  pose proof (digits2_pos_spec dp) as [Hlo Hhi].
  set (n := Zpos (digits2_pos dp)) in *.
  assert (0 < n) as Hn0 by (unfold n; lia).
  assert (n <= - e) as Hn.
  { destruct (Z.leb_spec n (- e)); [assumption|]. exfalso.
    assert (2 ^ (- e) <= 2 ^ (n - 1)) by (apply Z.pow_le_mono_r; lia). lia. }
  assert (0 < 2 ^ (e + 149)) as HE by (apply Z.pow_pos_nonneg; lia).
  assert (2 ^ 149 = 2 ^ (- e) * 2 ^ (e + 149)) as H149
    by (rewrite <- pow2_split by lia; f_equal; lia).
  assert (Zpos dp * 2 ^ (e + 149) <= 2 ^ 149) as Hval
    by (rewrite H149; apply Z.mul_le_mono_nonneg_r; lia).
  unfold binary_round. fold n. rewrite fexp32.
  set (t := Z.max (n + e - 24) (-149)).
  unfold shl_align.
  destruct (t - e) as [|k|d] eqn:Hk.
  - rewrite binary_round_aux_keep.
    + exists dp, e. split; [reflexivity|]. split; [|split; [lia | exact Hval]].
      unfold canonical_mantissa. apply Z.eqb_eq. fold n. rewrite fexp32. fold t. lia.
    + fold n. rewrite fexp32. fold t. lia.
    + lia.
  - assert (t = n + e - 24) as Ht by lia.
    assert (Zpos k = n - 24) as Hkn by lia.
    destruct (shr_shift (Zpos dp) e k ltac:(lia)) as [mrs [Hshr Hinv]].
    assert (shr_fexp 24 128 (Zpos dp) e loc_Exact = (mrs, t)) as H1.
    { unfold shr_fexp. cbn [Zdigits2]. fold n. rewrite fexp32. fold t.
      rewrite Hk, Hshr. f_equal. lia. }
    pose proof (round_nearest_even_bound (Zpos dp) (Zpos k) mrs ltac:(lia) ltac:(lia) Hinv)
      as [HM _].
    cbv zeta in HM.
    unfold binary_round_aux. rewrite H1.
    set (M := round_nearest_even (shr_m mrs) (loc_of_shr_record mrs)) in *.
    assert (0 < 2 ^ Zpos k) as Hpk by (apply Z.pow_pos_nonneg; lia).
    assert (2 ^ (n - 1) = 2 ^ 23 * 2 ^ Zpos k) as Hsplit1
      by (replace (n - 1) with (23 + Zpos k) by lia; apply pow2_split; lia).
    assert (2 ^ n = 2 ^ 24 * 2 ^ Zpos k) as Hsplit2
      by (replace n with (24 + Zpos k) at 1 by lia; apply pow2_split; lia).
    assert (2 ^ 23 <= Zpos dp / 2 ^ Zpos k < 2 ^ 24) as [Hq1 Hq2].
    { split.
      - apply Z.div_le_lower_bound; lia.
      - apply Z.div_lt_upper_bound; lia. }
    assert (0 < 2 ^ (t + 149)) as HT by (apply Z.pow_pos_nonneg; lia).
    assert (2 ^ 24 * 2 ^ (t + 149) <= 2 ^ 149) as Htop149.
    { rewrite <- pow2_split by lia. apply Z.pow_le_mono_r; lia. }
    destruct M as [|Mp|Mp] eqn:HMp; [lia | | lia].
    destruct (Z.eq_dec (Zpos Mp) (2 ^ 24)) as [Htop | Hntop].
    + assert (Mp = 16777216%positive) as -> by (change (2 ^ 24) with 16777216 in Htop; congruence).
      unfold shr_fexp. change (Zdigits2 16777216) with 25. rewrite fexp32.
      replace (Z.max (25 + t - 24) (-149) - t) with 1 by lia.
      cbn [shr_record_of_loc shr iter_pos shr_1 shr_m].
      change (128 - 24) with 104.
      destruct (Z.leb_spec (t + 1) 104); [|lia].
      exists 8388608%positive, (t + 1). split; [reflexivity|].
      split; [|split; [lia|]].
      * unfold canonical_mantissa. apply Z.eqb_eq.
        change (Zpos (digits2_pos 8388608)) with 24. rewrite fexp32. lia.
      * replace (t + 1 + 149) with (Z.succ (t + 149)) by lia.
        rewrite Z.pow_succ_r by lia.
        change (2 ^ 24) with 16777216 in Htop149. lia.
    + assert (Zpos (digits2_pos Mp) = 24) as Hdig
        by (apply digits2_pos_unique; change (24 - 1) with 23; lia).
      rewrite shr_fexp_keep by (rewrite Hdig, fexp32; lia).
      cbn [shr_record_of_loc shr_m]. change (128 - 24) with 104.
      destruct (Z.leb_spec t 104); [|lia].
      exists Mp, t. split; [reflexivity|]. split; [|split; [lia|]].
      * unfold canonical_mantissa. apply Z.eqb_eq. rewrite Hdig, fexp32. lia.
      * transitivity (2 ^ 24 * 2 ^ (t + 149)); [|exact Htop149].
        apply Z.mul_le_mono_nonneg_r; lia.
  - assert (Zpos d = e - t) as Hd by lia.
    pose proof (iter_xO dp d) as Hmz.
    set (mz := Pos.iter xO dp d) in *.
    assert (0 < 2 ^ Zpos d) as Hpd by (apply Z.pow_pos_nonneg; lia).
    assert (Zpos (digits2_pos mz) = n + Zpos d) as Hdig.
    { apply digits2_pos_unique. rewrite Hmz.
      replace (n + Zpos d - 1) with ((n - 1) + Zpos d) by lia.
      rewrite !pow2_split by lia. nia. }
    rewrite binary_round_aux_keep.
    + exists mz, t. split; [reflexivity|]. split; [|split; [lia|]].
      * unfold canonical_mantissa. apply Z.eqb_eq. rewrite Hdig, fexp32. lia.
      * rewrite Hmz. replace (e + 149) with (Zpos d + (t + 149)) in Hval by lia.
        rewrite (pow2_split (Zpos d)) in Hval by lia. lia.
    + rewrite Hdig, fexp32. lia.
    + lia.
Qed.

Lemma f32_leb_one (mq : positive) (eq : Z) :
  canonical_mantissa 24 128 mq eq = true ->
  -149 <= eq ->
  Zpos mq * 2 ^ (eq + 149) <= 2 ^ 149 ->
  SFleb (S754_finite false mq eq) f32_one = true.
Proof.
  intros Hc Heq Hval.
  unfold canonical_mantissa in Hc. apply Z.eqb_eq in Hc. rewrite fexp32 in Hc.
  pose proof (digits2_pos_spec mq) as [Hlo Hhi].
  unfold SFleb, SFcompare, f32_one.
  destruct (Z.compare_spec eq (-23)) as [He | He | He]; [|reflexivity|].
  - subst eq. change (-23 + 149) with 126 in Hval.
    assert (Zpos mq <= 8388608) as Hle.
    { assert (2 ^ 149 = 8388608 * 2 ^ 126) as H149 by reflexivity.
      assert (0 < 2 ^ 126) as Hpos by reflexivity. nia. }
    destruct (Pos.compare_cont Eq mq 8388608) eqn:Hcmp; try reflexivity.
    exfalso. apply (Pos.compare_gt_iff mq 8388608) in Hcmp.
    apply Pos2Z.pos_lt_pos in Hcmp. lia.
  - exfalso.
    assert (Zpos (digits2_pos mq) = 24) as Hd by lia. rewrite Hd in *.
    change (24 - 1) with 23 in Hlo.
    assert (2 ^ 127 <= 2 ^ (eq + 149)) as Hpow by (apply Z.pow_le_mono_r; lia).
    change (2 ^ 23) with 8388608 in Hlo.
    assert (8388608 * 2 ^ 127 <= Zpos mq * 2 ^ (eq + 149)) as Hbig.
    { transitivity (8388608 * 2 ^ (eq + 149)).
      - apply Z.mul_le_mono_nonneg_l; [lia | exact Hpow].
      - apply Z.mul_le_mono_nonneg_r; [|exact Hlo].
        apply Z.pow_nonneg. lia. }
    assert (2 ^ 149 < 8388608 * 2 ^ 127) as Hlt by reflexivity.
    lia.
Qed.

(** The float32 difference [1 - p] of a probability is a probability. *)
Lemma f32_complement_is_probability (p : spec_float) :
  is_probability p = true -> is_probability (f32_sub f32_one p) = true.
Proof.
  intros Hp. destruct (is_probability_cases p Hp) as [[s ->] | [-> | [m [e [-> [He Hm]]]]]].
  - destruct s; reflexivity.
  - reflexivity.
  - unfold f32_sub, SFsub, f32_one.
    rewrite Z.min_r by lia.
    unfold shl_align at 2. rewrite Z.sub_diag. cbn [fst cond_Zopp].
    unfold shl_align.
    destruct (e - -23) as [|d|d] eqn:Hd; try lia.
    cbn [fst]. rewrite iter_xO.
    assert (Zpos d = -23 - e) as Hd' by lia.
    assert (8388608 * 2 ^ Zpos d = 2 ^ (- e)) as Hone.
    { change 8388608 with (2 ^ 23). rewrite <- pow2_split by lia. f_equal. lia. }
    rewrite Hone.
    destruct (2 ^ (- e) - Zpos m) as [|dp|dp] eqn:Hdp; try lia.
    cbn [binary_normalize].
    destruct (binary_round_unit dp e ltac:(lia) ltac:(lia))
      as [mq [eq [Hr [Hcanon [Heq Hval]]]]].
    rewrite Hr. fold f32_one. unfold is_probability.
    rewrite (f32_leb_one mq eq Hcanon ltac:(lia) Hval).
    cbn [valid_binary]. unfold bounded. rewrite Hcanon.
    change (128 - 24) with 104.
    destruct (Z.leb_spec eq 104); [reflexivity | lia].
Qed.

(** X19. Every row of [predict_proba] of the adapter is a pair of
    probabilities when the scores of the booster are: both entries are
    well-formed float32 numbers between 0 and 1. *)
Theorem adapter_rows_are_probabilities (booster : Booster) (X : matrix)
    (proba : list spec_float) :
  booster_predict booster X = inr proba ->
  Forall (fun p => is_probability p = true) proba ->
  exists rows,
    XGBoostBoosterWrapper.predict_proba booster X = inr rows
    /\ List.length rows = List.length proba
    /\ Forall (fun row =>
                 List.length row = 2%nat
                 /\ Forall (fun x => is_probability x = true) row) rows.
Proof.
  intros Hp Hall. unfold XGBoostBoosterWrapper.predict_proba.
  rewrite Hp. cbn [bind ret]. eexists. split; [reflexivity|].
  split; [apply length_map|]. clear Hp.
  induction Hall as [|p rest Hprob _ IH]; cbn [map]; constructor; [|exact IH].
  split; [reflexivity|].
  repeat constructor; [apply f32_complement_is_probability|]; exact Hprob.
Qed.

Lemma adapter_rows_are_probabilities_witness :
  exists rows,
    XGBoostBoosterWrapper.predict_proba Fixtures.booster [[f32_one]] = inr rows
    /\ Forall (fun row =>
                 List.length row = 2%nat
                 /\ Forall (fun x => is_probability x = true) row) rows.
Proof.
  destruct (adapter_rows_are_probabilities Fixtures.booster [[f32_one]]
              [Fixtures.f32_075] eq_refl
              ltac:(constructor; [reflexivity | constructor]))
    as [rows [H1 [_ H3]]].
  exists rows. split; [exact H1 | exact H3].
Defined.

(* ===================================================================== *)
(** ** The confidence of a prediction *)
(* ===================================================================== *)

Ltac fold_pos_compare :=
  repeat match goal with
         | |- context [Pos.compare_cont Eq ?a ?b] =>
             change (Pos.compare_cont Eq a b) with (Pos.compare a b)
         | H : context [Pos.compare_cont Eq ?a ?b] |- _ =>
             change (Pos.compare_cont Eq a b) with (Pos.compare a b) in H
         end.

Ltac compare_cases :=
  repeat match goal with
         | |- context [Z.compare ?a ?b] => destruct (Z.compare_spec a b)
         | H : context [Z.compare ?a ?b] |- _ => destruct (Z.compare_spec a b)
         | |- context [Pos.compare ?a ?b] => destruct (Pos.compare_spec a b)
         | H : context [Pos.compare ?a ?b] |- _ => destruct (Pos.compare_spec a b)
         end.

Lemma SFltb_irrefl (a : spec_float) : SFltb a a = false.
Proof.
  unfold SFltb, SFcompare.
  destruct a as [[|]|[|]| |[|] m e]; try reflexivity;
    rewrite Z.compare_refl; fold_pos_compare; rewrite Pos.compare_refl; reflexivity.
Qed.

Lemma SFltb_trans (a b c : spec_float) :
  SFltb a b = true -> SFltb b c = true -> SFltb a c = true.
Proof.
  unfold SFltb, SFcompare.
  destruct a as [[|]|[|]| |[|] m1 e1], b as [[|]|[|]| |[|] m2 e2],
    c as [[|]|[|]| |[|] m3 e3];
    try discriminate; try reflexivity;
    fold_pos_compare; intros H1 H2; compare_cases;
    cbn in *; try discriminate; try reflexivity; try lia.
Qed.

(** Among numbers [<] is a weak order: what is below [c] is below [b],
    or [b] is below [c]. *)
Lemma SFltb_negative_trans (a b c : spec_float) :
  b <> S754_nan -> SFltb a c = true -> SFltb a b = true \/ SFltb b c = true.
Proof.
  unfold SFltb, SFcompare.
  destruct a as [[|]|[|]| |[|] m1 e1], b as [[|]|[|]| |[|] m2 e2],
    c as [[|]|[|]| |[|] m3 e3];
    intros Hb; try congruence; try discriminate; try (left; reflexivity);
    try (right; reflexivity);
    fold_pos_compare; intros H1; compare_cases;
    cbn in *; try discriminate; try (left; reflexivity); try (right; reflexivity);
    try lia.
Qed.

Lemma py_max_cons (p y : spec_float) (ps : list spec_float) :
  py_max p (y :: ps) = py_max (if SFltb p y then y else p) ps.
Proof. reflexivity. Qed.

Lemma py_max_nan (ps : list spec_float) : py_max S754_nan ps = S754_nan.
Proof. induction ps as [|y ps IH]; [reflexivity | rewrite py_max_cons; exact IH]. Qed.

Lemma py_max_in (ps : list spec_float) :
  forall p, In (py_max p ps) (p :: ps).
Proof.
  induction ps as [|y ps IH]; intros p; [left; reflexivity|].
  rewrite py_max_cons. specialize (IH (if SFltb p y then y else p)).
  destruct (SFltb p y); cbn [In] in *; tauto.
Qed.

Lemma py_max_upper (ps : list spec_float) :
  forall p x, In x (p :: ps) -> SFltb (py_max p ps) x = false.
Proof.
  induction ps as [|y ps IH]; intros p x Hin.
  - destruct Hin as [<- | []]. apply SFltb_irrefl.
  - rewrite py_max_cons.
    pose proof (IH (if SFltb p y then y else p)) as Hup.
    destruct (SFltb p y) eqn:Hpy; cbv iota in Hup.
    + destruct Hin as [<- | Hin]; [|apply Hup; exact Hin].
      destruct (SFltb (py_max y ps) p) eqn:Hr; [|reflexivity].
      rewrite <- (Hup y (or_introl eq_refl)). symmetry.
      apply (SFltb_trans _ p y Hr Hpy).
    + destruct Hin as [<- | [<- | Hin]].
      * apply Hup. left. reflexivity.
      * destruct (SFltb (py_max p ps) y) eqn:Hr; [|reflexivity].
        assert (p <> S754_nan -> False) as Hnum.
        { intros Hb. destruct (SFltb_negative_trans _ p _ Hb Hr) as [H | H].
          - rewrite (Hup p (or_introl eq_refl)) in H. discriminate H.
          - rewrite Hpy in H. discriminate H. }
        destruct p as [s | s | | s m e];
          try (exfalso; apply Hnum; discriminate).
        rewrite py_max_nan in Hr. discriminate Hr.
      * apply Hup. right. exact Hin.
Qed.

(** X20. The confidence of a prediction is [max] of its probability row:
    it is one of the entries of the row and no entry is greater (also
    when the row holds NaN); there is no confidence exactly when the
    model has no [predict_proba] or the row is empty. *)
Theorem confidence_is_the_maximum (prediction_proba : option (list spec_float)) :
  match confidence_of prediction_proba with
  | Some c =>
      exists row,
        prediction_proba = Some row
        /\ In c row
        /\ (forall x, In x row -> SFltb c x = false)
  | None => prediction_proba = None \/ prediction_proba = Some []
  end.
Proof.
  destruct prediction_proba as [[|p ps]|]; cbn [confidence_of]; auto.
  exists (p :: ps). split; [reflexivity|].
  split; [apply py_max_in | intros x; apply py_max_upper].
Qed.
